(** * youtube-knowledge-mcp: quota ledger, response cache and LLM broker

    A shallow embedding of three classes of the server:

    - [CacheManager]      (src/utils/cache.ts)
    - [QuotaManager]      (utils/quota.ts, the YouTube Data API ledger)
    - [RobustLLMService]  (utils/llm-service.ts, the multi-provider broker)

    and of their callers:

    - [YouTubeClient]     (src/youtube-client.ts, with its own count of
                           quota units)
    - [YouTubeSearchTool], [VideoDetailsTool], [TrendingVideosTool] and
      [ChannelSearchTool] (src/tools/), from the validated parameters on.

    Conventions of the embedding.

    - JavaScript numbers that count things (quota units, tokens, requests,
      milliseconds, seconds) are integers of [Z]; the arithmetic of the
      source never takes them out of the integers.
    - [Date.now()] is an explicit argument or a clock field, in
      milliseconds.
    - A JavaScript string is the list of its UTF-8 bytes, as a [string].
    - Calls to the winston logger write to no state that the code reads
      back; they are left out.
    - An [async] method runs to completion: interleavings of several
      requests at an [await] are outside the model. *)

From Stdlib Require Import ZArith Lia Bool List Ascii String.
From stdpp Require Import base option list gmap strings pretty sorting.

Local Open Scope Z_scope.

(** ** CacheManager (src/utils/cache.ts)

    The in-memory backend: [useRedis] is [false] until a Redis server is
    configured and has connected. The [Map] is a [gmap] keyed by the
    cache key. The class is viewed at the payload type [T] its client
    reads and writes ([get<T>] / [set<T>]). *)
Module Cache.
Section CacheManager.
Context {T : Type}.

Record CacheEntry := {
  data : T;
  timestamp : Z;   (* Date.now() at the time of [set], in ms *)
  ttl : Z          (* seconds *)
}.

(** [CacheConfig.ttl] *)
Record CacheConfig := {
  transcripts : Z;
  videoDetails : Z;
  searchResults : Z;
  comments : Z
}.

Record CacheManager := {
  config : CacheConfig;
  memoryCache : gmap string CacheEntry
}.

Definition with_memoryCache (c : CacheManager) (m : gmap string CacheEntry) : CacheManager :=
  {| config := config c; memoryCache := m |}.

(** [Date.now() - entry.timestamp > entry.ttl * 1000] *)
Definition isExpired (now : Z) (entry : CacheEntry) : bool :=
  now - timestamp entry >? ttl entry * 1000.

Definition startsWith (key pre : string) : bool := String.prefix pre key.

Definition getDefaultTTL (c : CacheManager) (key : string) : Z :=
  if startsWith key "transcript:" then transcripts (config c)
  else if startsWith key "video:" then videoDetails (config c)
  else if startsWith key "search:" then searchResults (config c)
  else if startsWith key "comments:" then comments (config c)
  else if startsWith key "trending:" then searchResults (config c)
  else if startsWith key "channel:" then videoDetails (config c)
  else 3600.

(** [ttl || d]: an omitted argument and [0] are both falsy. *)
Definition or_default (ttl : option Z) (d : Z) : Z :=
  match ttl with
  | Some t => if t =? 0 then d else t
  | None => d
  end.

(** [get]: the payload of a live entry; an expired entry is deleted and
    [null] (here [None]) is returned. *)
Definition get (now : Z) (key : string) (c : CacheManager) : option T * CacheManager :=
  match memoryCache c !! key with
  | Some entry =>
      if isExpired now entry
      then (None, with_memoryCache c (delete key (memoryCache c)))
      else (Some (data entry), c)
  | None => (None, c)
  end.

Definition set (now : Z) (key : string) (v : T) (ttl : option Z) (c : CacheManager) : CacheManager :=
  let cacheEntry :=
    {| data := v; timestamp := now; ttl := or_default ttl (getDefaultTTL c key) |} in
  with_memoryCache c (<[key := cacheEntry]> (memoryCache c)).

Definition del (key : string) (c : CacheManager) : CacheManager :=
  with_memoryCache c (delete key (memoryCache c)).

Definition clear (c : CacheManager) : CacheManager :=
  with_memoryCache c ∅.

(** The five-minute sweep. *)
Definition cleanupMemoryCache (now : Z) (c : CacheManager) : CacheManager :=
  with_memoryCache c
    (filter (λ kv : string * CacheEntry, isExpired now kv.2 = false) (memoryCache c)).

End CacheManager.
Arguments CacheEntry : clear implicits.
Arguments CacheManager : clear implicits.
End Cache.

(** ** QuotaManager (utils/quota.ts) *)
Module Quota.

Record QuotaConfig := {
  dailyLimit : Z;
  reserveBuffer : Z;
  prioritizeRecent : bool;
  warningThreshold : Z
}.

(** The ledger persists its counter in the shared cache under the key
    ["quota:daily_usage"], as a number. [resetTime] and the timer that
    fires [resetDailyQuota] are left out: no method below reads them. *)
Record QuotaManager := {
  usage : Z;
  config : QuotaConfig;
  cache : Cache.CacheManager Z
}.

Definition canPerformOperation (q : QuotaManager) (cost : Z) : bool :=
  let availableQuota := dailyLimit (config q) - reserveBuffer (config q) in
  usage q + cost <=? availableQuota.

(** [this.usage += cost], then the new total is written to the cache
    with a 24 hour ttl. *)
Definition recordUsage (now : Z) (q : QuotaManager) (cost : Z) (operation : string) : QuotaManager :=
  let usage' := usage q + cost in
  {| usage := usage';
     config := config q;
     cache := Cache.set now "quota:daily_usage" usage' (Some 86400) (cache q) |}.

Definition getAvailableQuota (q : QuotaManager) : Z :=
  let availableQuota := dailyLimit (config q) - reserveBuffer (config q) in
  Z.max 0 (availableQuota - usage q).

(** What [costs[operation] || 1] evaluates to. The object literal has
    six own keys; a name inherited from [Object.prototype] yields a
    function or an object, which is truthy and is not a number. *)
Inductive cost_value :=
| Units (n : Z)
| NotANumber.

Definition inherited_keys : list string :=
  [ "constructor"; "toString"; "toLocaleString"; "valueOf"; "hasOwnProperty";
    "isPrototypeOf"; "propertyIsEnumerable"; "__proto__"; "__defineGetter__";
    "__defineSetter__"; "__lookupGetter__"; "__lookupSetter__" ]%string.

Definition costs : list (string * Z) :=
  [ ("search", 100); ("video_details", 1); ("trending", 1);
    ("comments", 1); ("channel_details", 1); ("channel_search", 100) ]%string.

Fixpoint assoc (k : string) (l : list (string * Z)) : option Z :=
  match l with
  | [] => None
  | (k', v) :: l' => if String.eqb k k' then Some v else assoc k l'
  end.

Definition getOperationCost (operation : string) : cost_value :=
  match assoc operation costs with
  | Some n => if n =? 0 then Units 1 else Units n
  | None =>
      if existsb (String.eqb operation) inherited_keys then NotANumber else Units 1
  end.

(** [cost > availableQuota]; a comparison with a non-number is false. *)
Definition cost_gt (c : cost_value) (a : Z) : bool :=
  match c with
  | Units n => n >? a
  | NotANumber => false
  end.

(** [(usage / limit) * 100 > k] over the rationals, without the
    division. JavaScript divides by zero to an infinity, or to NaN
    for 0/0, which compares false. *)
Definition percentage_gt (u limit k : Z) : bool :=
  if 0 <? limit then k * limit <? u * 100
  else if limit <? 0 then u * 100 <? k * limit
  else 0 <? u.

Definition optimizeOperation (q : QuotaManager) (operation : string) (requestedItems : Z) : Z :=
  let cost := getOperationCost operation in
  let availableQuota := getAvailableQuota q in
  if cost_gt cost availableQuota then 0
  else if String.eqb operation "video_details" || String.eqb operation "channel_details" then
    match cost with
    | Units n => Z.min requestedItems (availableQuota / n)
    | NotANumber => requestedItems
    end
  else if (String.eqb operation "search" || String.eqb operation "channel_search")
          && percentage_gt (usage q) (dailyLimit (config q)) 80
  then Z.min requestedItems 5
  else requestedItems.

Definition shouldUseCachedResults (q : QuotaManager) : bool :=
  percentage_gt (usage q) (dailyLimit (config q)) 85.

(** [resetDailyQuota] *)
Definition resetDailyQuota (q : QuotaManager) : QuotaManager :=
  {| usage := 0; config := config q; cache := Cache.del "quota:daily_usage" (cache q) |}.

(** [loadQuotaFromCache], run once by the constructor. *)
Definition loadQuotaFromCache (now : Z) (q : QuotaManager) : QuotaManager :=
  match Cache.get now "quota:daily_usage" (cache q) with
  | (Some cachedUsage, c) => {| usage := cachedUsage; config := config q; cache := c |}
  | (None, c) => {| usage := usage q; config := config q; cache := c |}
  end.

(** A fresh ledger, before hydration. *)
Definition new (cfg : QuotaConfig) (c : Cache.CacheManager Z) : QuotaManager :=
  {| usage := 0; config := cfg; cache := c |}.

(** *** Sequences of calls

    The public calls of a client, each at the time it is made.
    [recordUsage] is the only one of them that writes the counter;
    the scheduled [resetDailyQuota] and the constructor's hydration
    are the other two writers and are no part of a client's sequence. *)
Inductive call :=
| CanPerformOperation (cost : Z)
| RecordUsage (now : Z) (cost : Z) (operation : string)
| GetAvailableQuota
| OptimizeOperation (operation : string) (requestedItems : Z)
| ShouldUseCachedResults.

Definition step (q : QuotaManager) (c : call) : QuotaManager :=
  match c with
  | RecordUsage now cost operation => recordUsage now q cost operation
  | _ => q
  end.

(** The ledger after each call of the sequence, in order. *)
Fixpoint states (q : QuotaManager) (cs : list call) : list QuotaManager :=
  match cs with
  | [] => []
  | c :: cs' => step q c :: states (step q c) cs'
  end.

(** The ledgers from the first [recordUsage] on. *)
Fixpoint states_from_first_record (q : QuotaManager) (cs : list call) : list QuotaManager :=
  match cs with
  | [] => []
  | RecordUsage now cost operation :: cs' =>
      recordUsage now q cost operation :: states (recordUsage now q cost operation) cs'
  | _ :: cs' => states_from_first_record q cs'
  end.

(** Every [recordUsage cost] is guarded: the latest
    [canPerformOperation] before it was for the same cost and returned
    true, and no write lies between the two ([admitted] is the cost of
    such a pending check). *)
Fixpoint guarded (q : QuotaManager) (admitted : option Z) (cs : list call) : bool :=
  match cs with
  | [] => true
  | CanPerformOperation cost :: cs' =>
      guarded q (if canPerformOperation q cost then Some cost else None) cs'
  | RecordUsage now cost operation :: cs' =>
      match admitted with
      | Some cost' => (cost =? cost') && guarded (recordUsage now q cost operation) None cs'
      | None => false
      end
  | _ :: cs' => guarded q admitted cs'
  end.

Definition within_budget (q : QuotaManager) : Prop :=
  usage q <= dailyLimit (config q) - reserveBuffer (config q).

End Quota.

(** ** Text encodings used by the broker's cache key *)
Module Encoding.

Local Open Scope string_scope.

(** The double quote character. *)
Definition dquote : ascii := ascii_of_N 34.
Definition backslash : ascii := ascii_of_N 92.

Definition str (a : ascii) : string := String a EmptyString.

Definition hex_digit (n : N) : ascii :=
  match String.get (N.to_nat n) "0123456789abcdef" with
  | Some c => c
  | None => "0"%char
  end.

(** [JSON.stringify] on one character of a string (QuoteJSONString):
    the quote and the backslash are escaped, a control character has a
    short escape or the form \u00xx, every other byte is copied. *)
Definition quoteJSONChar (a : ascii) : string :=
  let n := N_of_ascii a in
  if (n =? 34)%N then String backslash (str dquote)
  else if (n =? 92)%N then String backslash (str backslash)
  else if (n =? 8)%N then String backslash "b"
  else if (n =? 9)%N then String backslash "t"
  else if (n =? 10)%N then String backslash "n"
  else if (n =? 12)%N then String backslash "f"
  else if (n =? 13)%N then String backslash "r"
  else if (n <? 32)%N then
    String backslash ("u00" ++ String (hex_digit (n / 16)) (str (hex_digit (n mod 16))))
  else str a.

Fixpoint quoteJSONBody (s : string) : string :=
  match s with
  | EmptyString => EmptyString
  | String a s' => quoteJSONChar a ++ quoteJSONBody s'
  end.

Definition quoteJSONString (s : string) : string :=
  String dquote (quoteJSONBody s ++ str dquote).

(** One property of an object literal, [None] when its value is
    [undefined] (such a property is skipped). *)
Definition property (key : string) (value : option string) : option string :=
  match value with
  | Some v => Some (quoteJSONString key ++ ":" ++ v)
  | None => None
  end.

Fixpoint join (sep : string) (l : list string) : string :=
  match l with
  | [] => ""
  | [x] => x
  | x :: l' => x ++ sep ++ join sep l'
  end.

Definition stringifyObject (props : list (option string)) : string :=
  "{" ++ join "," (omap id props) ++ "}".

(** How the rendering of an object starts whose first property is a
    string named [key]: up to the opening quote of the value. *)
Definition objectHead (key : string) : string :=
  "{" ++ quoteJSONString key ++ ":" ++ str dquote.

(** Base64 with the standard alphabet and padding
    ([Buffer.toString('base64')]). *)
Definition b64_char (i : N) : ascii :=
  match String.get (N.to_nat i) "ABCDEFGHIJKLMNOPQRSTUVWXYZabcdefghijklmnopqrstuvwxyz0123456789+/" with
  | Some c => c
  | None => "="%char
  end.

Fixpoint base64 (s : string) : string :=
  match s with
  | EmptyString => EmptyString
  | String a EmptyString =>
      let x := N_of_ascii a in
      String (b64_char (x / 4)) (String (b64_char ((x mod 4) * 16)) "==")
  | String a (String b EmptyString) =>
      let x := N_of_ascii a in
      let y := N_of_ascii b in
      String (b64_char (x / 4))
        (String (b64_char ((x mod 4) * 16 + y / 16))
           (String (b64_char ((y mod 16) * 4)) "="))
  | String a (String b (String c s')) =>
      let x := N_of_ascii a in
      let y := N_of_ascii b in
      let z := N_of_ascii c in
      String (b64_char (x / 4))
        (String (b64_char ((x mod 4) * 16 + y / 16))
           (String (b64_char ((y mod 16) * 4 + z / 64))
              (String (b64_char (z mod 64)) (base64 s'))))
  end%N.

(** [s.slice(0, n)] *)
Fixpoint slice0 (n : nat) (s : string) : string :=
  match n, s with
  | S n', String a s' => String a (slice0 n' s')
  | _, _ => EmptyString
  end.

(** [text.length]: the number of UTF-16 code units of the string whose
    UTF-8 bytes are [s]. A continuation byte (10xxxxxx) starts no code
    unit; the lead byte of a four-byte sequence (11110xxx) starts two. *)
Fixpoint utf16_length (s : string) : Z :=
  match s with
  | EmptyString => 0
  | String a s' =>
      let n := N_of_ascii a in
      (if (n <? 128)%N then 1
       else if (n <? 192)%N then 0
       else if (n <? 240)%N then 1
       else 2) + utf16_length s'
  end.

End Encoding.

(** ** RobustLLMService (utils/llm-service.ts) *)
Module LLM.

(** *** Data of src/types.ts *)

Inductive ProviderName := openai | anthropic | azure.

Definition name_string (n : ProviderName) : string :=
  match n with
  | openai => "openai"
  | anthropic => "anthropic"
  | azure => "azure"
  end.

Record CurrentUsage := {
  requests : Z;
  tokens : Z
}.

Record RateLimit := {
  rpm : Z;
  tpm : Z;
  currentUsage : CurrentUsage
}.

Record LLMProvider := {
  name : ProviderName;
  priority : Z;
  rateLimit : RateLimit
}.

Inductive ResponseFormat := text | json.

Definition format_string (f : ResponseFormat) : string :=
  match f with
  | text => "text"
  | json => "json"
  end.

(** What a rejected promise of a provider SDK carries, as far as the
    broker inspects it: [error?.status], [error?.code], [error?.type]. *)
Record JsError := {
  status : option Z;
  code : option string;
  type : option string;
  message : string
}.

(** [new Error(msg)] *)
Definition Error (msg : string) : JsError :=
  {| status := None; code := None; type := None; message := msg |}.

(** What [generateWithFallback] can throw. *)
Inductive Thrown :=
| ThrownError (e : JsError)
| AggregateError (errors : list JsError) (msg : string).

(** [userQuotas] values *)
Record UserUsage := {
  daily : Z;
  hourly : Z
}.

Section Service.

(** A JavaScript number that is no count: a sampling temperature, a
    token ceiling as the caller wrote it, a price in dollars. The type
    and its rendering by [JSON.stringify] belong to the language. *)
Context {number : Type}.
Variable numberToJSON : number → string.

Record LLMRequest := {
  prompt : string;
  model : option string;
  maxTokens : option number;
  temperature : option number;
  responseFormat : option ResponseFormat
}.

(** [Omit<LLMResponse, 'provider' | 'processingTime'>]: what
    [executeRequest] resolves to, and what the cache stores. *)
Record ProviderResponse := {
  content : string;
  tokensUsed : Z;
  cost : number
}.

(** The object [generateWithFallback] returns. On a cache hit it is the
    spread of the cached object with [provider] added, so that
    [processingTime] is [undefined]. *)
Record LLMResponse := {
  response : ProviderResponse;
  provider : string;
  processingTime : option Z
}.

(** [encode] of gpt-tokenizer: the tokens, or [None] when it throws. *)
Variable encode : string → option (list N).

(** [executeOpenAIRequest] and [executeAnthropicRequest]: the SDK call
    with its post-processing. Given the request and the time of the
    call, the milliseconds the call takes and what the promise settles
    to. *)
Variable executeOpenAIRequest : LLMRequest → Z → N * (JsError + ProviderResponse).
Variable executeAnthropicRequest : LLMRequest → Z → N * (JsError + ProviderResponse).

Record RobustLLMService := {
  providers : list LLMProvider;
  cache : Cache.CacheManager ProviderResponse;
  userQuotas : gmap string UserUsage
}.

(** *** Effects

    What one request does to the world, in order of occurrence. The
    events are a ghost output: the code never reads them. *)
Inductive event :=
| RateCheck (p : ProviderName) (ok : bool)
| CacheGet (p : ProviderName) (key : string) (hit : option ProviderResponse)
| Execute (p : ProviderName) (settled : JsError + ProviderResponse)
| RecordUsage (p : ProviderName) (tokensUsed : Z) (userId : string)
| CacheSet (key : string) (v : ProviderResponse) (ttl : Z)
| Backoff (delay : Z).

Record State := {
  service : RobustLLMService;
  clock : Z
}.

(** A computation that may throw an [E]. The state it leaves survives
    the exception; the events it produced come out third. *)
Definition M (E A : Type) : Type := State → (E + A) * State * list event.

Definition ret {E A} (a : A) : M E A := λ s, (inr a, s, []).

Definition throw {E A} (e : E) : M E A := λ s, (inl e, s, []).

Definition bind {E A B} (m : M E A) (k : A → M E B) : M E B :=
  λ s, match m s with
       | (inr a, s1, t1) => let '(r, s2, t2) := k a s1 in (r, s2, t1 ++ t2)
       | (inl e, s1, t1) => (inl e, s1, t1)
       end.

Definition try_catch {E E' A} (m : M E A) (handler : E → M E' A) : M E' A :=
  λ s, match m s with
       | (inr a, s1, t1) => (inr a, s1, t1)
       | (inl e, s1, t1) => let '(r, s2, t2) := handler e s1 in (r, s2, t1 ++ t2)
       end.

Notation "'let*' x ':=' m 'in' k" := (bind m (λ x, k))
  (at level 10, x name, m at level 100, k at level 200).
Notation "m ';;' k" := (bind m (λ _, k))
  (at level 100, k at level 200, right associativity).

Definition get_service {E} : M E RobustLLMService := λ s, (inr (service s), s, []).

Definition put_service {E} (svc : RobustLLMService) : M E unit :=
  λ s, (inr tt, {| service := svc; clock := clock s |}, []).

(** [Date.now()] *)
Definition Date_now {E} : M E Z := λ s, (inr (clock s), s, []).

(** Time passing at an [await]. *)
Definition elapse {E} (ms : Z) : M E unit :=
  λ s, (inr tt, {| service := service s; clock := clock s + ms |}, []).

Definition emit {E} (ev : event) : M E unit := λ s, (inr tt, s, [ev]).

(** *** Methods *)

(** [estimateTokens]: the tokenizer's count, or about four characters
    per token when the tokenizer throws. *)
Definition estimateTokens (text : string) : Z :=
  match encode text with
  | Some toks => Z.of_nat (length toks)
  | None => (Encoding.utf16_length text + 3) / 4
  end.

Definition canUseProvider (p : LLMProvider) (estimatedTokens : Z) : bool :=
  let usage := currentUsage (rateLimit p) in
  (tokens usage + estimatedTokens <=? tpm (rateLimit p))
  && (requests usage <? rpm (rateLimit p)).

(** [userQuotas.get(userId) || { daily: 0, hourly: 0 }] *)
Definition userUsageOf (svc : RobustLLMService) (userId : string) : UserUsage :=
  default {| daily := 0; hourly := 0 |} (userQuotas svc !! userId).

Definition checkUserQuota (userId : string) (estimatedTokens : Z) : M Thrown unit :=
  let* svc := get_service in
  let userUsage := userUsageOf svc userId in
  if daily userUsage + estimatedTokens >? 50000 then
    throw (ThrownError (Error "User daily quota exceeded"))
  else if hourly userUsage + estimatedTokens >? 10000 then
    throw (ThrownError (Error "User hourly quota exceeded"))
  else ret tt.

Definition charge (tokensUsed : Z) (p : LLMProvider) : LLMProvider :=
  {| name := name p;
     priority := priority p;
     rateLimit :=
       {| rpm := rpm (rateLimit p);
          tpm := tpm (rateLimit p);
          currentUsage :=
            {| requests := requests (currentUsage (rateLimit p)) + 1;
               tokens := tokens (currentUsage (rateLimit p)) + tokensUsed |} |} |}.

(** [recordUsage(provider, tokensUsed, userId)]. The provider object is
    the element at index [i] of [this.providers]; it is updated in
    place. *)
Definition recordUsage {E} (i : nat) (p : LLMProvider) (tokensUsed : Z) (userId : string) : M E unit :=
  let* svc := get_service in
  let userUsage := userUsageOf svc userId in
  let userUsage' :=
    {| daily := daily userUsage + tokensUsed; hourly := hourly userUsage + tokensUsed |} in
  put_service
    {| providers := alter (charge tokensUsed) i (providers svc);
       cache := cache svc;
       userQuotas := <[userId := userUsage']> (userQuotas svc) |} ;;
  emit (RecordUsage (name p) tokensUsed userId).

Definition optionalNumber (n : option number) : option string := numberToJSON <$> n.

(** The argument of [JSON.stringify] in [createCacheKey], rendered. *)
Definition keyJSON (request : LLMRequest) (provider : string) : string :=
  Encoding.stringifyObject
    [ Encoding.property "prompt" (Some (Encoding.quoteJSONString (prompt request)));
      Encoding.property "model" (Encoding.quoteJSONString <$> model request);
      Encoding.property "maxTokens" (optionalNumber (maxTokens request));
      Encoding.property "temperature" (optionalNumber (temperature request));
      Encoding.property "responseFormat"
        (Encoding.quoteJSONString <$> (format_string <$> responseFormat request));
      Encoding.property "provider" (Some (Encoding.quoteJSONString provider)) ].

Definition createCacheKey (request : LLMRequest) (provider : string) : string :=
  let key := keyJSON request provider in
  ("llm:" ++ Encoding.slice0 50 (Encoding.base64 key))%string.

Definition equals (o : option Z) (n : Z) : bool :=
  match o with
  | Some m => m =? n
  | None => false
  end.

Definition equals_string (o : option string) (s : string) : bool :=
  match o with
  | Some t => String.eqb t s
  | None => false
  end.

Definition isNonRetryableError (error : JsError) : bool :=
  equals (status error) 400
  || equals (status error) 401
  || equals (status error) 403
  || equals_string (code error) "context_length_exceeded"
  || equals_string (type error) "invalid_request_error".

(** [Math.min(1000 * Math.pow(2, attempt - 1), 30000)], for the attempts
    the loop passes: [errors.length] after a push, which is 1 or more. *)
Definition backoffDelay (attempt : Z) : Z :=
  Z.min (1000 * 2 ^ (attempt - 1)) 30000.

Definition exponentialBackoff {E} (attempt : Z) : M E unit :=
  let delay := backoffDelay attempt in
  emit (Backoff delay) ;;
  elapse delay.

(** The switch of [executeRequest] on the provider's name: which call
    is made, or the error of the default branch, thrown at once. *)
Definition dispatch (request : LLMRequest) (p : LLMProvider) (now : Z)
    : N * (JsError + ProviderResponse) :=
  match name p with
  | openai => executeOpenAIRequest request now
  | anthropic => executeAnthropicRequest request now
  | azure => (0%N, inl (Error ("Unsupported provider: " ++ name_string (name p))%string))
  end.

Definition executeRequest (request : LLMRequest) (p : LLMProvider) : M JsError ProviderResponse :=
  let* now := Date_now in
  let r := dispatch request p now in
  elapse (Z.of_N r.1) ;;
  emit (Execute (name p) r.2) ;;
  match r.2 with
  | inr resp => ret resp
  | inl e => throw e
  end.

Definition cache_get {E} (p : ProviderName) (key : string) : M E (option ProviderResponse) :=
  let* svc := get_service in
  let* now := Date_now in
  let r := Cache.get now key (cache svc) in
  put_service {| providers := providers svc; cache := r.2; userQuotas := userQuotas svc |} ;;
  emit (CacheGet p key r.1) ;;
  ret r.1.

Definition cache_set {E} (key : string) (v : ProviderResponse) (ttl : Z) : M E unit :=
  let* svc := get_service in
  let* now := Date_now in
  put_service
    {| providers := providers svc;
       cache := Cache.set now key v (Some ttl) (cache svc);
       userQuotas := userQuotas svc |} ;;
  emit (CacheSet key v ttl).

(** [this.providers.sort((a, b) => a.priority - b.priority)]: a stable
    sort, in place. *)
Fixpoint insertByPriority (p : LLMProvider) (l : list LLMProvider) : list LLMProvider :=
  match l with
  | [] => [p]
  | q :: l' =>
      if priority p <=? priority q then p :: q :: l' else q :: insertByPriority p l'
  end.

Definition sortByPriority (l : list LLMProvider) : list LLMProvider :=
  foldr insertByPriority [] l.

Definition sortProviders {E} : M E (list LLMProvider) :=
  let* svc := get_service in
  let sorted := sortByPriority (providers svc) in
  put_service {| providers := sorted; cache := cache svc; userQuotas := userQuotas svc |} ;;
  ret sorted.

(** The body of the [try] block for one provider. [None] is the
    [continue] of a provider over its rate limit, [Some r] is a
    [return r]. *)
Definition attempt (request : LLMRequest) (userId : string) (startTime estimatedTokens : Z)
    (i : nat) (p : LLMProvider) : M JsError (option LLMResponse) :=
  emit (RateCheck (name p) (canUseProvider p estimatedTokens)) ;;
  if negb (canUseProvider p estimatedTokens) then ret None
  else
    let cacheKey := createCacheKey request (name_string (name p)) in
    let* cached := cache_get (name p) cacheKey in
    match cached with
    | Some c =>
        ret (Some {| response := c; provider := name_string (name p); processingTime := None |})
    | None =>
        let* resp := executeRequest request p in
        recordUsage i p (tokensUsed resp) userId ;;
        cache_set cacheKey resp 3600 ;;
        let* now := Date_now in
        ret (Some {| response := resp;
                     provider := name_string (name p);
                     processingTime := Some (now - startTime) |})
    end.

Definition allFailed (errors : list (ProviderName * JsError)) : Thrown :=
  AggregateError (errors.*2)
    ("All LLM providers failed. Tried: "
       ++ Encoding.join ", " (name_string <$> errors.*1))%string.

(** What one turn of the loop leaves to do. *)
Inductive turn :=
| Returned (r : LLMResponse)
| Skipped
| Caught (error : JsError).

Definition turnOf (request : LLMRequest) (userId : string) (startTime estimatedTokens : Z)
    (i : nat) (p : LLMProvider) : M Thrown turn :=
  try_catch
    (let* r := attempt request userId startTime estimatedTokens i p in
     ret (match r with Some resp => Returned resp | None => Skipped end))
    (λ error, ret (Caught error)).

(** The [for ... of] loop over the sorted providers and the [throw]
    after it. [i] is the index of the head of [ps] in [this.providers]. *)
Fixpoint forProviders (request : LLMRequest) (userId : string) (startTime estimatedTokens : Z)
    (ps : list LLMProvider) (i : nat) (errors : list (ProviderName * JsError))
    : M Thrown LLMResponse :=
  match ps with
  | [] => throw (allFailed errors)
  | p :: ps' =>
      let* t := turnOf request userId startTime estimatedTokens i p in
      match t with
      | Returned r => ret r
      | Skipped => forProviders request userId startTime estimatedTokens ps' (S i) errors
      | Caught error =>
          let errors' := errors ++ [(name p, error)] in
          if isNonRetryableError error then throw (allFailed errors')
          else
            exponentialBackoff (Z.of_nat (length errors')) ;;
            forProviders request userId startTime estimatedTokens ps' (S i) errors'
      end
  end.

Definition generateWithFallback (request : LLMRequest) (userId : string) : M Thrown LLMResponse :=
  let* startTime := Date_now in
  let estimatedTokens := estimateTokens (prompt request) in
  checkUserQuota userId estimatedTokens ;;
  let* sorted := sortProviders in
  forProviders request userId startTime estimatedTokens sorted 0 [].

(** The hourly and the daily timer of [startResetTimer]. *)
Definition resetUsage (p : LLMProvider) : LLMProvider :=
  {| name := name p;
     priority := priority p;
     rateLimit :=
       {| rpm := rpm (rateLimit p);
          tpm := tpm (rateLimit p);
          currentUsage := {| requests := 0; tokens := 0 |} |} |}.

Definition hourlyReset (svc : RobustLLMService) : RobustLLMService :=
  {| providers := resetUsage <$> providers svc;
     cache := cache svc;
     userQuotas := (λ u, {| daily := daily u; hourly := 0 |}) <$> userQuotas svc |}.

Definition dailyReset (svc : RobustLLMService) : RobustLLMService :=
  {| providers := providers svc;
     cache := cache svc;
     userQuotas := (λ u, {| daily := 0; hourly := hourly u |}) <$> userQuotas svc |}.


(** One request, from a service at rest at time [now]. *)
Definition run (request : LLMRequest) (userId : string) (svc : RobustLLMService) (now : Z)
    : (Thrown + LLMResponse) * State * list event :=
  generateWithFallback request userId {| service := svc; clock := now |}.

Definition outcome (r : (Thrown + LLMResponse) * State * list event) : Thrown + LLMResponse :=
  r.1.1.

Definition final (r : (Thrown + LLMResponse) * State * list event) : State := r.1.2.

Definition events (r : (Thrown + LLMResponse) * State * list event) : list event := r.2.

(** *** The loop as a relation

    [forProviders] once more, one rule for each way a turn of the loop
    can go. The states between the steps of a turn have names. *)

Definition cacheKeyOf (request : LLMRequest) (p : LLMProvider) : string :=
  createCacheKey request (name_string (name p)).

(** [this.cache.get(cacheKey)] at the clock of [s]. *)
Definition lookup (request : LLMRequest) (p : LLMProvider) (s : State)
    : option ProviderResponse * Cache.CacheManager ProviderResponse :=
  Cache.get (clock s) (cacheKeyOf request p) (cache (service s)).

Definition afterLookup (request : LLMRequest) (p : LLMProvider) (s : State) : State :=
  {| service := {| providers := providers (service s);
                   cache := (lookup request p s).2;
                   userQuotas := userQuotas (service s) |};
     clock := clock s |}.

Definition advance (ms : Z) (s : State) : State :=
  {| service := service s; clock := clock s + ms |}.

(** What [executeRequest] settles to at the clock of [s], and after how
    long. *)
Definition settled (request : LLMRequest) (p : LLMProvider) (s : State)
    : N * (JsError + ProviderResponse) :=
  dispatch request p (clock s).

(** The state after [recordUsage] and [cache.set]. *)
Definition charged (request : LLMRequest) (userId : string) (i : nat) (p : LLMProvider)
    (resp : ProviderResponse) (s : State) : State :=
  let userUsage := userUsageOf (service s) userId in
  {| service :=
       {| providers := alter (charge (tokensUsed resp)) i (providers (service s));
          cache := Cache.set (clock s) (cacheKeyOf request p) resp (Some 3600) (cache (service s));
          userQuotas :=
            <[userId := {| daily := daily userUsage + tokensUsed resp;
                           hourly := hourly userUsage + tokensUsed resp |}]>
              (userQuotas (service s)) |};
     clock := clock s |}.

Inductive loop (request : LLMRequest) (userId : string) (startTime estimatedTokens : Z)
  : list LLMProvider → nat → list (ProviderName * JsError) → State →
    (Thrown + LLMResponse) * State * list event → Prop :=
| loop_exhausted i errors s :
    loop request userId startTime estimatedTokens [] i errors s (inl (allFailed errors), s, [])
| loop_skipped p ps i errors s res s' t :
    canUseProvider p estimatedTokens = false →
    loop request userId startTime estimatedTokens ps (S i) errors s (res, s', t) →
    loop request userId startTime estimatedTokens (p :: ps) i errors s
      (res, s', RateCheck (name p) false :: t)
| loop_hit p ps i errors s c :
    canUseProvider p estimatedTokens = true →
    (lookup request p s).1 = Some c →
    loop request userId startTime estimatedTokens (p :: ps) i errors s
      (inr {| response := c; provider := name_string (name p); processingTime := None |},
       afterLookup request p s,
       [RateCheck (name p) true; CacheGet (name p) (cacheKeyOf request p) (Some c)])
| loop_success p ps i errors s resp :
    canUseProvider p estimatedTokens = true →
    (lookup request p s).1 = None →
    (settled request p s).2 = inr resp →
    let s1 := advance (Z.of_N (settled request p s).1) (afterLookup request p s) in
    loop request userId startTime estimatedTokens (p :: ps) i errors s
      (inr {| response := resp; provider := name_string (name p);
              processingTime := Some (clock s1 - startTime) |},
       charged request userId i p resp s1,
       [RateCheck (name p) true; CacheGet (name p) (cacheKeyOf request p) None;
        Execute (name p) (inr resp); RecordUsage (name p) (tokensUsed resp) userId;
        CacheSet (cacheKeyOf request p) resp 3600])
| loop_fatal p ps i errors s e :
    canUseProvider p estimatedTokens = true →
    (lookup request p s).1 = None →
    (settled request p s).2 = inl e →
    isNonRetryableError e = true →
    loop request userId startTime estimatedTokens (p :: ps) i errors s
      (inl (allFailed (errors ++ [(name p, e)])),
       advance (Z.of_N (settled request p s).1) (afterLookup request p s),
       [RateCheck (name p) true; CacheGet (name p) (cacheKeyOf request p) None;
        Execute (name p) (inl e)])
| loop_retry p ps i errors s e res s' t :
    canUseProvider p estimatedTokens = true →
    (lookup request p s).1 = None →
    (settled request p s).2 = inl e →
    isNonRetryableError e = false →
    let delay := backoffDelay (Z.of_nat (length (errors ++ [(name p, e)]))) in
    loop request userId startTime estimatedTokens ps (S i) (errors ++ [(name p, e)])
      (advance delay (advance (Z.of_N (settled request p s).1) (afterLookup request p s)))
      (res, s', t) →
    loop request userId startTime estimatedTokens (p :: ps) i errors s
      (res, s',
       [RateCheck (name p) true; CacheGet (name p) (cacheKeyOf request p) None;
        Execute (name p) (inl e); Backoff delay] ++ t).

(** The state in which the loop starts: the providers sorted in place. *)
Definition sortedState (svc : RobustLLMService) (now : Z) : State :=
  {| service := {| providers := sortByPriority (providers svc);
                   cache := cache svc;
                   userQuotas := userQuotas svc |};
     clock := now |}.

(** *** Reading the events of a run *)

Definition isSuccess (ev : event) : bool :=
  match ev with Execute _ (inr _) => true | _ => false end.

Definition isCharge (ev : event) : bool :=
  match ev with RecordUsage _ _ _ | CacheSet _ _ _ => true | _ => false end.

Definition isRetryableFailure (ev : event) : bool :=
  match ev with Execute _ (inl e) => negb (isNonRetryableError e) | _ => false end.

Definition retryableFailures (t : list event) : nat :=
  length (List.filter isRetryableFailure t).

Definition backoffs (t : list event) : list Z :=
  omap (λ ev, match ev with Backoff d => Some d | _ => None end) t.

Definition failures (t : list event) : list (ProviderName * JsError) :=
  omap (λ ev, match ev with Execute p (inl e) => Some (p, e) | _ => None end) t.

(** The provider calls of a run, in order: the provider called and what
    the call settled to. *)
Definition calls (t : list event) : list (ProviderName * (JsError + ProviderResponse)) :=
  omap (λ ev, match ev with Execute p r => Some (p, r) | _ => None end) t.

(** The schedule of the specification, read on the clock. The calls
    [cs] are made from the time [at] on, and the request ends at the
    time [finish]: the first call is made at [at]; a call that resolves,
    or that fails with a non-retryable error, is the last, and the
    request ends when it settles; after a call that fails with a
    retryable error, the [n]-th of the request, the request goes on
    [min (1000 * 2^(n-1)) 30000] ms after the call has settled, neither
    earlier nor later. A call made at a time is [executeRequest] for a
    provider of the name at that time. *)
Fixpoint scheduled (request : LLMRequest) (at_time : Z) (n : nat)
    (cs : list (ProviderName * (JsError + ProviderResponse))) (finish : Z) : Prop :=
  match cs with
  | [] => finish = at_time
  | (q, r) :: cs' =>
      ∃ p, name p = q
           ∧ r = (dispatch request p at_time).2
           ∧ let settledAt := at_time + Z.of_N (dispatch request p at_time).1 in
             match r with
             | inr _ => cs' = [] ∧ finish = settledAt
             | inl e =>
                 if isNonRetryableError e then cs' = [] ∧ finish = settledAt
                 else scheduled request
                        (settledAt + Z.min (1000 * 2 ^ (Z.of_nat n - 1)) 30000) (S n) cs' finish
             end
  end.

Definition noSuccess (t : list event) : Prop := Forall (λ ev, isSuccess ev = false) t.

Definition noCharge (t : list event) : Prop := Forall (λ ev, isCharge ev = false) t.

(** What a run without a settled success leaves behind: the counters as
    they were, and a cache that has lost at most entries that a lookup
    found expired. *)
Definition untouched (t : list event) (s s' : State) : Prop :=
  providers (service s') = providers (service s)
  ∧ userQuotas (service s') = userQuotas (service s)
  ∧ Cache.config (cache (service s')) = Cache.config (cache (service s))
  ∧ Cache.memoryCache (cache (service s')) ⊆ Cache.memoryCache (cache (service s))
  ∧ (∀ key entry,
       Cache.memoryCache (cache (service s)) !! key = Some entry →
       Cache.memoryCache (cache (service s')) !! key = None →
       Cache.isExpired (clock s') entry = true ∧ ∃ p, CacheGet p key None ∈ t).

End Service.

Arguments LLMRequest : clear implicits.
Arguments ProviderResponse : clear implicits.
Arguments LLMResponse : clear implicits.
Arguments RobustLLMService : clear implicits.
Arguments event : clear implicits.
Arguments State : clear implicits.
Arguments turn : clear implicits.

End LLM.

(** ** A small world to run the code in

    Whole numbers stand for JavaScript numbers, printed in decimal. *)
Module Example.
Import LLM.

Definition ttls : Cache.CacheConfig :=
  {| Cache.transcripts := 86400; Cache.videoDetails := 3600;
     Cache.searchResults := 1800; Cache.comments := 7200 |}.

Definition emptyCache {T} : Cache.CacheManager T :=
  {| Cache.config := ttls; Cache.memoryCache := ∅ |}.

Definition quotaConfig : Quota.QuotaConfig :=
  {| Quota.dailyLimit := 8000; Quota.reserveBuffer := 1000;
     Quota.prioritizeRecent := true; Quota.warningThreshold := 75 |}.

Definition ledger : Quota.QuotaManager := Quota.new quotaConfig emptyCache.

(** Two guarded recordings with reads in between. *)
Definition calls : list Quota.call :=
  [ Quota.CanPerformOperation 100;
    Quota.OptimizeOperation "search" 25;
    Quota.RecordUsage 1000 100 "search";
    Quota.CanPerformOperation 6900;
    Quota.RecordUsage 2000 6900 "x";
    Quota.CanPerformOperation 150;
    Quota.GetAvailableQuota ].

(** A ledger at 6500 of 8000 units: over 80 percent, 500 units left. *)
Definition lateLedger : Quota.QuotaManager :=
  {| Quota.usage := 6500; Quota.config := quotaConfig; Quota.cache := emptyCache |}.

Definition showZ (n : Z) : string := pretty n.

Definition provider (n : ProviderName) (prio perMinute tokensPerMinute used usedTokens : Z)
    : LLMProvider :=
  {| name := n; priority := prio;
     rateLimit := {| rpm := perMinute; tpm := tokensPerMinute;
                     currentUsage := {| requests := used; tokens := usedTokens |} |} |}.

(** The two providers of [initializeProviders]. *)
Definition openaiProvider : LLMProvider := provider openai 1 3500 200000 0 0.
Definition anthropicProvider : LLMProvider := provider anthropic 2 2000 150000 0 0.

(** The first of them with its request counter at the limit. *)
Definition openaiAtLimit : LLMProvider := provider openai 1 3500 200000 3500 0.

Definition unauthorized : JsError :=
  {| status := Some 401; code := None; type := None; message := "Incorrect API key provided" |}.

Definition overloaded : JsError :=
  {| status := Some 503; code := None; type := None; message := "Service unavailable" |}.

Definition answer : ProviderResponse Z :=
  {| content := "Three points are made."; tokensUsed := 120; cost := 0 |}.

(** A tokenizer that throws: the estimate falls back to the length. *)
Definition noTokenizer (text : string) : option (list N) := None.

Definition rejects (e : JsError) (request : LLMRequest Z) (now : Z)
    : N * (JsError + ProviderResponse Z) := (250%N, inl e).

Definition resolves (resp : ProviderResponse Z) (request : LLMRequest Z) (now : Z)
    : N * (JsError + ProviderResponse Z) := (900%N, inr resp).

(** A provider whose answer shows which prompt it was given. *)
Definition echoes (request : LLMRequest Z) (now : Z) : N * (JsError + ProviderResponse Z) :=
  (900%N, inr {| content := prompt request; tokensUsed := 120; cost := 0 |}).

Definition request : LLMRequest Z :=
  {| prompt := "Summarize the transcript of this video.";
     model := None; maxTokens := Some 2000; temperature := None;
     responseFormat := Some json |}.

Definition otherRequest : LLMRequest Z :=
  {| prompt := "Summarize the transcript of the other video, as a haiku.";
     model := Some "gpt-4o"%string; maxTokens := Some 50; temperature := Some 1;
     responseFormat := Some text |}.

Definition coldService : RobustLLMService Z :=
  {| providers := [anthropicProvider; openaiProvider];
     cache := emptyCache;
     userQuotas := ∅ |}.

(** A cache that holds an answer to [request], stored at time 0 for an
    hour under the key of the first provider. *)
Definition warmCache : Cache.CacheManager (ProviderResponse Z) :=
  Cache.set 0 (createCacheKey showZ request "openai") answer (Some 3600) emptyCache.

Definition warmService : RobustLLMService Z :=
  {| providers := [anthropicProvider; openaiProvider];
     cache := warmCache;
     userQuotas := ∅ |}.

(** The same cache, and the only provider over its request limit. *)
Definition limitedService : RobustLLMService Z :=
  {| providers := [openaiAtLimit];
     cache := warmCache;
     userQuotas := ∅ |}.

(** A caller close to the hourly ceiling. *)
Definition busyCaller : RobustLLMService Z :=
  {| providers := [anthropicProvider; openaiProvider];
     cache := emptyCache;
     userQuotas := {[ "alice"%string := {| daily := 12000; hourly := 9995 |} ]} |}.

End Example.

(** ** Cache keys and statistics (utils/cache.ts) *)
Module Keys.

Local Open Scope string_scope.

(** [getVideoDetailsKey] *)
Definition getVideoDetailsKey (videoId : string) (includeTranscript includeComments : bool)
    : string :=
  "video:" ++ videoId ++ ":" ++ (if includeTranscript then "transcript" else "basic")
    ++ ":" ++ (if includeComments then "comments" else "no-comments").

(** [getSearchKey]: [paramsString] is [JSON.stringify(params)]. *)
Definition getSearchKey (query paramsString : string) : string :=
  "search:" ++ Encoding.base64 (query ++ paramsString).

(** [category || 'all']: an omitted and an empty category are falsy. *)
Definition orAll (category : option string) : string :=
  match category with
  | Some (String a s) => String a s
  | _ => "all"
  end.

(** [getTrendingKey] *)
Definition getTrendingKey (region : string) (category : option string) : string :=
  "trending:" ++ region ++ ":" ++ orAll category.

(** [getChannelKey] *)
Definition getChannelKey (channelId : string) : string := "channel:" ++ channelId.

(** [getTranscriptKey] *)
Definition getTranscriptKey (videoId : string) : string := "transcript:" ++ videoId.

(** [getCommentsKey], for a whole number of results, printed in decimal. *)
Definition getCommentsKey (videoId : string) (maxResults : Z) (order : string) : string :=
  "comments:" ++ videoId ++ ":" ++ pretty maxResults ++ ":" ++ order.

(** [getCacheStats] of the in-memory backend. *)
Definition getCacheStats {T} (c : Cache.CacheManager T) : nat * bool :=
  (size (Cache.memoryCache c), false).

End Keys.

(** ** QuotaManager, the advice it gives (utils/quota.ts) *)
Module QuotaReport.
Import Quota.

(** [getRecommendations]. [usage.percentage] is [Math.min(100, p)] for
    the percentage [p] that [percentage_gt] compares; against a
    threshold below 100 the two compare alike. *)
Definition getRecommendations (q : QuotaManager) : list string :=
  let over k := percentage_gt (usage q) (dailyLimit (config q)) k in
  (if over 90 then
     [ "Critical: Consider caching more aggressively";
       "Critical: Reduce search operations and use cached results";
       "Critical: Delay non-essential operations until quota reset" ]%string
   else if over 75 then
     [ "Warning: Enable more aggressive caching";
       "Warning: Prioritize essential operations only";
       "Warning: Consider reducing max results for search operations" ]%string
   else if over 50 then
     [ "Monitor usage closely";
       "Consider implementing usage analytics" ]%string
   else [])
  ++ (if (reserveBuffer (config q) <? 1000) && over 60 then
        [ "Consider increasing reserve buffer to 1000+ quota units" ]%string
      else []).

End QuotaReport.

(** ** RobustLLMService, its statistics (utils/llm-service.ts) *)
Module LLMReport.
Import LLM.

Record ProviderStats := {
  name : string;
  usage : CurrentUsage;
  limits : Z * Z
}.

Record UsageStats := {
  providers : list ProviderStats;
  totalUsers : nat;
  totalTokensToday : Z
}.

(** [getUsageStats]. The sum runs over the values of the map; whole
    numbers add up to the same total in any order. *)
Definition getUsageStats {number} (svc : RobustLLMService number) : UsageStats :=
  {| providers :=
       (λ p, {| name := name_string (LLM.name p);
                usage := currentUsage (rateLimit p);
                limits := (rpm (rateLimit p), tpm (rateLimit p)) |}) <$> LLM.providers svc;
     totalUsers := size (userQuotas svc);
     totalTokensToday := map_fold (λ _ u sum, sum + daily u) 0 (userQuotas svc) |}.

(** The providers whose rate limit a run has checked, in order. *)
Definition rateChecks {number} (t : list (event number)) : list ProviderName :=
  omap (λ ev, match ev with RateCheck p _ => Some p | _ => None end) t.

(** The milliseconds a run has spent in back-off. *)
Definition waited {number} (t : list (event number)) : Z :=
  foldr Z.add 0 (backoffs t).

End LLMReport.

(** ** Computations with a state, an exception and a log

    The monad of the stateful code below. A computation may throw; the
    state it leaves survives the exception; the log is a ghost output
    that the code never reads. *)
Module Run.

Section Run.
Context {S Ev : Type}.

Definition M (E A : Type) : Type := S → (E + A) * S * list Ev.

Definition ret {E A} (a : A) : M E A := λ s, (inr a, s, []).

Definition throw {E A} (e : E) : M E A := λ s, (inl e, s, []).

Definition bind {E A B} (m : M E A) (k : A → M E B) : M E B :=
  λ s, match m s with
       | (inr a, s1, t1) => let '(r, s2, t2) := k a s1 in (r, s2, t1 ++ t2)
       | (inl e, s1, t1) => (inl e, s1, t1)
       end.

Definition try_catch {E E' A} (m : M E A) (handler : E → M E' A) : M E' A :=
  λ s, match m s with
       | (inr a, s1, t1) => (inr a, s1, t1)
       | (inl e, s1, t1) => let '(r, s2, t2) := handler e s1 in (r, s2, t1 ++ t2)
       end.

End Run.

Arguments M : clear implicits.

Notation "'let*' x ':=' m 'in' k" := (bind m (λ x, k))
  (at level 10, x name, m at level 100, k at level 200).
Notation "m ';;' k" := (bind m (λ _, k))
  (at level 100, k at level 200, right associativity).

End Run.

(** ** YouTubeClient (src/youtube-client.ts)

    The client of the YouTube Data API with its own count of quota
    units. A call of the googleapis client or of axios is a function of
    the request and of the time of the call: it gives the milliseconds
    the call takes and what the promise settles to. The calls made are
    kept in a log that the code never reads. *)
Module Client.
Import Run.

Local Open Scope string_scope.

(** What a rejected API call carries, as far as the client reads it:
    [error.response?.status], [error.response.data?.error?.message],
    [error.message], and the text that a template string makes of the
    error. *)
Record ApiError := {
  status : option Z;
  apiMessage : option string;
  message : string;
  shown : string
}.

(** What a method of the client can throw. [QuotaExceededError] extends
    [YouTubeAPIError] with the status 403. *)
Inductive Thrown :=
| QuotaExceededError (msg : string)
| YouTubeAPIError (msg : string) (statusCode : option Z)
| Rejected (error : ApiError).

(** [error instanceof QuotaExceededError] *)
Definition isQuotaExceededError (error : Thrown) : bool :=
  match error with QuotaExceededError _ => true | _ => false end.

(** [Error.prototype.toString]: the name, a colon and the message; the
    name alone when the message is empty. *)
Definition named (name msg : string) : string :=
  match msg with
  | EmptyString => name
  | _ => name ++ ": " ++ msg
  end.

(** The text that a template string makes of a caught error. *)
Definition toString (error : Thrown) : string :=
  match error with
  | QuotaExceededError msg => named "QuotaExceededError" msg
  | YouTubeAPIError msg _ => named "YouTubeAPIError" msg
  | Rejected e => shown e
  end.

(** [s.includes(sub)] *)
Fixpoint includes (sub s : string) : bool :=
  String.prefix sub s
  || match s with
     | EmptyString => false
     | String _ s' => includes sub s'
     end.

Record YouTubeClient := {
  quotaUsed : Z;
  dailyQuotaLimit : Z
}.

(** [new YouTubeClient(apiKey, logger, dailyQuotaLimit = 10000)] *)
Definition new (dailyQuotaLimit : option Z) : YouTubeClient :=
  {| quotaUsed := 0; dailyQuotaLimit := default 10000 dailyQuotaLimit |}.

(** The parameters of the tools, after validation (src/types.ts). An
    enum is the string it is written as. *)
Module YouTubeSearchParams.
Record t := {
  query : string;
  maxResults : Z;
  publishedAfter : option string;
  publishedBefore : option string;
  order : string;
  videoDuration : string;
  videoDefinition : string;
  regionCode : option string
}.
End YouTubeSearchParams.

Module GetVideoDetailsParams.
Record t := {
  videoId : string;
  includeTranscript : bool;
  includeComments : bool;
  maxComments : Z;
  commentsOrder : string
}.
End GetVideoDetailsParams.

Module GetTrendingVideosParams.
Record t := {
  category : option string;
  region : string;
  maxResults : Z
}.
End GetTrendingVideosParams.

Module SearchChannelsParams.
Record t := {
  query : string;
  maxResults : Z;
  includeStats : bool;
  order : string
}.
End SearchChannelsParams.

(** The calls the client makes, as the log has them. *)
(** [type: ['video']] and [type: ['channel']] of [search.list] *)
Inductive SearchKind := kind_video | kind_channel.

Inductive ApiCall :=
| SearchList (kind : SearchKind) (q : string) (maxResults : Z)
| VideosList (ids : list string)
| VideosChart (regionCode : string) (maxResults : Z) (videoCategoryId : option string)
| ChannelsList (ids : list string)
| CommentThreadsList (videoId : string) (maxResults : Z) (order : string)
| PageGet (url : string).

(** One entry of the log: the call and, when it was rejected, the error. *)
Record event := Called {
  call : ApiCall;
  failure : option ApiError
}.

(** The quota units that the client counts for a call that resolves. *)
Definition unitsOf (c : ApiCall) : Z :=
  match c with
  | SearchList _ _ _ => 100
  | PageGet _ => 0
  | _ => 1
  end.

(** The units of the calls of a log that resolved. *)
Definition unitsSpent (t : list event) : Z :=
  foldr (λ ev sum, match failure ev with None => unitsOf (call ev) + sum | Some _ => sum end) 0 t.

Record State := {
  client : YouTubeClient;
  clock : Z
}.

Section Api.

(** The items of the API responses and the objects the client makes of
    them. The client copies fields; which fields is of no concern here. *)
Context {SearchItem RawVideo RawChannel RawThread : Type}.
Context {Video Channel Comment Transcript : Type}.

(** [item.id?.videoId] and [item.id?.channelId] of a search result *)
Variable videoIdOf : SearchItem → option string.
Variable channelIdOf : SearchItem → option string.

(** One item of [mapVideosResponse] and of [mapChannelsResponse], the
    channel made of a search result without statistics, and the comment
    of a thread, if the thread has a top level comment. *)
Variable mapVideo : RawVideo → Video.
Variable mapChannel : RawChannel → Channel.
Variable channelOfItem : SearchItem → Channel.
Variable commentOf : RawThread → option Comment.

(** [response.data] of [search.list] *)
Record SearchListResponse := {
  items : option (list SearchItem);
  pageInfo_totalResults : option Z;
  data_nextPageToken : option string;
  data_prevPageToken : option string
}.

(** The API, one function for each call the client makes. A list
    response is [data.items], which may be missing. *)
Variable searchVideosList : YouTubeSearchParams.t → Z → N * (ApiError + SearchListResponse).
Variable searchChannelsList : SearchChannelsParams.t → Z → N * (ApiError + SearchListResponse).
Variable videosList : list string → Z → N * (ApiError + option (list RawVideo)).
Variable videosChart : GetTrendingVideosParams.t → Z → N * (ApiError + option (list RawVideo)).
Variable channelsList : list string → Z → N * (ApiError + option (list RawChannel)).
Variable commentThreadsList :
  string → Z → string → Z → N * (ApiError + option (list RawThread)).
Variable pageGet : string → Z → N * (ApiError + unit).

(** The results of the methods (src/types.ts). *)
Record YouTubeSearchResult := {
  videos : list Video;
  totalResults : Z;
  nextPageToken : option string;
  prevPageToken : option string
}.

Record VideoDetailsResult := {
  details_video : Video;
  transcript : option (list Transcript);
  comments : option (list Comment)
}.

Record TrendingVideosResult := {
  trending_videos : list Video;
  trending_category : option string;
  trending_region : string
}.

Record ChannelSearchResult := {
  channels : list Channel;
  channels_totalResults : Z;
  channels_nextPageToken : option string
}.

(** A computation of the client. *)
Definition M (A : Type) : Type := Run.M State event Thrown A.

(** [await] of an API call made at the clock: time passes, the call is
    logged, and the promise resolves or rejects. *)
Definition await {A} (c : ApiCall) (api : Z → N * (ApiError + A)) : M A :=
  λ s, let r := api (clock s) in
       let s' := {| client := client s; clock := clock s + Z.of_N r.1 |} in
       match r.2 with
       | inr a => (inr a, s', [Called c None])
       | inl e => (inl (Rejected e), s', [Called c (Some e)])
       end.

(** [this.quotaUsed += cost] *)
Definition spend (cost : Z) : M unit :=
  λ s, (inr tt,
        {| client := {| quotaUsed := quotaUsed (client s) + cost;
                        dailyQuotaLimit := dailyQuotaLimit (client s) |};
           clock := clock s |}, []).

Definition checkQuota (cost : Z) : M unit :=
  λ s, if quotaUsed (client s) + cost >? dailyQuotaLimit (client s) then
         (inl (QuotaExceededError
                 ("Operation would exceed daily quota limit. Used: "
                    ++ pretty (quotaUsed (client s)) ++ ", Cost: " ++ pretty cost
                    ++ ", Limit: " ++ pretty (dailyQuotaLimit (client s)))), s, [])
       else (inr tt, s, []).

(** [a || b] on strings that may be missing *)
Definition orElse (a : option string) (b : string) : string :=
  match a with
  | Some (String c s) => String c s
  | _ => b
  end.

(** [handleError]: it throws the error it makes of an API error, or
    returns, and then the caller throws the error it caught. *)
Definition handleError (error : Thrown) : M unit :=
  match error with
  | Rejected e =>
      if LLM.equals (status e) 403 && default false (includes "quota" <$> apiMessage e) then
        throw (QuotaExceededError (default EmptyString (apiMessage e)))
      else if LLM.equals (status e) 400 then
        throw (YouTubeAPIError ("Bad request: " ++ orElse (apiMessage e) (message e)) (Some 400))
      else if LLM.equals (status e) 404 then
        throw (YouTubeAPIError ("Resource not found: " ++ orElse (apiMessage e) (message e))
                 (Some 404))
      else ret tt
  | _ => ret tt
  end.

(** [catch (error) { this.handleError(error); throw error; }] *)
Definition handled {A} (m : M A) : M A :=
  try_catch m (λ error, handleError error ;; throw error).

(** [.filter(Boolean)] on ids: a missing and an empty id are dropped. *)
Definition truthy (id : option string) : option string :=
  match id with
  | Some (String c s) => Some (String c s)
  | _ => None
  end.

Definition mapVideosResponse (items : list RawVideo) : list Video := mapVideo <$> items.

Definition mapChannelsResponse (items : list RawChannel) : list Channel := mapChannel <$> items.

Definition getVideosByIds (videoIds : list string) : M (list Video) :=
  match videoIds with
  | [] => ret []
  | _ =>
      checkQuota 1 ;;
      let* items := await (VideosList videoIds) (videosList videoIds) in
      spend 1 ;;
      ret (mapVideosResponse (default [] items))
  end.

Definition searchVideos (params : YouTubeSearchParams.t) : M YouTubeSearchResult :=
  handled
    (checkQuota 100 ;;
     let* data :=
       await (SearchList kind_video (YouTubeSearchParams.query params)
                (YouTubeSearchParams.maxResults params))
             (searchVideosList params) in
     spend 100 ;;
     match items data with
     | None =>
         ret {| videos := []; totalResults := 0; nextPageToken := None; prevPageToken := None |}
     | Some found =>
         let videoIds := omap (λ item, truthy (videoIdOf item)) found in
         let* videos := getVideosByIds videoIds in
         ret {| videos := videos;
                totalResults := default 0 (pageInfo_totalResults data);
                nextPageToken := data_nextPageToken data;
                prevPageToken := data_prevPageToken data |}
     end).

(** [getVideoTranscript]: the page is fetched and no caption is parsed. *)
Definition getVideoTranscript (videoId : string) : M (list Transcript) :=
  try_catch
    (let url := "https://www.youtube.com/watch?v=" ++ videoId in
     await (PageGet url) (pageGet url) ;;
     ret [])
    (λ error, throw (YouTubeAPIError ("Failed to get transcript: " ++ toString error) None)).

Definition getVideoComments (videoId : string) (maxResults : Z) (order : string)
    : M (list Comment) :=
  try_catch
    (checkQuota 1 ;;
     let* threads :=
       await (CommentThreadsList videoId (Z.min maxResults 100) order)
             (commentThreadsList videoId (Z.min maxResults 100) order) in
     spend 1 ;;
     ret (omap commentOf (default [] threads)))
    (λ error, throw (YouTubeAPIError ("Failed to get comments: " ++ toString error) None)).

(** [try { x = await m } catch (error) { logger.warn(...) }] *)
Definition attempted {A} (m : M A) : M (option A) :=
  try_catch (let* a := m in ret (Some a)) (λ _, ret None).

Definition getVideoDetails (params : GetVideoDetailsParams.t) : M VideoDetailsResult :=
  handled
    (let* videos := getVideosByIds [GetVideoDetailsParams.videoId params] in
     match videos with
     | [] =>
         throw (YouTubeAPIError ("Video not found: " ++ GetVideoDetailsParams.videoId params) None)
     | video :: _ =>
         let* transcript :=
           if GetVideoDetailsParams.includeTranscript params then
             attempted (getVideoTranscript (GetVideoDetailsParams.videoId params))
           else ret None in
         let* comments :=
           if GetVideoDetailsParams.includeComments params then
             attempted (getVideoComments (GetVideoDetailsParams.videoId params)
                          (GetVideoDetailsParams.maxComments params)
                          (GetVideoDetailsParams.commentsOrder params))
           else ret None in
         ret {| details_video := video; transcript := transcript; comments := comments |}
     end).

Definition getTrendingVideos (params : GetTrendingVideosParams.t)
    : M TrendingVideosResult :=
  handled
    (checkQuota 1 ;;
     let* items :=
       await (VideosChart (GetTrendingVideosParams.region params)
                (GetTrendingVideosParams.maxResults params)
                (GetTrendingVideosParams.category params))
             (videosChart params) in
     spend 1 ;;
     ret {| trending_videos := mapVideosResponse (default [] items);
            trending_category := GetTrendingVideosParams.category params;
            trending_region := GetTrendingVideosParams.region params |}).

Definition searchChannels (params : SearchChannelsParams.t) : M ChannelSearchResult :=
  handled
    (checkQuota 100 ;;
     let* data :=
       await (SearchList kind_channel (SearchChannelsParams.query params)
                (SearchChannelsParams.maxResults params))
             (searchChannelsList params) in
     spend 100 ;;
     match items data with
     | None =>
         ret {| channels := []; channels_totalResults := 0; channels_nextPageToken := None |}
     | Some found =>
         let channelIds := omap (λ item, truthy (channelIdOf item)) found in
         let* channels :=
           if SearchChannelsParams.includeStats params && (0 <? Z.of_nat (length channelIds))%Z then
             checkQuota 1 ;;
             let* items := await (ChannelsList channelIds) (channelsList channelIds) in
             spend 1 ;;
             ret (mapChannelsResponse (default [] items))
           else ret (channelOfItem <$> found) in
         ret {| channels := channels;
                channels_totalResults := default 0 (pageInfo_totalResults data);
                channels_nextPageToken := data_nextPageToken data |}
     end).



(** The four public methods that call the API. *)
Inductive Method :=
| SearchVideos (params : YouTubeSearchParams.t)
| GetVideoDetails (params : GetVideoDetailsParams.t)
| GetTrendingVideos (params : GetTrendingVideosParams.t)
| SearchChannels (params : SearchChannelsParams.t).

(** What a method leaves behind, its result forgotten. *)
Definition effect (m : Method) (s : State) : option Thrown * State * list event :=
  match m with
  | SearchVideos params =>
      let '(r, s', t) := searchVideos params s in (match r with inl e => Some e | _ => None end, s', t)
  | GetVideoDetails params =>
      let '(r, s', t) := getVideoDetails params s in (match r with inl e => Some e | _ => None end, s', t)
  | GetTrendingVideos params =>
      let '(r, s', t) := getTrendingVideos params s in (match r with inl e => Some e | _ => None end, s', t)
  | SearchChannels params =>
      let '(r, s', t) := searchChannels params s in (match r with inl e => Some e | _ => None end, s', t)
  end.

(** The guard of a method: the units its first billed call needs. *)
Definition entryCost (m : Method) : Z :=
  match m with
  | SearchVideos _ | SearchChannels _ => 100
  | GetVideoDetails _ | GetTrendingVideos _ => 1
  end.

End Api.

End Client.

(** ** The tools that call the API (src/tools/)

    [YouTubeSearchTool], [VideoDetailsTool], [TrendingVideosTool] and
    [ChannelSearchTool]: each looks in the cache, asks the ledger, calls
    the client, records the cost and caches what it returns. A tool is
    taken from the validated parameters on.

    The server gives one [CacheManager] to the ledger and to all tools.
    Each of them reads and writes keys of its own prefix only, so each
    is given the part of the store under its prefix, at the type of the
    values it keeps there. What a tool adds to a result for display
    (statistics of the videos or channels) is a function of the result;
    the [analysis] that the channel tool puts into its metadata is left
    out. *)
Module Tools.
Import Run.

Local Open Scope string_scope.

Record World (R : Type) := {
  cache : Cache.CacheManager R;
  quotaManager : Quota.QuotaManager;
  youtubeClient : Client.YouTubeClient;
  clock : Z
}.

Arguments cache {R} _.
Arguments quotaManager {R} _.
Arguments youtubeClient {R} _.
Arguments clock {R} _.

(** A computation of a tool whose cache holds values of type [R]. *)
Definition M (R A : Type) : Type := Run.M (World R) Client.event Client.Thrown A.

(** [await this.cache.get(key)] *)
Definition cache_get {R} (key : string) : M R (option R) :=
  λ w, let r := Cache.get (clock w) key (cache w) in
       (inr r.1,
        {| cache := r.2; quotaManager := quotaManager w;
           youtubeClient := youtubeClient w; clock := clock w |}, []).

(** [await this.cache.set(key, value, ttl)] *)
Definition cache_set {R} (key : string) (value : R) (ttl : option Z) : M R unit :=
  λ w, (inr tt,
        {| cache := Cache.set (clock w) key value ttl (cache w);
           quotaManager := quotaManager w;
           youtubeClient := youtubeClient w; clock := clock w |}, []).

(** A method of the ledger that reads. *)
Definition ask {R A} (f : Quota.QuotaManager → A) : M R A :=
  λ w, (inr (f (quotaManager w)), w, []).

(** [await this.quotaManager.recordUsage(cost, operation)] *)
Definition recordUsage {R} (cost : Z) (operation : string) : M R unit :=
  λ w, (inr tt,
        {| cache := cache w;
           quotaManager := Quota.recordUsage (clock w) (quotaManager w) cost operation;
           youtubeClient := youtubeClient w; clock := clock w |}, []).

(** [await this.youtubeClient.method(params)] *)
Definition call {R A} (m : Client.M A) : M R A :=
  λ w, let '(r, s, t) := m {| Client.client := youtubeClient w; Client.clock := clock w |} in
       (r,
        {| cache := cache w; quotaManager := quotaManager w;
           youtubeClient := Client.client s; clock := Client.clock s |}, t).

(** [Date.now()] *)
Definition Date_now {R} : M R Z := λ w, (inr (clock w), w, []).

(** [QuotaManager.getOperationCost(operation)] for one of the six kinds
    of the table, whose costs are numbers. *)
Definition operationCost (operation : string) : Z :=
  match Quota.getOperationCost operation with
  | Quota.Units n => n
  | Quota.NotANumber => 1
  end.

(** [JSON.stringify(params)]: the properties in the order of the schema,
    those left out by the caller skipped. *)
Definition searchParamsJSON (params : Client.YouTubeSearchParams.t) : string :=
  Encoding.stringifyObject
    [ Encoding.property "query"
        (Some (Encoding.quoteJSONString (Client.YouTubeSearchParams.query params)));
      Encoding.property "maxResults" (Some (pretty (Client.YouTubeSearchParams.maxResults params)));
      Encoding.property "publishedAfter"
        (Encoding.quoteJSONString <$> Client.YouTubeSearchParams.publishedAfter params);
      Encoding.property "publishedBefore"
        (Encoding.quoteJSONString <$> Client.YouTubeSearchParams.publishedBefore params);
      Encoding.property "order"
        (Some (Encoding.quoteJSONString (Client.YouTubeSearchParams.order params)));
      Encoding.property "videoDuration"
        (Some (Encoding.quoteJSONString (Client.YouTubeSearchParams.videoDuration params)));
      Encoding.property "videoDefinition"
        (Some (Encoding.quoteJSONString (Client.YouTubeSearchParams.videoDefinition params)));
      Encoding.property "regionCode"
        (Encoding.quoteJSONString <$> Client.YouTubeSearchParams.regionCode params) ].

Definition channelParamsJSON (params : Client.SearchChannelsParams.t) : string :=
  Encoding.stringifyObject
    [ Encoding.property "query"
        (Some (Encoding.quoteJSONString (Client.SearchChannelsParams.query params)));
      Encoding.property "maxResults" (Some (pretty (Client.SearchChannelsParams.maxResults params)));
      Encoding.property "includeStats"
        (Some (if Client.SearchChannelsParams.includeStats params then "true" else "false"));
      Encoding.property "order"
        (Some (Encoding.quoteJSONString (Client.SearchChannelsParams.order params))) ].

(** The key of the channel search, built in place. *)
Definition channelsKey (json : string) : string := "channels:" ++ Encoding.base64 json.

(** The store holds entries only under keys that [execute] of the
    channel search makes of its parameters. *)
Definition keyedByParams {R} (c : Cache.CacheManager R) : Prop :=
  ∀ key, is_Some (Cache.memoryCache c !! key) →
         ∃ params, key = channelsKey (channelParamsJSON params).

(** What follows the closing quote of the JSON string literal that a
    text goes on with, the opening quote read already. A backslash
    escapes the character after it. *)
Fixpoint afterLiteral (s : string) : option string :=
  match s with
  | EmptyString => None
  | String c s' =>
      if Ascii.eqb c Encoding.dquote then Some s'
      else if Ascii.eqb c Encoding.backslash then
        match s' with
        | EmptyString => None
        | String _ s'' => afterLiteral s''
        end
      else afterLiteral s'
  end.

(** [query.split(' ')[0]] *)
Fixpoint firstWord (query : string) : string :=
  match query with
  | EmptyString => EmptyString
  | String c s => if Ascii.eqb c " " then EmptyString else String c (firstWord s)
  end.

(** [Math.ceil(n / 50)] for the length of a list *)
Definition pagesOf50 (n : nat) : Z := (Z.of_nat n + 49) / 50.

(** The first key of a list that the cache answers, the keys looked up
    one after the other. *)
Fixpoint firstCached {R} (keys : list string) : M R (option R) :=
  match keys with
  | [] => ret None
  | key :: keys' =>
      let* cached := cache_get key in
      match cached with
      | Some c => ret (Some c)
      | None => firstCached keys'
      end
  end.

(** The [metadata] that the search tool and the channel tool add. *)
Record Metadata := {
  quotaUsed : Z;
  cached : bool;
  optimized : option bool;
  expired : bool;
  fallback : bool
}.

Section Tools.

Context {SearchItem RawVideo RawChannel RawThread : Type}.
Context {Video Channel Comment Transcript : Type}.
Variable videoIdOf : SearchItem → option string.
Variable channelIdOf : SearchItem → option string.
Variable mapVideo : RawVideo → Video.
Variable mapChannel : RawChannel → Channel.
Variable channelOfItem : SearchItem → Channel.
Variable commentOf : RawThread → option Comment.
Variable searchVideosList :
  Client.YouTubeSearchParams.t → Z
  → N * (Client.ApiError + Client.SearchListResponse (SearchItem:=SearchItem)).
Variable searchChannelsList :
  Client.SearchChannelsParams.t → Z
  → N * (Client.ApiError + Client.SearchListResponse (SearchItem:=SearchItem)).
Variable videosList : list string → Z → N * (Client.ApiError + option (list RawVideo)).
Variable videosChart :
  Client.GetTrendingVideosParams.t → Z → N * (Client.ApiError + option (list RawVideo)).
Variable channelsList : list string → Z → N * (Client.ApiError + option (list RawChannel)).
Variable commentThreadsList :
  string → Z → string → Z → N * (Client.ApiError + option (list RawThread)).
Variable pageGet : string → Z → N * (Client.ApiError + unit).

Abbreviation YouTubeSearchResult := (Client.YouTubeSearchResult (Video:=Video)).
Abbreviation VideoDetailsResult :=
  (Client.VideoDetailsResult (Video:=Video) (Comment:=Comment) (Transcript:=Transcript)).
Abbreviation TrendingVideosResult := (Client.TrendingVideosResult (Video:=Video)).
Abbreviation ChannelSearchResult := (Client.ChannelSearchResult (Channel:=Channel)).

(** What the tools add to a result before they cache it, and the types
    of the results so enhanced. The trending tool stamps the time. *)
Context {EnhancedDetails EnhancedTrending EnhancedChannels : Type}.
Variable enhanceVideoDetails : VideoDetailsResult → EnhancedDetails.
Variable enhanceTrendingData : TrendingVideosResult → Z → EnhancedTrending.
Variable enhanceChannelResults : ChannelSearchResult → EnhancedChannels.

(** *** YouTubeSearchTool *)

(** [getCachedResultIgnoreExpiry]: not implemented, it returns [null]. *)
Definition getCachedResultIgnoreExpiry (cacheKey : string)
    : M YouTubeSearchResult (option YouTubeSearchResult) :=
  ret None.

Definition search_execute (params : Client.YouTubeSearchParams.t)
    : M YouTubeSearchResult (YouTubeSearchResult * option Metadata) :=
  let cacheKey :=
    Keys.getSearchKey (Client.YouTubeSearchParams.query params) (searchParamsJSON params) in
  let* hit := cache_get cacheKey in
  match hit with
  | Some found => ret (found, None)
  | None =>
      let cost := operationCost "search" in
      let* allowed := ask (λ q, Quota.canPerformOperation q cost) in
      if negb allowed then
        throw (Client.QuotaExceededError "Insufficient quota for search operation")
      else
        let* optimizedMaxResults :=
          ask (λ q, Quota.optimizeOperation q "search"
                      (Client.YouTubeSearchParams.maxResults params)) in
        if (optimizedMaxResults =? 0)%Z then
          throw (Client.QuotaExceededError
                   "Cannot perform search operation due to quota constraints")
        else
          let optimizedParams :=
            {| Client.YouTubeSearchParams.query := Client.YouTubeSearchParams.query params;
               Client.YouTubeSearchParams.maxResults := optimizedMaxResults;
               Client.YouTubeSearchParams.publishedAfter :=
                 Client.YouTubeSearchParams.publishedAfter params;
               Client.YouTubeSearchParams.publishedBefore :=
                 Client.YouTubeSearchParams.publishedBefore params;
               Client.YouTubeSearchParams.order := Client.YouTubeSearchParams.order params;
               Client.YouTubeSearchParams.videoDuration :=
                 Client.YouTubeSearchParams.videoDuration params;
               Client.YouTubeSearchParams.videoDefinition :=
                 Client.YouTubeSearchParams.videoDefinition params;
               Client.YouTubeSearchParams.regionCode :=
                 Client.YouTubeSearchParams.regionCode params |} in
          try_catch
            (let* result :=
               call (Client.searchVideos videoIdOf mapVideo searchVideosList videosList
                       optimizedParams) in
             recordUsage cost "search" ;;
             cache_set cacheKey result None ;;
             ret (result,
                  Some {| quotaUsed := cost; cached := false;
                          optimized :=
                            Some (negb (optimizedMaxResults
                                        =? Client.YouTubeSearchParams.maxResults params)%Z);
                          expired := false; fallback := false |}))
            (λ error,
               if Client.isQuotaExceededError error then
                 let* expiredCache := getCachedResultIgnoreExpiry cacheKey in
                 match expiredCache with
                 | Some found =>
                     ret (found,
                          Some {| quotaUsed := 0; cached := true; optimized := None;
                                  expired := true; fallback := false |})
                 | None => throw error
                 end
               else throw error)
  end.

(** *** VideoDetailsTool *)

Definition calculateOperationCost (params : Client.GetVideoDetailsParams.t) : Z :=
  1 + (if Client.GetVideoDetailsParams.includeComments params then 1 else 0).

(** [getPartialCachedData]: the entry of the video without transcript
    and comments, marked as partial. *)
Definition getPartialCachedData (videoId : string) : M EnhancedDetails (option EnhancedDetails) :=
  cache_get (Keys.getVideoDetailsKey videoId false false).

(** The result and whether it is marked as partial. *)
Definition details_execute (params : Client.GetVideoDetailsParams.t)
    : M EnhancedDetails (EnhancedDetails * bool) :=
  let cacheKey :=
    Keys.getVideoDetailsKey (Client.GetVideoDetailsParams.videoId params)
      (Client.GetVideoDetailsParams.includeTranscript params)
      (Client.GetVideoDetailsParams.includeComments params) in
  let* hit := cache_get cacheKey in
  match hit with
  | Some found => ret (found, false)
  | None =>
      let cost := calculateOperationCost params in
      let* allowed := ask (λ q, Quota.canPerformOperation q cost) in
      if negb allowed then
        throw (Client.QuotaExceededError "Insufficient quota for video details operation")
      else
        try_catch
          (let* result :=
             call (Client.getVideoDetails mapVideo commentOf videosList commentThreadsList
                     pageGet params) in
           recordUsage cost "video_details" ;;
           let enhancedResult := enhanceVideoDetails result in
           cache_set cacheKey enhancedResult None ;;
           ret (enhancedResult, false))
          (λ error,
             if Client.isQuotaExceededError error then
               let* partialCache :=
                 getPartialCachedData (Client.GetVideoDetailsParams.videoId params) in
               match partialCache with
               | Some found => ret (found, true)
               | None => throw error
               end
             else throw error)
  end.

(** *** TrendingVideosTool *)

(** [getFallbackTrendingData]: the entry of the region, of the US or of
    Great Britain, for all categories. *)
Definition getFallbackTrendingData (region : string)
    : M EnhancedTrending (option EnhancedTrending) :=
  firstCached [ Keys.getTrendingKey region None;
                Keys.getTrendingKey "US" None;
                Keys.getTrendingKey "GB" None ].

(** The result and, for a fallback, the region that was asked for. *)
Definition trending_execute (params : Client.GetTrendingVideosParams.t)
    : M EnhancedTrending (EnhancedTrending * option string) :=
  let cacheKey :=
    Keys.getTrendingKey (Client.GetTrendingVideosParams.region params)
      (Client.GetTrendingVideosParams.category params) in
  let* hit := cache_get cacheKey in
  match hit with
  | Some found => ret (found, None)
  | None =>
      let cost := operationCost "trending" in
      let* allowed := ask (λ q, Quota.canPerformOperation q cost) in
      if negb allowed then
        throw (Client.QuotaExceededError "Insufficient quota for trending videos operation")
      else
        let* optimizedMaxResults :=
          ask (λ q, Quota.optimizeOperation q "trending"
                      (Client.GetTrendingVideosParams.maxResults params)) in
        if (optimizedMaxResults =? 0)%Z then
          throw (Client.QuotaExceededError
                   "Cannot perform trending operation due to quota constraints")
        else
          let optimizedParams :=
            {| Client.GetTrendingVideosParams.category :=
                 Client.GetTrendingVideosParams.category params;
               Client.GetTrendingVideosParams.region :=
                 Client.GetTrendingVideosParams.region params;
               Client.GetTrendingVideosParams.maxResults := optimizedMaxResults |} in
          try_catch
            (let* result := call (Client.getTrendingVideos mapVideo videosChart optimizedParams) in
             recordUsage cost "trending" ;;
             let* now := Date_now in
             let enhancedResult := enhanceTrendingData result now in
             cache_set cacheKey enhancedResult (Some 1800) ;;
             ret (enhancedResult, None))
            (λ error,
               if Client.isQuotaExceededError error then
                 let* fallbackCache :=
                   getFallbackTrendingData (Client.GetTrendingVideosParams.region params) in
                 match fallbackCache with
                 | Some found =>
                     ret (found, Some (Client.GetTrendingVideosParams.region params))
                 | None => throw error
                 end
               else throw error)
  end.

(** *** ChannelSearchTool *)

(** [getFallbackChannelData]: the entries under the keys made of the
    query alone, of its first word, and of a generic query. *)
Definition getFallbackChannelData (query : string)
    : M EnhancedChannels (option EnhancedChannels) :=
  firstCached
    ((λ fallbackQuery,
        channelsKey
          (Encoding.stringifyObject
             [Encoding.property "query" (Some (Encoding.quoteJSONString fallbackQuery))]))
       <$> [query; firstWord query; "popular channels"]).

Definition channels_execute (params : Client.SearchChannelsParams.t)
    : M EnhancedChannels (EnhancedChannels * Metadata) :=
  let cacheKey := channelsKey (channelParamsJSON params) in
  let* hit := cache_get cacheKey in
  match hit with
  | Some found =>
      ret (found, {| quotaUsed := 0; cached := true; optimized := None; expired := false; fallback := false |})
  | None =>
      let cost := operationCost "channel_search" in
      let* allowed := ask (λ q, Quota.canPerformOperation q cost) in
      if negb allowed then
        throw (Client.QuotaExceededError "Insufficient quota for channel search operation")
      else
        let* optimizedMaxResults :=
          ask (λ q, Quota.optimizeOperation q "channel_search"
                      (Client.SearchChannelsParams.maxResults params)) in
        if (optimizedMaxResults =? 0)%Z then
          throw (Client.QuotaExceededError
                   "Cannot perform channel search due to quota constraints")
        else
          let optimizedParams :=
            {| Client.SearchChannelsParams.query := Client.SearchChannelsParams.query params;
               Client.SearchChannelsParams.maxResults := optimizedMaxResults;
               Client.SearchChannelsParams.includeStats :=
                 Client.SearchChannelsParams.includeStats params;
               Client.SearchChannelsParams.order := Client.SearchChannelsParams.order params |} in
          try_catch
            (let* result :=
               call (Client.searchChannels channelIdOf mapChannel channelOfItem
                       searchChannelsList channelsList optimizedParams) in
             recordUsage cost "channel_search" ;;
             let additionalCost := pagesOf50 (length (Client.channels result)) in
             (if Client.SearchChannelsParams.includeStats params then
                recordUsage additionalCost "channel_details"
              else ret tt) ;;
             let enhancedResult := enhanceChannelResults result in
             cache_set cacheKey enhancedResult None ;;
             ret (enhancedResult,
                  {| quotaUsed :=
                       cost + (if Client.SearchChannelsParams.includeStats params
                               then additionalCost else 0);
                     cached := false; optimized := None; expired := false; fallback := false |}))
            (λ error,
               if Client.isQuotaExceededError error then
                 let* fallbackResults :=
                   getFallbackChannelData (Client.SearchChannelsParams.query params) in
                 match fallbackResults with
                 | Some found =>
                     ret (found,
                          {| quotaUsed := 0; cached := true; optimized := None;
                             expired := false; fallback := true |})
                 | None => throw error
                 end
               else throw error)
  end.

(** *** The tools side by side

    The state of the server as the four tools see it: the parts of the
    store under their prefixes, the ledger and the client they share,
    and the clock. A request is a call of one of the tools. *)
Record Server := {
  searches : Cache.CacheManager YouTubeSearchResult;
  details : Cache.CacheManager EnhancedDetails;
  trends : Cache.CacheManager EnhancedTrending;
  channelSearches : Cache.CacheManager EnhancedChannels;
  ledger : Quota.QuotaManager;
  client : Client.YouTubeClient;
  now : Z
}.

Inductive Request :=
| Search (params : Client.YouTubeSearchParams.t)
| Details (params : Client.GetVideoDetailsParams.t)
| Trending (params : Client.GetTrendingVideosParams.t)
| Channels (params : Client.SearchChannelsParams.t).

(** The world of a tool and the server after the tool has run. *)
Definition worldOf {R} (c : Cache.CacheManager R) (sv : Server) : World R :=
  {| cache := c; quotaManager := ledger sv; youtubeClient := client sv; clock := now sv |}.

Definition thrownBy {A} (r : Client.Thrown + A) : option Client.Thrown :=
  match r with
  | inl e => Some e
  | inr _ => None
  end.

(** What a request leaves behind, its result forgotten. *)
Definition handle (r : Request) (sv : Server) : option Client.Thrown * Server * list Client.event :=
  match r with
  | Search params =>
      let '(res, w, t) := search_execute params (worldOf (searches sv) sv) in
      (thrownBy res,
       {| searches := cache w; details := details sv; trends := trends sv;
          channelSearches := channelSearches sv;
          ledger := quotaManager w; client := youtubeClient w; now := clock w |}, t)
  | Details params =>
      let '(res, w, t) := details_execute params (worldOf (details sv) sv) in
      (thrownBy res,
       {| searches := searches sv; details := cache w; trends := trends sv;
          channelSearches := channelSearches sv;
          ledger := quotaManager w; client := youtubeClient w; now := clock w |}, t)
  | Trending params =>
      let '(res, w, t) := trending_execute params (worldOf (trends sv) sv) in
      (thrownBy res,
       {| searches := searches sv; details := details sv; trends := cache w;
          channelSearches := channelSearches sv;
          ledger := quotaManager w; client := youtubeClient w; now := clock w |}, t)
  | Channels params =>
      let '(res, w, t) := channels_execute params (worldOf (channelSearches sv) sv) in
      (thrownBy res,
       {| searches := searches sv; details := details sv; trends := trends sv;
          channelSearches := cache w;
          ledger := quotaManager w; client := youtubeClient w; now := clock w |}, t)
  end.

(** The requests of a list, one after the other. *)
Fixpoint serve (rs : list Request) (sv : Server) : Server :=
  match rs with
  | [] => sv
  | r :: rs' => serve rs' (handle r sv).1.2
  end.

(** The key under which a request finds and leaves its result. *)
Definition keyOf (r : Request) : string :=
  match r with
  | Search params =>
      Keys.getSearchKey (Client.YouTubeSearchParams.query params) (searchParamsJSON params)
  | Details params =>
      Keys.getVideoDetailsKey (Client.GetVideoDetailsParams.videoId params)
        (Client.GetVideoDetailsParams.includeTranscript params)
        (Client.GetVideoDetailsParams.includeComments params)
  | Trending params =>
      Keys.getTrendingKey (Client.GetTrendingVideosParams.region params)
        (Client.GetTrendingVideosParams.category params)
  | Channels params => channelsKey (channelParamsJSON params)
  end.

(** The units a request asks the ledger to admit. *)
Definition costOf (r : Request) : Z :=
  match r with
  | Search _ => operationCost "search"
  | Details params => calculateOperationCost params
  | Trending _ => operationCost "trending"
  | Channels _ => operationCost "channel_search"
  end.

(** Whether the store holds a live entry for the request. *)
Definition cachedNow (r : Request) (sv : Server) : bool :=
  match r with
  | Search _ => bool_decide (is_Some (Cache.get (now sv) (keyOf r) (searches sv)).1)
  | Details _ => bool_decide (is_Some (Cache.get (now sv) (keyOf r) (details sv)).1)
  | Trending _ => bool_decide (is_Some (Cache.get (now sv) (keyOf r) (trends sv)).1)
  | Channels _ => bool_decide (is_Some (Cache.get (now sv) (keyOf r) (channelSearches sv)).1)
  end.

(** Whether the request is billed for pages of channel statistics on
    top of its cost. *)
Definition billsPages (r : Request) : bool :=
  match r with
  | Channels params => Client.SearchChannelsParams.includeStats params
  | _ => false
  end.

(** The time stamp and the ttl of the entry that the store holds for the
    request, expired or not. *)
Definition stamp {R} (key : string) (c : Cache.CacheManager R) : option (Z * Z) :=
  (λ entry, (Cache.timestamp entry, Cache.ttl entry)) <$> Cache.memoryCache c !! key.

Definition stampOf (r : Request) (sv : Server) : option (Z * Z) :=
  match r with
  | Search _ => stamp (keyOf r) (searches sv)
  | Details _ => stamp (keyOf r) (details sv)
  | Trending _ => stamp (keyOf r) (trends sv)
  | Channels _ => stamp (keyOf r) (channelSearches sv)
  end.

(** The ttl of the entry that a request leaves in the store. *)
Definition ttlOf (r : Request) (sv : Server) : Z :=
  match r with
  | Search _ => Cache.searchResults (Cache.config (searches sv))
  | Details _ => Cache.videoDetails (Cache.config (details sv))
  | Trending _ => 1800
  | Channels _ => 3600
  end.

(** The number of results a request asks for. *)
Definition requested (r : Request) : Z :=
  match r with
  | Search params => Client.YouTubeSearchParams.maxResults params
  | Details _ => 1
  | Trending params => Client.GetTrendingVideosParams.maxResults params
  | Channels params => Client.SearchChannelsParams.maxResults params
  end.

(** The units that the guard of the client asks for first. *)
Definition entryCostOf (r : Request) : Z :=
  match r with
  | Search _ | Channels _ => 100
  | Details _ | Trending _ => 1
  end.

(** The server at a later time. *)
Definition at_time (later : Z) (sv : Server) : Server :=
  {| searches := searches sv; details := details sv; trends := trends sv;
     channelSearches := channelSearches sv;
     ledger := ledger sv; client := client sv; now := later |}.

End Tools.

Arguments Server : clear implicits.

End Tools.

(** ** A small world for the client and the tools

    Items, videos, channels and comments are strings; the API answers
    every call, always the same. *)
Module Demo.
Import Client Tools.

Definition idOf (item : string) : option string := Some item.

Definition titled (raw : string) : string := raw.

Definition commentOf (raw : string) : option string := Some raw.

Definition found : SearchListResponse (SearchItem:=string) :=
  {| items := Some ["UC1"; "UC2"]%string;
     pageInfo_totalResults := Some 2;
     data_nextPageToken := None;
     data_prevPageToken := None |}.

Definition searchVideosList (params : YouTubeSearchParams.t) (t : Z)
    : N * (ApiError + SearchListResponse (SearchItem:=string)) := (120%N, inr found).

Definition searchChannelsList (params : SearchChannelsParams.t) (t : Z)
    : N * (ApiError + SearchListResponse (SearchItem:=string)) := (120%N, inr found).

Definition videosList (ids : list string) (t : Z) : N * (ApiError + option (list string)) :=
  (80%N, inr (Some ["a video"]%string)).

Definition videosChart (params : GetTrendingVideosParams.t) (t : Z)
    : N * (ApiError + option (list string)) := (80%N, inr (Some ["a video"]%string)).

Definition channelsList (ids : list string) (t : Z) : N * (ApiError + option (list string)) :=
  (60%N, inr (Some ["a channel"]%string)).

Definition commentThreadsList (videoId : string) (maxResults : Z) (order : string) (t : Z)
    : N * (ApiError + option (list string)) := (40%N, inr (Some ["a comment"]%string)).

Definition pageGet (url : string) (t : Z) : N * (ApiError + unit) := (300%N, inr tt).

(** The tools add nothing to a result; the trending tool stamps it. *)
Definition enhanceVideoDetails
    (r : VideoDetailsResult (Video:=string) (Comment:=string) (Transcript:=string))
    : VideoDetailsResult (Video:=string) (Comment:=string) (Transcript:=string) := r.

Definition enhanceTrendingData (r : TrendingVideosResult (Video:=string)) (now : Z)
    : TrendingVideosResult (Video:=string) * Z := (r, now).

Definition enhanceChannelResults (r : ChannelSearchResult (Channel:=string))
    : ChannelSearchResult (Channel:=string) := r.

Definition searchParams : YouTubeSearchParams.t :=
  {| YouTubeSearchParams.query := "rocq tutorial";
     YouTubeSearchParams.maxResults := 10;
     YouTubeSearchParams.publishedAfter := None;
     YouTubeSearchParams.publishedBefore := None;
     YouTubeSearchParams.order := "relevance";
     YouTubeSearchParams.videoDuration := "any";
     YouTubeSearchParams.videoDefinition := "any";
     YouTubeSearchParams.regionCode := None |}.

Definition detailsParams : GetVideoDetailsParams.t :=
  {| GetVideoDetailsParams.videoId := "dQw4w9WgXcQ";
     GetVideoDetailsParams.includeTranscript := true;
     GetVideoDetailsParams.includeComments := true;
     GetVideoDetailsParams.maxComments := 50;
     GetVideoDetailsParams.commentsOrder := "relevance" |}.

Definition channelParams : SearchChannelsParams.t :=
  {| SearchChannelsParams.query := "proof assistants";
     SearchChannelsParams.maxResults := 10;
     SearchChannelsParams.includeStats := true;
     SearchChannelsParams.order := "relevance" |}.

(** A client with room for one unit, and one with none. *)
Definition lastUnit : Client.State :=
  {| Client.client := {| Client.quotaUsed := 7999; dailyQuotaLimit := 8000 |};
     Client.clock := 0 |}.

Definition spent : Client.State :=
  {| Client.client := {| Client.quotaUsed := 8000; dailyQuotaLimit := 8000 |};
     Client.clock := 0 |}.

(** A server whose ledger has exactly the cost of a search left. *)
Definition server
    : Server string
        (VideoDetailsResult (Video:=string) (Comment:=string) (Transcript:=string))
        (TrendingVideosResult (Video:=string) * Z)
        (ChannelSearchResult (Channel:=string)) :=
  {| searches := Example.emptyCache;
     details := Example.emptyCache;
     trends := Example.emptyCache;
     channelSearches := Example.emptyCache;
     ledger := {| Quota.usage := 6900; Quota.config := Example.quotaConfig;
                  Quota.cache := Example.emptyCache |};
     client := Client.new (Some 8000);
     now := 0 |}.

End Demo.

(** * Facts *)

Section CacheFacts.
Context {T : Type}.
Import Cache.



(** A cache that has only lost entries already expired at [t0] answers
    every later lookup as before. *)
Lemma get_after_eviction (c c' : CacheManager T) (t0 later : Z) (key : string) :
  memoryCache c' ⊆ memoryCache c →
  (∀ entry, memoryCache c !! key = Some entry → memoryCache c' !! key = None →
            isExpired t0 entry = true) →
  t0 <= later →
  (get later key c').1 = (get later key c).1.
Proof.
  intros Hsub Hdrop Hlater. unfold get.
  destruct (memoryCache c' !! key) as [entry'|] eqn:E'.
  - rewrite (lookup_weaken _ _ _ _ E' Hsub). by destruct (isExpired later entry').
  - destruct (memoryCache c !! key) as [entry|] eqn:E; [|done].
    assert (Hx : isExpired later entry = true).
    { specialize (Hdrop entry eq_refl eq_refl). unfold isExpired in *. lia. }
    by rewrite Hx.
Qed.


Lemma with_memoryCache_id (c : CacheManager T) : with_memoryCache c (memoryCache c) = c.
Proof. by destruct c. Qed.

(** X1. A [set] with the ttl left out, or given as 0, stores the entry
    with the default ttl of the key's category; the value is then read
    back up to that many seconds later, and no longer. *)
Theorem set_without_ttl_uses_category_default (c : CacheManager T) (key : string) (v : T)
    (ttl : option Z) (now later : Z) :
  ttl = None ∨ ttl = Some 0 →
  let c1 := set now key v ttl c in
  memoryCache c1 !! key
    = Some {| data := v; timestamp := now; Cache.ttl := getDefaultTTL c key |}
  ∧ get later key c1
    = if later - now <=? getDefaultTTL c key * 1000 then (Some v, c1) else (None, del key c1).
Proof.
  intros Httl c1.
  assert (Hentry : memoryCache c1 !! key
            = Some {| data := v; timestamp := now; Cache.ttl := getDefaultTTL c key |}).
  { unfold c1, set. simpl. rewrite lookup_insert_eq. by destruct Httl as [-> | ->]. }
  split; [exact Hentry|].
  unfold get. rewrite Hentry. unfold isExpired. simpl.
  destruct (later - now <=? getDefaultTTL c key * 1000) eqn:E;
    destruct (later - now >? getDefaultTTL c key * 1000) eqn:E'; try done; lia.
Qed.

(** X2. The last [set] of a key wins: a second [set] leaves the cache as
    if the first had not happened. A [set] of one key changes no lookup
    of another key, and a lookup of another key leaves the entry alone. *)
Theorem set_overwrites_and_frames (c : CacheManager T) (f : string) (v1 v2 : T)
    (ttl1 ttl2 : option Z) (now1 now2 : Z) :
  set now2 f v2 ttl2 (set now1 f v1 ttl1 c) = set now2 f v2 ttl2 c
  ∧ ∀ g later, g ≠ f →
      (get later g (set now1 f v1 ttl1 c)).1 = (get later g c).1
      ∧ memoryCache (get later g (set now1 f v1 ttl1 c)).2 !! f
        = memoryCache (set now1 f v1 ttl1 c) !! f.
Proof.
  split.
  - unfold set, with_memoryCache, getDefaultTTL. simpl. by rewrite insert_insert_eq.
  - intros g later Hne. unfold get, set. simpl. rewrite lookup_insert_ne by done.
    destruct (memoryCache c !! g) as [e|]; [|done].
    destruct (isExpired later e); [|done]. simpl. split; [done|].
    by rewrite lookup_delete_ne.
Qed.

(** X3. After [del key] a lookup of the key finds nothing, the lookups
    of all other keys are as before, and deleting an absent key changes
    nothing. After [clear] every lookup finds nothing and the
    statistics count no entry. *)
Theorem del_and_clear (c : CacheManager T) (key : string) (later : Z) :
  get later key (del key c) = (None, del key c)
  ∧ (∀ g, g ≠ key → (get later g (del key c)).1 = (get later g c).1)
  ∧ (memoryCache c !! key = None → del key c = c)
  ∧ (∀ g, get later g (clear c) = (None, clear c))
  ∧ Keys.getCacheStats (clear c) = (0%nat, false).
Proof.
  split_and!.
  - unfold get, del. simpl. by rewrite lookup_delete_eq.
  - intros g Hne. unfold get, del. simpl. rewrite lookup_delete_ne by done.
    destruct (memoryCache c !! g) as [e|]; [|done]. by destruct (isExpired later e).
  - intros Hnone. unfold del. rewrite delete_id by done. apply with_memoryCache_id.
  - intros g. unfold get, clear. simpl. by rewrite lookup_empty.
  - unfold Keys.getCacheStats, clear. simpl. by rewrite map_size_empty.
Qed.

(** X4. The periodic sweep keeps exactly the entries that have not
    expired. It changes the answer of no lookup made at the time of the
    sweep or later, it never adds an entry, sweeping twice is sweeping
    once, and a cache without expired entries is left as it is. *)
Theorem cleanup_removes_the_expired (c : CacheManager T) (now : Z) :
  (∀ key entry,
     memoryCache (cleanupMemoryCache now c) !! key = Some entry
     ↔ memoryCache c !! key = Some entry ∧ isExpired now entry = false)
  ∧ (∀ key later, now <= later →
       (get later key (cleanupMemoryCache now c)).1 = (get later key c).1)
  ∧ cleanupMemoryCache now (cleanupMemoryCache now c) = cleanupMemoryCache now c
  ∧ (size (memoryCache (cleanupMemoryCache now c)) ≤ size (memoryCache c))%nat
  ∧ ((∀ key entry, memoryCache c !! key = Some entry → isExpired now entry = false) →
     cleanupMemoryCache now c = c).
Proof.
  assert (Hlook : ∀ key entry,
     memoryCache (cleanupMemoryCache now c) !! key = Some entry
     ↔ memoryCache c !! key = Some entry ∧ isExpired now entry = false).
  { intros key entry. unfold cleanupMemoryCache. simpl. by rewrite map_lookup_filter_Some. }
  assert (Hsub : memoryCache (cleanupMemoryCache now c) ⊆ memoryCache c).
  { unfold cleanupMemoryCache. simpl. apply map_filter_subseteq. }
  split_and!.
  - exact Hlook.
  - intros key later Hlater. apply (get_after_eviction _ _ now); [done| |done].
    intros entry Hc Hgone. destruct (isExpired now entry) eqn:E; [done|].
    assert (memoryCache (cleanupMemoryCache now c) !! key = Some entry) by by apply Hlook.
    congruence.
  - unfold cleanupMemoryCache, with_memoryCache. simpl. f_equal.
    apply map_eq. intros key. apply option_eq. intros entry.
    rewrite !map_lookup_filter_Some. tauto.
  - by apply map_subseteq_size.
  - intros Hall. unfold cleanupMemoryCache.
    rewrite map_filter_id; [apply with_memoryCache_id|].
    intros key entry He. simpl. eauto.
Qed.

(** X5. A lookup repeated at the same time gives the same answer and the
    same cache; a lookup never adds an entry; and once a lookup of a key
    has found nothing, every lookup of that key finds nothing, at any
    time, until the key is set again. *)
Theorem get_is_repeatable (c : CacheManager T) (key : string) (t : Z) :
  get t key (get t key c).2 = get t key c
  ∧ memoryCache (get t key c).2 ⊆ memoryCache c
  ∧ ((get t key c).1 = None →
     ∀ t', get t' key (get t key c).2 = (None, (get t key c).2)).
Proof.
  unfold get. destruct (memoryCache c !! key) as [entry|] eqn:E.
  - destruct (isExpired t entry) eqn:Hx; simpl.
    + rewrite lookup_delete_eq. split_and!; [done|apply delete_subseteq|done].
    + rewrite E, Hx. done.
  - simpl. rewrite E. done.
Qed.

End CacheFacts.

Section QuotaFacts.
Import Quota.

Lemma canPerformOperation_true q cost :
  canPerformOperation q cost = true ↔
  usage q + cost <= dailyLimit (config q) - reserveBuffer (config q).
Proof. unfold canPerformOperation. cbn zeta. apply Z.leb_le. Qed.




(** The pending check and the next ledgers, together. *)
Lemma guarded_within_budget cs : ∀ q admitted,
  (∀ cost, admitted = Some cost → within_budget (recordUsage 0 q cost "")) →
  guarded q admitted cs = true →
  Forall within_budget (states_from_first_record q cs)
  ∧ (within_budget q → Forall within_budget (states q cs)).
Proof.
  induction cs as [|c cs IH]; intros q admitted Hadm Hg; [by split|].
  destruct c as [cost|now cost operation| |operation requestedItems|]; simpl in Hg |- *.
  - destruct (IH q (if canPerformOperation q cost then Some cost else None)) as [H1 H2]; [|done|].
    + intros cost'. destruct (canPerformOperation q cost) eqn:Hcan; [|done].
      intros [= <-]. apply canPerformOperation_true in Hcan. exact Hcan.
    + split; [done|]. intros Hq. constructor; auto.
  - destruct admitted as [cost'|]; [|done].
    apply andb_prop in Hg as [Heq Hg]. apply Z.eqb_eq in Heq as <-.
    assert (Hnew : within_budget (recordUsage now q cost operation)) by exact (Hadm cost eq_refl).
    destruct (IH (recordUsage now q cost operation) None) as [_ H2]; [done|done|].
    split; [|intros _]; constructor; auto.
  - destruct (IH q admitted Hadm Hg) as [H1 H2]. split; [done|]. intros Hq. constructor; auto.
  - destruct (IH q admitted Hadm Hg) as [H1 H2]. split; [done|]. intros Hq. constructor; auto.
  - destruct (IH q admitted Hadm Hg) as [H1 H2]. split; [done|]. intros Hq. constructor; auto.
Qed.

(** C1. Admission never exceeds budget. Take any sequence of calls on a
    ledger in which every [recordUsage cost] comes after a
    [canPerformOperation cost] that returned true, with no other write
    of the counter between the two. Then [usage <= dailyLimit -
    reserveBuffer] holds after the first [recordUsage] and at every
    point after it; and when the ledger starts within that bound, it
    holds at every point of the sequence, the start included. *)
Theorem admission_never_exceeds_budget (q : QuotaManager) (cs : list call) :
  guarded q None cs = true →
  Forall (λ q', usage q' <= dailyLimit (config q') - reserveBuffer (config q'))
         (states_from_first_record q cs)
  ∧ (usage q <= dailyLimit (config q) - reserveBuffer (config q) →
     Forall (λ q', usage q' <= dailyLimit (config q') - reserveBuffer (config q'))
            (q :: states q cs)).
Proof.
  intros Hg. destruct (guarded_within_budget cs q None) as [H1 H2]; [done|done|].
  split; [exact H1|]. intros Hq. constructor; [exact Hq|]. by apply H2.
Qed.

Lemma admission_never_exceeds_budget_witness :
  guarded Example.ledger None Example.calls = true
  ∧ Forall (λ q', usage q' <= dailyLimit (config q') - reserveBuffer (config q'))
      (states_from_first_record Example.ledger Example.calls)
  ∧ (usage Example.ledger <= dailyLimit (config Example.ledger) - reserveBuffer (config Example.ledger) →
    Forall (λ q', usage q' <= dailyLimit (config q') - reserveBuffer (config q'))
      (Example.ledger :: states Example.ledger Example.calls)).
Proof.
  split; [reflexivity|].
  apply (admission_never_exceeds_budget Example.ledger Example.calls). reflexivity.
Defined.

(** C3. [canPerformOperation cost] returns true exactly when [usage +
    cost <= dailyLimit - reserveBuffer]. With a daily limit of 8000 and
    a reserve of 1000, after [recordUsage 6900] on a fresh ledger a cost
    of 50 is admitted (6950 <= 7000) and a cost of 150 is not (7050 >
    7000). *)
Theorem canPerformOperation_postcondition :
  (∀ (q : QuotaManager) (cost : Z),
     canPerformOperation q cost = true ↔
     usage q + cost <= dailyLimit (config q) - reserveBuffer (config q))
  ∧ (∀ (now : Z) (c : Cache.CacheManager Z) (recent : bool) (warn : Z) (operation : string),
       let q0 := new {| dailyLimit := 8000; reserveBuffer := 1000;
                        prioritizeRecent := recent; warningThreshold := warn |} c in
       let q1 := recordUsage now q0 6900 operation in
       canPerformOperation q1 50 = true ∧ canPerformOperation q1 150 = false).
Proof.
  split; [exact canPerformOperation_true|]. intros. split; reflexivity.
Qed.


(** C7. [optimizeOperation] on a ledger with a positive daily limit, for
    a kind whose unit cost is [unitCost]. With [available] the budget
    left, [dailyLimit - reserveBuffer - usage] floored at 0: the result
    is 0 when the unit cost exceeds [available]; otherwise, for
    video_details and channel_details it is the smaller of the
    requested count and [available / unitCost] rounded down, and for
    search and channel_search it is the smaller of the requested count
    and 5 once usage is over 80 percent of the daily limit, and the
    requested count below that. *)
Theorem optimizeOperation_postcondition (q : QuotaManager) (operation : string)
    (requestedItems unitCost : Z) :
  0 < dailyLimit (config q) →
  getOperationCost operation = Units unitCost →
  let available := Z.max 0 (dailyLimit (config q) - reserveBuffer (config q) - usage q) in
  (available < unitCost → optimizeOperation q operation requestedItems = 0)
  ∧ (unitCost <= available →
     (operation = "video_details"%string ∨ operation = "channel_details"%string →
      optimizeOperation q operation requestedItems = Z.min requestedItems (available / unitCost))
     ∧ (operation = "search"%string ∨ operation = "channel_search"%string →
        (80 * dailyLimit (config q) < 100 * usage q →
         optimizeOperation q operation requestedItems = Z.min requestedItems 5)
        ∧ (100 * usage q <= 80 * dailyLimit (config q) →
           optimizeOperation q operation requestedItems = requestedItems))).
Proof.
  intros Hlimit Hcost available.
  unfold optimizeOperation. rewrite Hcost. cbn zeta.
  change (getAvailableQuota q) with available. simpl cost_gt.
  split.
  - intros Hlt. destruct (unitCost >? available) eqn:E; [done|lia].
  - intros Hle. destruct (unitCost >? available) eqn:E; [lia|].
    split.
    + intros [-> | ->]; reflexivity.
    + intros Hop. 
      assert (Hsel : (String.eqb operation "video_details" || String.eqb operation "channel_details") = false)
        by (destruct Hop as [-> | ->]; reflexivity).
      assert (Hsearch : (String.eqb operation "search" || String.eqb operation "channel_search") = true)
        by (destruct Hop as [-> | ->]; reflexivity).
      rewrite Hsel, Hsearch. simpl andb. unfold percentage_gt.
      destruct (0 <? dailyLimit (config q)) eqn:Hpos; [|lia].
      split; intros H; destruct (80 * dailyLimit (config q) <? usage q * 100) eqn:E'; try done; lia.
Qed.

Lemma getOperationCost_units operation n :
  getOperationCost operation = Units n → n = 1 ∨ n = 100.
Proof.
  unfold getOperationCost. destruct (assoc operation costs) as [m|] eqn:Ha.
  - simpl in Ha.
    repeat (destruct (String.eqb operation _) in Ha;
            [injection Ha as <-; simpl; intros [= <-]; auto|]).
    done.
  - destruct (existsb _ _); [done|]. intros [= <-]. auto.
Qed.

(** X8. [resetDailyQuota] sets the counter to zero and removes the
    persisted counter, so that a ledger constructed afterwards from the
    same cache starts at zero. After it an operation is admitted exactly
    when its cost is at most the daily limit less the reserve. Resetting
    twice is resetting once. *)
Theorem reset_reopens_the_budget (q : QuotaManager) (later : Z) :
  usage (resetDailyQuota q) = 0
  ∧ (∀ cost, canPerformOperation (resetDailyQuota q) cost = true
             ↔ cost <= dailyLimit (config q) - reserveBuffer (config q))
  ∧ usage (loadQuotaFromCache later (new (config q) (cache (resetDailyQuota q)))) = 0
  ∧ resetDailyQuota (resetDailyQuota q) = resetDailyQuota q.
Proof.
  split_and!.
  - done.
  - intros cost. unfold canPerformOperation. simpl. rewrite Z.leb_le. lia.
  - unfold loadQuotaFromCache, resetDailyQuota, new, Cache.get, Cache.del. simpl.
    by rewrite lookup_delete_eq.
  - unfold resetDailyQuota, Cache.del, Cache.with_memoryCache. simpl.
    by rewrite delete_delete_eq.
Qed.


(** X10. [getAvailableQuota] is never negative. An operation of a cost
    above zero is admitted exactly when its cost is at most the
    available quota, and recording an admitted operation lowers the
    available quota by exactly its cost. *)
Theorem admission_matches_available_quota (q : QuotaManager) (cost now : Z)
    (operation : string) :
  0 <= getAvailableQuota q
  ∧ (0 < cost → (canPerformOperation q cost = true ↔ cost <= getAvailableQuota q))
  ∧ (0 <= cost → canPerformOperation q cost = true →
     getAvailableQuota (recordUsage now q cost operation) = getAvailableQuota q - cost).
Proof.
  unfold getAvailableQuota, canPerformOperation. simpl. rewrite Z.leb_le. lia.
Qed.

(** With a daily limit above zero, whenever the ledger prefers cached
    results (usage over 85 percent), a search or a channel search is
    granted at most five items, or none. *)
Lemma optimizeOperation_under_cache_preference (q : QuotaManager) (operation : string)
    (requestedItems : Z) :
  0 < dailyLimit (config q) →
  shouldUseCachedResults q = true →
  operation = "search"%string ∨ operation = "channel_search"%string →
  optimizeOperation q operation requestedItems = 0
  ∨ optimizeOperation q operation requestedItems = Z.min requestedItems 5.
Proof.
  intros Hlimit Hpref Hop. unfold shouldUseCachedResults, percentage_gt in Hpref.
  destruct (0 <? dailyLimit (config q)) eqn:E; [|lia]. apply Z.ltb_lt in Hpref.
  unfold optimizeOperation. cbn zeta.
  destruct (cost_gt _ _); [by left|]. right.
  assert (Hsel : (String.eqb operation "video_details"
                  || String.eqb operation "channel_details") = false)
    by (destruct Hop as [-> | ->]; reflexivity).
  assert (Hsearch : (String.eqb operation "search"
                     || String.eqb operation "channel_search") = true)
    by (destruct Hop as [-> | ->]; reflexivity).
  rewrite Hsel, Hsearch. unfold percentage_gt. rewrite E. simpl.
  destruct (80 * dailyLimit (config q) <? usage q * 100) eqn:E'; [done|lia].
Qed.

(** X11. For a request of zero or more items [optimizeOperation] answers
    with a number between zero and the request. For the two kinds that
    are paid per item, what it grants costs no more than the available
    quota. For a kind that is neither paid per item nor a search, the
    answer is all or nothing. With a daily limit above zero, whenever
    [shouldUseCachedResults] holds (usage over 85 percent), a search or
    a channel search is granted five items at most, or none. *)
Theorem optimizeOperation_bounds (q : QuotaManager) (operation : string)
    (requestedItems : Z) :
  0 <= requestedItems →
  0 <= optimizeOperation q operation requestedItems <= requestedItems
  ∧ (∀ unitCost, getOperationCost operation = Units unitCost →
       (operation = "video_details"%string ∨ operation = "channel_details"%string) →
       optimizeOperation q operation requestedItems * unitCost <= getAvailableQuota q)
  ∧ (operation ≠ "video_details"%string → operation ≠ "channel_details"%string →
     operation ≠ "search"%string → operation ≠ "channel_search"%string →
     optimizeOperation q operation requestedItems = 0
     ∨ optimizeOperation q operation requestedItems = requestedItems)
  ∧ (0 < dailyLimit (config q) → shouldUseCachedResults q = true →
     operation = "search"%string ∨ operation = "channel_search"%string →
     optimizeOperation q operation requestedItems = 0
     ∨ optimizeOperation q operation requestedItems = Z.min requestedItems 5).
Proof.
  intros Hreq.
  assert (Havail : 0 <= getAvailableQuota q) by (unfold getAvailableQuota; lia).
  split; [|split; [|split; [|apply optimizeOperation_under_cache_preference]]].
  - unfold optimizeOperation. cbn zeta.
    destruct (cost_gt _ _); [lia|].
    destruct (_ || _).
    + destruct (getOperationCost operation) as [n|] eqn:Hn; [|lia].
      destruct (getOperationCost_units _ _ Hn) as [-> | ->].
      * rewrite Z.div_1_r. lia.
      * pose proof (Z.div_pos (getAvailableQuota q) 100). lia.
    + destruct (_ && _); lia.
  - intros unitCost Hcost Hop. unfold optimizeOperation. rewrite Hcost. cbn zeta. simpl cost_gt.
    destruct (Z.gtb_spec unitCost (getAvailableQuota q)); [lia|].
    assert (Hsel : (String.eqb operation "video_details"
                    || String.eqb operation "channel_details") = true)
      by (destruct Hop as [-> | ->]; reflexivity).
    rewrite Hsel.
    destruct (getOperationCost_units _ _ Hcost) as [-> | ->].
    + rewrite Z.div_1_r. lia.
    + pose proof (Z.mul_div_le (getAvailableQuota q) 100). lia.
  - intros H1 H2 H3 H4. unfold optimizeOperation. cbn zeta.
    destruct (cost_gt _ _); [by left|]. right.
    apply String.eqb_neq in H1, H2, H3, H4. by rewrite H1, H2, H3, H4.
Qed.

(** Once the cost of a kind of operation is admitted, a request of one
    or more items of that kind is granted at least one. *)
Lemma optimizeOperation_admitted (q : QuotaManager) (operation : string)
    (unitCost requestedItems : Z) :
  getOperationCost operation = Units unitCost →
  canPerformOperation q unitCost = true →
  1 <= requestedItems →
  1 <= optimizeOperation q operation requestedItems.
Proof.
  intros Hcost Hcan Hreq.
  assert (Hfit : unitCost <= getAvailableQuota q).
  { unfold canPerformOperation, getAvailableQuota in *. apply Z.leb_le in Hcan.
    destruct (getOperationCost_units _ _ Hcost); lia. }
  unfold optimizeOperation. rewrite Hcost. cbn zeta. simpl cost_gt.
  destruct (Z.gtb_spec unitCost (getAvailableQuota q)); [lia|].
  destruct (_ || _).
  - destruct (getOperationCost_units _ _ Hcost) as [-> | ->].
    + rewrite Z.div_1_r. lia.
    + assert (1 <= getAvailableQuota q / 100) by (apply Z.div_le_lower_bound; lia). lia.
  - destruct (_ && _); lia.
Qed.

(** X14. With a daily limit above zero, [getRecommendations] is empty
    exactly when usage is at most half of the daily limit; it never
    gives more than four pieces of advice; and it opens with the
    critical advice exactly when usage is over 90 percent. *)
Theorem recommendations_start_above_half (q : QuotaManager) :
  0 < dailyLimit (config q) →
  (QuotaReport.getRecommendations q = [] ↔ 100 * usage q <= 50 * dailyLimit (config q))
  ∧ (length (QuotaReport.getRecommendations q) ≤ 4)%nat
  ∧ (90 * dailyLimit (config q) < 100 * usage q ↔
     head (QuotaReport.getRecommendations q)
     = Some "Critical: Consider caching more aggressively"%string).
Proof.
  intros Hlimit. unfold QuotaReport.getRecommendations, percentage_gt.
  destruct (0 <? dailyLimit (config q)) eqn:E; [|lia].
  destruct (90 * dailyLimit (config q) <? usage q * 100) eqn:E90;
  destruct (75 * dailyLimit (config q) <? usage q * 100) eqn:E75;
  destruct (50 * dailyLimit (config q) <? usage q * 100) eqn:E50;
  destruct (60 * dailyLimit (config q) <? usage q * 100) eqn:E60;
  destruct (reserveBuffer (config q) <? 1000); simpl;
  (split_and!; [split; [try done; lia| try done; lia] | lia
               | split; [try done; lia| try done; lia]]).
Qed.

End QuotaFacts.

Section EncodingFacts.
Import Encoding.
Local Open Scope string_scope.
Local Arguments String.append !_ _ / : simpl nomatch.

Lemma slice0_app_l (n : nat) (a b : string) :
  (n ≤ String.length a)%nat → slice0 n (a ++ b) = slice0 n a.
Proof.
  revert a. induction n as [|n IH]; intros a Hn; [by destruct a|].
  destruct a as [|x a]; simpl in *; [lia|]. f_equal. apply IH. lia.
Qed.

Lemma slice0_app_r (a b : string) (n : nat) :
  slice0 (String.length a + n) (a ++ b) = a ++ slice0 n b.
Proof. induction a as [|x a IH]; simpl; [done|]. by rewrite IH. Qed.

(** Fifty characters of base64 are read off thirty-eight bytes. *)
Lemma base64_slice (a b : string) :
  (38 ≤ String.length a)%nat → (38 ≤ String.length b)%nat →
  slice0 38 a = slice0 38 b →
  slice0 50 (base64 a) = slice0 50 (base64 b).
Proof.
  intros Ha Hb Hab.
  do 38 (destruct a as [|? a]; [simpl in Ha; lia|]).
  do 38 (destruct b as [|? b]; [simpl in Hb; lia|]).
  cbn [slice0] in Hab. simplify_eq.
  destruct a as [|? a], b as [|? b]; reflexivity.
Qed.

Lemma append_assoc (a b c : string) : (a ++ b) ++ c = a ++ (b ++ c).
Proof. induction a as [|x a IH]; simpl; [done|]. by rewrite IH. Qed.

End EncodingFacts.

Section BrokerFacts.
Import LLM.
Context {number : Type}.
Variable numberToJSON : number → string.
Variable encode : string → option (list N).
Variable executeOpenAIRequest : LLMRequest number → Z → N * (JsError + ProviderResponse number).
Variable executeAnthropicRequest : LLMRequest number → Z → N * (JsError + ProviderResponse number).

Abbreviation generate := (run numberToJSON encode executeOpenAIRequest executeAnthropicRequest).
Abbreviation forProviders :=
  (LLM.forProviders numberToJSON executeOpenAIRequest executeAnthropicRequest).
Abbreviation loop := (LLM.loop numberToJSON executeOpenAIRequest executeAnthropicRequest).
Abbreviation loop_hit := (LLM.loop_hit numberToJSON executeOpenAIRequest executeAnthropicRequest).
Abbreviation loop_success :=
  (LLM.loop_success numberToJSON executeOpenAIRequest executeAnthropicRequest).
Abbreviation loop_fatal :=
  (LLM.loop_fatal numberToJSON executeOpenAIRequest executeAnthropicRequest).
Abbreviation loop_retry :=
  (LLM.loop_retry numberToJSON executeOpenAIRequest executeAnthropicRequest).
Abbreviation cacheKeyOf := (LLM.cacheKeyOf numberToJSON).
Abbreviation lookup := (LLM.lookup numberToJSON).
Abbreviation afterLookup := (LLM.afterLookup numberToJSON).
Abbreviation settled := (LLM.settled executeOpenAIRequest executeAnthropicRequest).
Abbreviation charged := (LLM.charged numberToJSON).
Abbreviation scheduled := (LLM.scheduled executeOpenAIRequest executeAnthropicRequest).

(** One turn of the loop, computed: the monad and the methods unfold to
    the pairs of the rules. *)
Ltac compute_turn Hcan :=
  cbn [LLM.forProviders];
  unfold turnOf, try_catch, attempt, cache_get, executeRequest, LLM.recordUsage, cache_set,
    exponentialBackoff, bind, get_service, put_service, Date_now, elapse, emit, throw, ret;
  rewrite Hcan; cbn.

(** [forProviders] runs by the rules of [loop]. *)
Lemma forProviders_loop request userId startTime estimatedTokens ps : ∀ i errors s,
  loop request userId startTime estimatedTokens ps i errors s
    (forProviders request userId startTime estimatedTokens ps i errors s).
Proof.
  induction ps as [|p ps IH]; intros i errors s; [constructor|].
  specialize (IH (S i)).
  destruct (canUseProvider p estimatedTokens) eqn:Hcan.
  2:{ compute_turn Hcan. specialize (IH errors s).
      destruct (forProviders _ _ _ _ _ _ _ s) as [[res s'] t]. by constructor. }
  destruct (lookup request p s) as [hit c'] eqn:Hlook.
  destruct hit as [c|].
  { pose proof (loop_hit request userId startTime estimatedTokens p ps i errors s c Hcan) as H.
    rewrite Hlook in H. specialize (H eq_refl).
    unfold LLM.afterLookup, LLM.lookup, LLM.cacheKeyOf in H, Hlook. rewrite Hlook in H.
    compute_turn Hcan. rewrite Hlook. exact H. }
  destruct (settled request p s) as [ms [e|resp]] eqn:Hset.
  - destruct (isNonRetryableError e) eqn:Hfatal.
    + pose proof (loop_fatal request userId startTime estimatedTokens p ps i errors s e Hcan) as H.
      rewrite Hlook, Hset in H. specialize (H eq_refl eq_refl Hfatal).
      unfold LLM.advance, LLM.afterLookup, LLM.lookup, LLM.cacheKeyOf, LLM.settled in H, Hlook, Hset.
      rewrite Hlook in H.
      compute_turn Hcan. rewrite Hlook. cbn. rewrite Hset. cbn. rewrite Hfatal. exact H.
    + pose proof (loop_retry request userId startTime estimatedTokens p ps i errors s e) as H.
      rewrite Hlook, Hset in H.
      unfold LLM.advance, LLM.afterLookup, LLM.lookup, LLM.cacheKeyOf, LLM.settled in H, Hlook, Hset.
      rewrite Hlook in H. cbn in H.
      compute_turn Hcan. rewrite Hlook. cbn. rewrite Hset. cbn. rewrite Hfatal. cbn.
      match goal with |- context [forProviders _ _ _ _ ps (S i) ?er ?st] =>
        specialize (IH er st); destruct (forProviders _ _ _ _ ps (S i) er st) as [[res s'] t] end.
      apply (H res s' t Hcan eq_refl eq_refl Hfatal IH).
  - pose proof (loop_success request userId startTime estimatedTokens p ps i errors s resp Hcan) as H.
    rewrite Hlook, Hset in H. specialize (H eq_refl eq_refl).
    unfold LLM.charged, LLM.advance, LLM.afterLookup, LLM.lookup, LLM.cacheKeyOf, LLM.settled
      in H, Hlook, Hset.
    rewrite Hlook in H. cbn in H.
    compute_turn Hcan. rewrite Hlook. cbn. rewrite Hset. exact H.
Qed.

Lemma lookup_subseteq request p s :
  Cache.config (lookup request p s).2 = Cache.config (cache (service s))
  ∧ Cache.memoryCache (lookup request p s).2 ⊆ Cache.memoryCache (cache (service s)).
Proof.
  unfold lookup, Cache.get.
  destruct (Cache.memoryCache (cache (service s)) !! cacheKeyOf request p) as [entry|]; [|done].
  destruct (Cache.isExpired (clock s) entry); [|done]. split; [done|]. apply delete_subseteq.
Qed.

Lemma lookup_dropped request p s key entry :
  Cache.memoryCache (cache (service s)) !! key = Some entry →
  Cache.memoryCache (lookup request p s).2 !! key = None →
  key = cacheKeyOf request p ∧ (lookup request p s).1 = None
  ∧ Cache.isExpired (clock s) entry = true.
Proof.
  unfold LLM.lookup, Cache.get. intros Hb.
  destruct (Cache.memoryCache (cache (service s)) !! cacheKeyOf request p) as [entry'|] eqn:E;
    [|simpl; congruence].
  destruct (Cache.isExpired (clock s) entry') eqn:Hx; [|simpl; congruence].
  simpl. intros Hd. destruct (decide (key = cacheKeyOf request p)) as [->|Hne].
  - split_and!; [done|done|congruence].
  - rewrite lookup_delete_ne in Hd by done. congruence.
Qed.

Lemma isExpired_mono (now later : Z) (entry : Cache.CacheEntry (ProviderResponse number)) :
  now <= later → Cache.isExpired now entry = true → Cache.isExpired later entry = true.
Proof. unfold Cache.isExpired. lia. Qed.

Lemma backoffDelay_nonneg (attempt : Z) : 0 <= backoffDelay attempt.
Proof.
  unfold backoffDelay. apply Z.min_glb; [|lia].
  pose proof (Z.pow_nonneg 2 (attempt - 1)). lia.
Qed.

Ltac loop_induction H :=
  induction H as [i errors s|p ps i errors s res s' t Hcan Hl IH|p ps i errors s c Hcan Hhit
                 |p ps i errors s resp Hcan Hmiss Hset s1|p ps i errors s e Hcan Hmiss Hset Hfatal
                 |p ps i errors s e res s' t Hcan Hmiss Hset Hretry delay Hl IH]; simpl in *.

(** The clock of a request never runs backwards. *)
Lemma loop_clock_mono request userId startTime estimatedTokens ps i errors s r :
  loop request userId startTime estimatedTokens ps i errors s r → clock s <= clock r.1.2.
Proof.
  intros H. loop_induction H; try lia.
  pose proof (backoffDelay_nonneg (Z.of_nat (length (errors ++ [(name p, e)])))).
  fold delay in H. lia.
Qed.

Lemma loop_untouched request userId startTime estimatedTokens ps i errors s r :
  loop request userId startTime estimatedTokens ps i errors s r →
  noSuccess r.2 → untouched r.2 s r.1.2 ∧ noCharge r.2.
Proof.
  intros H. pose proof (loop_clock_mono _ _ _ _ _ _ _ _ _ H) as Hclock. revert Hclock.
  loop_induction H; intros Hclock Hns.
  - split; [|constructor]. repeat split; try done; intros; congruence.
  - apply Forall_cons in Hns as [_ Hns].
    destruct (IH Hclock Hns) as [(H1 & H2 & H3 & H4 & H5) H6].
    split; [|by constructor]. repeat split; try done.
    + by destruct (H5 key entry).
    + destruct (H5 key entry) as [_ [q Hq]]; [done|done|]. exists q. by right.
  - destruct (lookup_subseteq request p s) as [Hc Hm].
    split; [|by repeat constructor]. repeat split; try done;
      destruct (lookup_dropped request p s key entry) as (_ & Hn & _); try done; congruence.
  - exfalso. apply Forall_cons in Hns as [_ Hns]. apply Forall_cons in Hns as [_ Hns].
    apply Forall_cons in Hns as [Hns _]. done.
  - destruct (lookup_subseteq request p s) as [Hc Hm].
    split; [|by repeat constructor]. repeat split; try done.
    + destruct (lookup_dropped request p s key entry) as (_ & _ & Hx); try done.
      apply (isExpired_mono (clock s)); [simpl; lia|exact Hx].
    + destruct (lookup_dropped request p s key entry) as (-> & _ & _); try done.
      exists (name p). right. left.
  - assert (Hns' : noSuccess t) by (by do 4 apply Forall_cons in Hns as [_ Hns]).
    pose proof (loop_clock_mono _ _ _ _ _ _ _ _ _ Hl) as Hclock'. simpl in Hclock'.
    pose proof (backoffDelay_nonneg (Z.of_nat (length (errors ++ [(name p, e)])))) as Hdelay.
    fold delay in Hdelay.
    destruct (IH Hclock' Hns') as [(H1 & H2 & H3 & H4 & H5) H6].
    destruct (lookup_subseteq request p s) as [Hc Hm].
    split; [|by repeat constructor]. repeat split; try done.
    + by rewrite H3.
    + by etrans.
    + destruct (Cache.memoryCache (lookup request p s).2 !! key) as [entry'|] eqn:E.
      * assert (entry' = entry) as ->.
        { eapply lookup_weaken in E; [|exact Hm]. congruence. }
        by destruct (H5 key entry).
      * destruct (lookup_dropped request p s key entry) as (_ & _ & Hx); try done.
        apply (isExpired_mono (clock s)); [simpl; lia|exact Hx].
    + destruct (Cache.memoryCache (lookup request p s).2 !! key) as [entry'|] eqn:E.
      * destruct (H5 key entry') as [_ [q Hq]]; [done|done|]. exists q. by do 4 right.
      * destruct (lookup_dropped request p s key entry) as (-> & _ & _); try done.
        exists (name p). right. left.
Qed.

Lemma loop_failures request userId startTime estimatedTokens ps i errors s r :
  loop request userId startTime estimatedTokens ps i errors s r →
  ∀ th, r.1.1 = inl th → th = allFailed (errors ++ failures r.2) ∧ noSuccess r.2.
Proof.
  intros H. loop_induction H; intros th Hth.
  - injection Hth as <-. split; [by rewrite app_nil_r|constructor].
  - destruct (IH th Hth) as [-> Hns]. split; [done|]. by constructor.
  - done.
  - done.
  - injection Hth as <-. split; [done|]. by repeat constructor.
  - destruct (IH th Hth) as [-> Hns]. rewrite <- app_assoc. split; [done|]. by repeat constructor.
Qed.

(** Membership in an explicit list of events, one element at a time. *)
Ltac among H :=
  repeat (apply elem_of_cons in H as [H|H]; [try discriminate H|]);
  try (by apply elem_of_nil in H).

Lemma lookup_hit request p s c :
  (lookup request p s).1 = Some c →
  ∃ entry, Cache.memoryCache (cache (service s)) !! cacheKeyOf request p = Some entry
           ∧ Cache.data entry = c ∧ Cache.isExpired (clock s) entry = false.
Proof.
  unfold lookup, Cache.get.
  destruct (Cache.memoryCache (cache (service s)) !! cacheKeyOf request p) as [entry|]; [|done].
  destruct (Cache.isExpired (clock s) entry) eqn:E; [done|]. simpl. intros [= <-]. eauto.
Qed.

Lemma loop_hit_last request userId startTime estimatedTokens ps i errors s r :
  loop request userId startTime estimatedTokens ps i errors s r →
  ∀ q key c, CacheGet q key (Some c) ∈ r.2 →
  last r.2 = Some (CacheGet q key (Some c))
  ∧ r.1.1 = inr {| response := c; provider := name_string q; processingTime := None |}
  ∧ noSuccess r.2
  ∧ key = createCacheKey numberToJSON request (name_string q)
  ∧ ∃ entry, Cache.memoryCache (cache (service s)) !! key = Some entry ∧ Cache.data entry = c.
Proof.
  intros H. loop_induction H; intros q key c0 Hin.
  - by apply elem_of_nil in Hin.
  - apply elem_of_cons in Hin as [Hin|Hin]; [done|].
    destruct (IH q key c0 Hin) as (H1 & H2 & H3 & H4 & H5). split_and!; [|done|by constructor|done|done].
    destruct t; [by apply elem_of_nil in Hin|done].
  - among Hin. injection Hin as -> -> ->.
    split_and!; [done|done|by repeat constructor|done|].
    destruct (lookup_hit request p s c Hhit) as (entry & He & Hd & _). eauto.
  - among Hin.
  - among Hin.
  - apply (elem_of_app [_; _; _; _]) in Hin as [Hin|Hin]; [among Hin|].
    destruct (IH q key c0 Hin) as (H1 & H2 & H3 & H4 & entry & He & Hd).
    split_and!; [|done|by repeat constructor|done|].
    + destruct t; [by apply elem_of_nil in Hin|done].
    + exists entry. split; [|done].
      destruct (lookup_subseteq request p s) as [_ Hsub].
      eapply lookup_weaken; [exact He|exact Hsub].
Qed.

Lemma loop_fatal_last request userId startTime estimatedTokens ps i errors s r :
  loop request userId startTime estimatedTokens ps i errors s r →
  Forall (λ pe, isNonRetryableError pe.2 = false) errors →
  ∀ q e, Execute q (inl e) ∈ r.2 → isNonRetryableError e = true →
  last r.2 = Some (Execute q (inl e))
  ∧ ∃ earlier, Forall (λ pe, isNonRetryableError pe.2 = false) earlier
               ∧ r.1.1 = inl (allFailed (earlier ++ [(q, e)])).
Proof.
  intros H. loop_induction H; intros Herrs q e0 Hin He0.
  - by apply elem_of_nil in Hin.
  - apply elem_of_cons in Hin as [Hin|Hin]; [done|].
    destruct (IH Herrs q e0 Hin He0) as (H1 & H2). split; [|done].
    destruct t; [by apply elem_of_nil in Hin|done].
  - among Hin.
  - among Hin.
  - among Hin. injection Hin as -> ->. split; [done|]. by exists errors.
  - apply (elem_of_app [_; _; _; _]) in Hin as [Hin|Hin].
    { among Hin. injection Hin as -> ->. congruence. }
    assert (Herrs' : Forall (λ pe, isNonRetryableError pe.2 = false) (errors ++ [(name p, e)])).
    { apply Forall_app. split; [done|]. by repeat constructor. }
    destruct (IH Herrs' q e0 Hin He0) as (H1 & H2).
    split; [|done]. destruct t; [by apply elem_of_nil in Hin|done].
Qed.


Lemma loop_backoffs request userId startTime estimatedTokens ps i errors s r :
  loop request userId startTime estimatedTokens ps i errors s r →
  backoffs r.2 =
    (λ n, backoffDelay (Z.of_nat n)) <$> seq (S (length errors)) (retryableFailures r.2).
Proof.
  intros H. loop_induction H; try done.
  - unfold retryableFailures. simpl. rewrite Hfatal. reflexivity.
  - unfold backoffs, retryableFailures in *. simpl. rewrite Hretry. simpl.
    rewrite IH. subst delay. rewrite !length_app. simpl. rewrite !Nat.add_1_r. reflexivity.
Qed.

Lemma loop_backoff_follows request userId startTime estimatedTokens ps i errors s r :
  loop request userId startTime estimatedTokens ps i errors s r →
  ∀ t1 q e t2, r.2 = t1 ++ Execute q (inl e) :: t2 → isNonRetryableError e = false →
  ∃ t3, t2 = Backoff (backoffDelay (Z.of_nat (length errors + S (retryableFailures t1)))) :: t3.
Proof.
  intros H. loop_induction H; intros t1 q e0 t2 Ht He0.
  - by destruct t1.
  - destruct t1 as [|ev t1]; [done|]. injection Ht as <- Ht.
    destruct (IH t1 q e0 t2 Ht He0) as [t3 ->]. by exists t3.
  - do 2 (destruct t1 as [|? t1]; [done|]; injection Ht as <- Ht). by destruct t1.
  - do 5 (destruct t1 as [|? t1]; [done|]; injection Ht as <- Ht). by destruct t1.
  - do 2 (destruct t1 as [|? t1]; [done|]; injection Ht as <- Ht).
    destruct t1 as [|? t1]; [injection Ht as <- <- <-; congruence|].
    injection Ht as <- Ht. by destruct t1.
  - do 2 (destruct t1 as [|? t1]; [done|]; injection Ht as <- Ht).
    destruct t1 as [|? t1].
    { injection Ht as <- <- <-. exists t. unfold delay. rewrite length_app. simpl.
      by rewrite Nat.add_1_r, Nat.add_1_r. }
    injection Ht as <- Ht. destruct t1 as [|? t1]; [done|]. injection Ht as <- Ht.
    destruct (IH t1 q e0 t2 Ht He0) as [t3 ->]. exists t3.
    unfold retryableFailures. simpl. rewrite Hretry. simpl.
    rewrite length_app. simpl. do 3 f_equal. lia.
Qed.


Lemma loop_success_last request userId startTime estimatedTokens ps i errors s r :
  loop request userId startTime estimatedTokens ps i errors s r →
  ∀ q resp, Execute q (inr resp) ∈ r.2 →
  ∃ t0 k p pt c0,
    ps !! k = Some p ∧ name p = q
    ∧ r.2 = t0 ++ [Execute q (inr resp); RecordUsage q (tokensUsed resp) userId;
                   CacheSet (cacheKeyOf request p) resp 3600]
    ∧ noSuccess t0 ∧ noCharge t0
    ∧ r.1.1 = inr {| response := resp; provider := name_string q; processingTime := Some pt |}
    ∧ providers (service r.1.2)
      = alter (charge (tokensUsed resp)) (i + k)%nat (providers (service s))
    ∧ userQuotas (service r.1.2)
      = <[userId := {| daily := daily (userUsageOf (service s) userId) + tokensUsed resp;
                       hourly := hourly (userUsageOf (service s) userId) + tokensUsed resp |}]>
          (userQuotas (service s))
    ∧ cache (service r.1.2)
      = Cache.set (clock r.1.2) (cacheKeyOf request p) resp (Some 3600) c0
    ∧ Cache.memoryCache c0 ⊆ Cache.memoryCache (cache (service s)).
Proof.
  intros H. loop_induction H; intros q resp0 Hin.
  - by apply elem_of_nil in Hin.
  - apply elem_of_cons in Hin as [Hin|Hin]; [done|].
    destruct (IH q resp0 Hin)
      as (t0 & k & p0 & pt & c0 & Hk & Hn & -> & Hns & Hnc & Hr & Hp & Hu & Hc & Hsub).
    exists (RateCheck (name p) false :: t0), (S k), p0, pt, c0.
    split_and!; try done; try (by constructor).
    by rewrite Nat.add_succ_r.
  - among Hin.
  - among Hin. injection Hin as -> ->.
    exists [RateCheck (name p) true; CacheGet (name p) (cacheKeyOf request p) None], 0%nat, p,
      (clock s + Z.of_N (settled request p s).1 - startTime), (lookup request p s).2.
    split_and!; try done; try (by repeat constructor).
    + by rewrite Nat.add_0_r.
    + apply lookup_subseteq.
  - among Hin.
  - apply (elem_of_app [_; _; _; _]) in Hin as [Hin|Hin]; [among Hin|].
    destruct (IH q resp0 Hin)
      as (t0 & k & p0 & pt & c0 & Hk & Hn & -> & Hns & Hnc & Hr & Hp & Hu & Hc & Hsub).
    exists ([RateCheck (name p) true; CacheGet (name p) (cacheKeyOf request p) None;
             Execute (name p) (inl e); Backoff delay] ++ t0), (S k), p0, pt, c0.
    split_and!; try done; try (by repeat constructor).
    + by rewrite Nat.add_succ_r.
    + etrans; [exact Hsub|]. apply lookup_subseteq.
Qed.

Lemma loop_charge_after_success request userId startTime estimatedTokens ps i errors s r :
  loop request userId startTime estimatedTokens ps i errors s r →
  ∀ ev, ev ∈ r.2 → isCharge ev = true → ∃ q resp, Execute q (inr resp) ∈ r.2.
Proof.
  intros H. loop_induction H; intros ev Hin Hev.
  - by apply elem_of_nil in Hin.
  - apply elem_of_cons in Hin as [->|Hin]; [done|].
    destruct (IH ev Hin Hev) as (q & resp & Hq). exists q, resp. by right.
  - among Hin; by subst.
  - exists (name p), resp. do 2 right. left.
  - among Hin; by subst.
  - apply (elem_of_app [_; _; _; _]) in Hin as [Hin|Hin]; [among Hin; by subst|].
    destruct (IH ev Hin Hev) as (q & resp & Hq). exists q, resp. by do 4 right.
Qed.

Lemma insertByPriority_Permutation p l : insertByPriority p l ≡ₚ p :: l.
Proof.
  induction l as [|q l IH]; [done|]. simpl.
  destruct (priority p <=? priority q); [done|]. rewrite IH. apply Permutation_swap.
Qed.

Lemma sortByPriority_Permutation l : sortByPriority l ≡ₚ l.
Proof.
  induction l as [|p l IH]; [done|]. unfold sortByPriority in *. simpl.
  rewrite insertByPriority_Permutation. by constructor.
Qed.

Lemma run_cases request userId svc now :
  let est := estimateTokens encode (prompt request) in
  run numberToJSON encode executeOpenAIRequest executeAnthropicRequest request userId svc now =
    if daily (userUsageOf svc userId) + est >? 50000 then
      (inl (ThrownError (Error "User daily quota exceeded")), {| service := svc; clock := now |}, [])
    else if hourly (userUsageOf svc userId) + est >? 10000 then
      (inl (ThrownError (Error "User hourly quota exceeded")), {| service := svc; clock := now |}, [])
    else
      forProviders
        request userId now est (sortByPriority (providers svc)) 0 [] (sortedState svc now).
Proof.
  intros est. unfold run, generateWithFallback, bind, Date_now, checkUserQuota, bind, get_service.
  cbn. fold est.
  destruct (daily (userUsageOf svc userId) + est >? 50000); [done|].
  destruct (hourly (userUsageOf svc userId) + est >? 10000); [done|].
  cbn. fold (sortedState svc now).
  by destruct (forProviders _ _ _ _ _ _ _ _) as [[res s'] t].
Qed.

Lemma run_loop request userId svc now :
  let est := estimateTokens encode (prompt request) in
  daily (userUsageOf svc userId) + est <= 50000 →
  hourly (userUsageOf svc userId) + est <= 10000 →
  loop request userId now est (sortByPriority (providers svc)) 0 [] (sortedState svc now)
    (run numberToJSON encode executeOpenAIRequest executeAnthropicRequest request userId svc now).
Proof.
  intros est Hd Hh. rewrite run_cases. fold est.
  destruct (daily (userUsageOf svc userId) + est >? 50000) eqn:E1; [lia|].
  destruct (hourly (userUsageOf svc userId) + est >? 10000) eqn:E2; [lia|].
  apply forProviders_loop.
Qed.



(** A request turned away by the per-caller guard, or one that entered the loop. *)
Lemma run_inv request userId svc now :
  let est := estimateTokens encode (prompt request) in
  (events (generate request userId svc now) = []
   ∧ final (generate request userId svc now) = {| service := svc; clock := now |}
   ∧ ∃ msg, outcome (generate request userId svc now) = inl (ThrownError (Error msg)))
  ∨ loop request userId now est (sortByPriority (providers svc)) 0 [] (sortedState svc now)
      (generate request userId svc now).
Proof.
  intros est.
  destruct (daily (userUsageOf svc userId) + est >? 50000) eqn:E1.
  { left. rewrite run_cases. fold est. rewrite E1. eauto. }
  destruct (hourly (userUsageOf svc userId) + est >? 10000) eqn:E2.
  { left. rewrite run_cases. fold est. rewrite E1, E2. eauto. }
  right. apply run_loop; fold est; lia.
Qed.

(** When the providers ahead of [p] are all over their limits and the
    lookup for [p] hits, the run is the rate checks and that lookup. *)
Lemma loop_first_usable request userId startTime estimatedTokens skipped p rest c :
  ∀ i errors s r,
  loop request userId startTime estimatedTokens (skipped ++ p :: rest) i errors s r →
  Forall (λ q, canUseProvider q estimatedTokens = false) skipped →
  canUseProvider p estimatedTokens = true →
  (lookup request p s).1 = Some c →
  r = (inr {| response := c; provider := name_string (name p); processingTime := None |},
       afterLookup request p s,
       ((λ q, RateCheck (name q) false) <$> skipped)
         ++ [RateCheck (name p) true; CacheGet (name p) (cacheKeyOf request p) (Some c)]).
Proof.
  induction skipped as [|q skipped IH]; intros i errors s r Hloop Hskip Hcan Hhit; simpl in *.
  - inversion Hloop; subst; try congruence.
  - apply Forall_cons in Hskip as [Hq Hskip].
    inversion Hloop; subst; try congruence.
    match goal with H : LLM.loop _ _ _ _ _ _ _ _ _ _ _ _ |- _ =>
      apply IH in H; [|done..] end.
    by simplify_eq.
Qed.

Lemma first_usable_provider_hit request userId svc now skipped p rest c :
  let est := estimateTokens encode (prompt request) in
  let key := createCacheKey numberToJSON request (name_string (name p)) in
  daily (userUsageOf svc userId) + est <= 50000 →
  hourly (userUsageOf svc userId) + est <= 10000 →
  sortByPriority (providers svc) = skipped ++ p :: rest →
  Forall (λ q, canUseProvider q est = false) skipped →
  canUseProvider p est = true →
  (Cache.get now key (cache svc)).1 = Some c →
  CacheGet (name p) key (Some c) ∈ events (generate request userId svc now).
Proof.
  intros est key Hd Hh Hsorted Hskip Hcan Hhit.
  pose proof (run_loop request userId svc now Hd Hh) as Hloop. fold est in Hloop.
  rewrite Hsorted in Hloop.
  rewrite (loop_first_usable _ _ _ _ _ _ _ c _ _ _ _ Hloop Hskip Hcan Hhit).
  unfold events. simpl. apply elem_of_app. right. apply list_elem_of_further, list_elem_of_here.
Qed.

(** C5. Per-caller ceiling. When the caller's hourly usage plus the
    estimate of the request is over 10000, or the daily usage plus the
    estimate is over 50000, [generateWithFallback] throws the quota
    error of the daily ceiling, or else of the hourly one, before
    anything else happens: no rate check, no cache lookup, no provider
    call, no counter or cache change, whatever the state of the
    providers. *)
Theorem per_caller_ceiling (request : LLMRequest number) (userId : string)
    (svc : RobustLLMService number) (now : Z) :
  let estimate := estimateTokens encode (prompt request) in
  let used := userUsageOf svc userId in
  10000 < hourly used + estimate ∨ 50000 < daily used + estimate →
  let r := generate request userId svc now in
  (50000 < daily used + estimate →
   outcome r = inl (ThrownError (Error "User daily quota exceeded")))
  ∧ (daily used + estimate <= 50000 →
     outcome r = inl (ThrownError (Error "User hourly quota exceeded")))
  ∧ events r = []
  ∧ final r = {| service := svc; clock := now |}.
Proof.
  intros estimate used Hover r. unfold r. rewrite run_cases. fold estimate used.
  destruct (daily used + estimate >? 50000) eqn:E1.
  { split_and!; try done. lia. }
  destruct (hourly used + estimate >? 10000) eqn:E2.
  { split_and!; try done. lia. }
  lia.
Qed.

(** C2, as amended. The cache is looked up per provider, inside the loop,
    under the key of the request and that provider's name. When such a
    lookup finds a live entry, the request ends there: the lookup is the
    last event, the cached response is returned with [provider] set to
    that provider's name and no [processingTime], no provider call has
    settled with a response, no usage has been recorded, nothing has
    been written to the cache, and the rate counters and the per-caller
    counters are as before the request. *)
Theorem cache_hit_ends_request (request : LLMRequest number) (userId : string)
    (svc : RobustLLMService number) (now : Z)
    (p : ProviderName) (key : string) (c : ProviderResponse number) :
  let r := generate request userId svc now in
  CacheGet p key (Some c) ∈ events r →
  key = createCacheKey numberToJSON request (name_string p)
  ∧ (∃ entry, Cache.memoryCache (cache svc) !! key = Some entry ∧ Cache.data entry = c)
  ∧ last (events r) = Some (CacheGet p key (Some c))
  ∧ outcome r = inr {| response := c; provider := name_string p; processingTime := None |}
  ∧ (∀ q resp, Execute q (inr resp) ∉ events r)
  ∧ (∀ q tokensUsed u, RecordUsage q tokensUsed u ∉ events r)
  ∧ (∀ k v ttl, CacheSet k v ttl ∉ events r)
  ∧ providers (service (final r)) = sortByPriority (providers svc)
  ∧ userQuotas (service (final r)) = userQuotas svc.
Proof.
  intros r Hin. unfold r in *. clear r.
  destruct (run_inv request userId svc now) as [(Hev & _)|Hloop].
  { rewrite Hev in Hin. by apply elem_of_nil in Hin. }
  destruct (loop_hit_last _ _ _ _ _ _ _ _ _ Hloop p key c Hin) as (Hlast & Hout & Hns & Hkey & Hentry).
  destruct (loop_untouched _ _ _ _ _ _ _ _ _ Hloop Hns) as [(Hp & Hu & _) Hnc].
  split_and!; try done.
  - intros q resp Hq. eapply Forall_forall in Hns; [|exact Hq]. done.
  - intros q tok u Hq. eapply Forall_forall in Hnc; [|exact Hq]. done.
  - intros k v ttl Hq. eapply Forall_forall in Hnc; [|exact Hq]. done.
Qed.

(** C4, as amended. When a provider call fails with a non-retryable
    error (status 400, 401 or 403, code context_length_exceeded, type
    invalid_request_error), that failure is the last event of the
    request: no further provider is tried, no usage is recorded and
    nothing is cached, the counters are as before, and what is thrown
    is an [AggregateError] that lists the retryable errors of the
    providers tried before and, last, the fatal error. *)
Theorem fatal_error_short_circuits (request : LLMRequest number) (userId : string)
    (svc : RobustLLMService number) (now : Z) (p : ProviderName) (e : JsError) :
  let r := generate request userId svc now in
  Execute p (inl e) ∈ events r →
  isNonRetryableError e = true →
  last (events r) = Some (Execute p (inl e))
  ∧ (∀ q tokensUsed u, RecordUsage q tokensUsed u ∉ events r)
  ∧ (∀ k v ttl, CacheSet k v ttl ∉ events r)
  ∧ providers (service (final r)) = sortByPriority (providers svc)
  ∧ userQuotas (service (final r)) = userQuotas svc
  ∧ ∃ earlier : list (ProviderName * JsError),
      Forall (λ pe, isNonRetryableError pe.2 = false) earlier
      ∧ outcome r =
          inl (AggregateError (earlier.*2 ++ [e])
                 ("All LLM providers failed. Tried: "
                    ++ Encoding.join ", " (name_string <$> (earlier.*1 ++ [p])%list))%string).
Proof.
  intros r Hin He. unfold r in *. clear r.
  destruct (run_inv request userId svc now) as [(Hev & _)|Hloop].
  { rewrite Hev in Hin. by apply elem_of_nil in Hin. }
  destruct (loop_fatal_last _ _ _ _ _ _ _ _ _ Hloop (Forall_nil_2 _) p e Hin He)
    as (Hlast & earlier & Hearlier & Hout).
  destruct (loop_failures _ _ _ _ _ _ _ _ _ Hloop _ Hout) as [_ Hns].
  destruct (loop_untouched _ _ _ _ _ _ _ _ _ Hloop Hns) as [(Hp & Hu & _) Hnc].
  split_and!; try done.
  - intros q tok u Hq. eapply Forall_forall in Hnc; [|exact Hq]. done.
  - intros k v ttl Hq. eapply Forall_forall in Hnc; [|exact Hq]. done.
  - exists earlier. split; [done|]. unfold outcome. rewrite Hout. unfold allFailed.
    by rewrite !fmap_app.
Qed.

(** C8, as amended. Charge only on success. A request that throws has
    had no provider call settle with a response. Without such a call
    the rate counters and the per-caller counters are as before the
    request (the list of providers is as it was, or sorted in place)
    and no entry has been written to the cache. The cache may still
    have changed: a lookup of the request deletes an entry that it
    finds expired. This is all that changes: the cache has lost
    nothing but entries that were expired, under keys the request has
    looked up, and it answers every later lookup as it would have
    before. Usage is recorded and the cache written only after a call
    has settled with a response, and then as the last steps of the
    request: once, on that provider and that caller, with the tokens
    the provider reported. *)
Theorem charge_only_on_success (request : LLMRequest number) (userId : string)
    (svc : RobustLLMService number) (now : Z) :
  let r := generate request userId svc now in
  let sorted := sortByPriority (providers svc) in
  (* a request that throws has had no provider call settle with a response *)
  (∀ th, outcome r = inl th → ∀ q resp, Execute q (inr resp) ∉ events r)
  (* without such a call no counter moves and no entry is written: the
     cache answers every later lookup as it would have before *)
  ∧ ((∀ q resp, Execute q (inr resp) ∉ events r) →
     (providers (service (final r)) = providers svc
      ∨ providers (service (final r)) = sorted)
     ∧ userQuotas (service (final r)) = userQuotas svc
     ∧ Cache.config (cache (service (final r))) = Cache.config (cache svc)
     ∧ Cache.memoryCache (cache (service (final r))) ⊆ Cache.memoryCache (cache svc)
     ∧ (∀ key entry,
          Cache.memoryCache (cache svc) !! key = Some entry →
          Cache.memoryCache (cache (service (final r))) !! key = None →
          Cache.isExpired (clock (final r)) entry = true
          ∧ ∃ p, CacheGet p key None ∈ events r)
     ∧ (∀ key later, clock (final r) <= later →
          (Cache.get later key (cache (service (final r)))).1
          = (Cache.get later key (cache svc)).1)
     ∧ (∀ q tokensUsed u, RecordUsage q tokensUsed u ∉ events r)
     ∧ (∀ k v ttl, CacheSet k v ttl ∉ events r))
  (* usage is recorded and the cache written only after a call has settled
     with a response *)
  ∧ (∀ ev, ev ∈ events r → isCharge ev = true → ∃ q resp, Execute q (inr resp) ∈ events r)
  (* and then once, for that provider and that caller, as the last steps *)
  ∧ (∀ q resp, Execute q (inr resp) ∈ events r →
     ∃ before k p elapsed c0,
       sorted !! k = Some p ∧ name p = q
       ∧ events r = before ++ [Execute q (inr resp);
                               RecordUsage q (tokensUsed resp) userId;
                               CacheSet (createCacheKey numberToJSON request (name_string q)) resp 3600]
       ∧ Forall (λ ev, isSuccess ev = false ∧ isCharge ev = false) before
       ∧ outcome r = inr {| response := resp; provider := name_string q;
                            processingTime := Some elapsed |}
       ∧ providers (service (final r)) = alter (charge (tokensUsed resp)) k sorted
       ∧ userQuotas (service (final r))
         = <[userId := {| daily := daily (userUsageOf svc userId) + tokensUsed resp;
                          hourly := hourly (userUsageOf svc userId) + tokensUsed resp |}]>
             (userQuotas svc)
       ∧ cache (service (final r))
         = Cache.set (clock (final r)) (createCacheKey numberToJSON request (name_string q))
             resp (Some 3600) c0
       ∧ Cache.memoryCache c0 ⊆ Cache.memoryCache (cache svc)).
Proof.
  intros r sorted. unfold r, sorted. clear r sorted.
  assert (Hconv : ∀ t : list (event number),
            (∀ q resp, Execute q (inr resp) ∉ t) → noSuccess t).
  { intros t Ht. apply Forall_forall. intros ev Hin.
    destruct ev as [| |q [e|resp]| | |]; try done. by destruct (Ht _ _ Hin). }
  destruct (run_inv request userId svc now) as [(Hev & Hfin & msg & Hout)|Hloop].
  { rewrite Hev, Hfin. split_and!.
    - intros th _ q resp Hin. by apply elem_of_nil in Hin.
    - intros _. simpl. split_and!; try done.
      + by left.
      + intros key entry H1 H2. congruence.
      + intros q tok u Hin. by apply elem_of_nil in Hin.
      + intros k v ttl Hin. by apply elem_of_nil in Hin.
    - intros ev Hin. by apply elem_of_nil in Hin.
    - intros q resp Hin. by apply elem_of_nil in Hin. }
  split_and!.
  - intros th Hth q resp Hin.
    destruct (loop_failures _ _ _ _ _ _ _ _ _ Hloop _ Hth) as [_ Hns].
    eapply Forall_forall in Hns; [|exact Hin]. done.
  - intros Hno. apply Hconv in Hno.
    destruct (loop_untouched _ _ _ _ _ _ _ _ _ Hloop Hno) as [(Hp & Hu & Hc & Hm & Hd) Hnc].
    unfold final, events. split_and!; try done.
    + right. by rewrite Hp.
    + intros key later Hlater.
      apply (get_after_eviction _ _ (clock (generate request userId svc now).1.2)); try done.
      intros entry H1 H2. by destruct (Hd key entry H1 H2).
    + intros q tok u Hq. eapply Forall_forall in Hnc; [|exact Hq]. done.
    + intros k v ttl Hq. eapply Forall_forall in Hnc; [|exact Hq]. done.
  - exact (loop_charge_after_success _ _ _ _ _ _ _ _ _ Hloop).
  - intros q resp Hin.
    destruct (loop_success_last _ _ _ _ _ _ _ _ _ Hloop q resp Hin)
      as (t0 & k & p & pt & c0 & Hk & Hn & Ht & Hns & Hnc & Hout & Hp & Hu & Hc & Hsub).
    exists t0, k, p, pt, c0. unfold events, final. split_and!; try done.
    + rewrite Ht. unfold LLM.cacheKeyOf. by rewrite Hn.
    + apply Forall_forall. intros ev Hev. split.
      * eapply Forall_forall in Hns; [|exact Hev]. done.
      * eapply Forall_forall in Hnc; [|exact Hev]. done.
    + rewrite Hc. unfold LLM.cacheKeyOf. by rewrite Hn.
Qed.

(** The clock of the loop keeps the schedule: with [errors] caught so
    far, the calls of the rest of the loop are made and the loop ends
    at the times of [scheduled]. *)
Lemma loop_scheduled request userId startTime estimatedTokens ps i errors s r :
  loop request userId startTime estimatedTokens ps i errors s r →
  scheduled request (clock s) (S (length errors)) (calls r.2) (clock r.1.2).
Proof.
  intros H. loop_induction H.
  - done.
  - exact IH.
  - done.
  - exists p. unfold LLM.settled in Hset. rewrite Hset. by split_and!.
  - exists p. unfold LLM.settled in Hset. rewrite Hset. split_and!; [done|done|].
    cbn zeta. by rewrite Hfatal.
  - exists p. unfold LLM.settled in Hset. rewrite Hset. split_and!; [done|done|].
    cbn zeta. rewrite Hretry.
    unfold delay, backoffDelay in IH. rewrite length_app in IH. simpl in IH.
    rewrite Nat.add_1_r in IH. exact IH.
Qed.

(** C9. Backoff schedule. The delays of a request are, in order,
    [min (1000 * 2^(n-1)) 30000] ms for n = 1, 2, ... up to the number
    of retryable failures; the failure that is the n-th retryable one
    of the request is followed at once by the delay for n; and the
    delay is waited on the clock, on which provider calls and back-offs
    take time and nothing else does: the first provider call is made at
    the start of the request, the call after the n-th retryable failure
    is made exactly [min (1000 * 2^(n-1)) 30000] ms after that failure
    has settled, and a request that ends on its n-th retryable failure
    ends that long after it. *)
Theorem backoff_schedule (request : LLMRequest number) (userId : string)
    (svc : RobustLLMService number) (now : Z) :
  let r := generate request userId svc now in
  let t := events r in
  backoffs t = (λ n : nat, Z.min (1000 * 2 ^ (Z.of_nat n - 1)) 30000) <$> seq 1 (retryableFailures t)
  ∧ (∀ t1 p e t2,
      t = t1 ++ Execute p (inl e) :: t2 →
      isNonRetryableError e = false →
      let n := Z.of_nat (S (retryableFailures t1)) in
      ∃ t3, t2 = Backoff (Z.min (1000 * 2 ^ (n - 1)) 30000) :: t3)
  ∧ scheduled request now 1 (calls t) (clock (final r)).
Proof.
  intros r t. unfold t, r. clear t r.
  destruct (run_inv request userId svc now) as [(Hev & Hfin & _)|Hloop].
  { rewrite Hev, Hfin. split_and!; [done| |done]. intros t1 p e t2 Ht. by destruct t1. }
  split_and!.
  - exact (loop_backoffs _ _ _ _ _ _ _ _ _ Hloop).
  - intros t1 p e t2 Ht He. exact (loop_backoff_follows _ _ _ _ _ _ _ _ _ Hloop t1 p e t2 Ht He).
  - exact (loop_scheduled _ _ _ _ _ _ _ _ _ Hloop).
Qed.

(** *** More of the broker *)

Abbreviation byPriority := (λ a b : LLMProvider, priority a <= priority b).

Lemma insertByPriority_sorted p l :
  StronglySorted byPriority l → StronglySorted byPriority (insertByPriority p l).
Proof.
  induction l as [|q l IH]; intros Hs; simpl.
  - repeat constructor.
  - apply StronglySorted_inv in Hs as [Hs Hq].
    destruct (Z.leb_spec (priority p) (priority q)).
    + constructor; [by constructor|]. constructor; [done|].
      eapply Forall_impl; [exact Hq|]. simpl. intros; lia.
    + constructor; [by apply IH|].
      rewrite insertByPriority_Permutation. constructor; [lia|done].
Qed.

Lemma insertByPriority_filter p l (k : Z) :
  filter (λ q, priority q = k) (insertByPriority p l) = filter (λ q, priority q = k) (p :: l).
Proof.
  induction l as [|q l IH]; [done|]. simpl.
  destruct (Z.leb_spec (priority p) (priority q)); [done|].
  rewrite filter_cons, IH, !filter_cons.
  destruct (decide (priority q = k)), (decide (priority p = k)); try done. lia.
Qed.

(** X15. The sort of the providers is a stable sort by priority: it
    keeps the providers, puts them in ascending priority, keeps the
    order of providers of equal priority, and leaves a list that is
    already in ascending priority as it is. *)
Theorem sortByPriority_sorts_stably (l : list LLMProvider) :
  sortByPriority l ≡ₚ l
  ∧ StronglySorted (λ a b, priority a <= priority b) (sortByPriority l)
  ∧ (∀ k : Z, filter (λ q, priority q = k) (sortByPriority l) = filter (λ q, priority q = k) l)
  ∧ (StronglySorted (λ a b, priority a <= priority b) l → sortByPriority l = l).
Proof.
  split_and!.
  - apply sortByPriority_Permutation.
  - induction l as [|p l IH]; [constructor|]. by apply insertByPriority_sorted.
  - intros k. induction l as [|p l IH]; [done|].
    unfold sortByPriority in *. simpl. rewrite insertByPriority_filter, !filter_cons.
    by rewrite IH.
  - induction l as [|p l IH]; [done|]. intros Hs.
    apply StronglySorted_inv in Hs as [Hs Hp].
    unfold sortByPriority in *. simpl. rewrite (IH Hs).
    destruct l as [|q l]; [done|]. simpl.
    apply Forall_cons in Hp as [Hp _].
    destruct (Z.leb_spec (priority p) (priority q)); [done|lia].
Qed.

Lemma loop_rateChecks request userId startTime estimatedTokens ps i errors s r :
  loop request userId startTime estimatedTokens ps i errors s r →
  LLMReport.rateChecks r.2 `prefix_of` (name <$> ps)
  ∧ (∀ th, r.1.1 = inl th →
       (∀ q e, Execute q (inl e) ∈ r.2 → isNonRetryableError e = false) →
       LLMReport.rateChecks r.2 = name <$> ps).
Proof.
  intros H. loop_induction H.
  - split; [done|]. done.
  - destruct IH as [IH1 IH2]. split; [by apply prefix_cons|].
    intros th Hth Hall. f_equal. apply (IH2 th Hth). intros q e He. apply (Hall q e). by right.
  - split; [apply prefix_cons, prefix_nil|done].
  - split; [apply prefix_cons, prefix_nil|done].
  - split; [apply prefix_cons, prefix_nil|].
    intros th _ Hall. specialize (Hall (name p) e). rewrite Hfatal in Hall.
    discriminate Hall. do 2 right. left.
  - destruct IH as [IH1 IH2]. split; [by apply prefix_cons|].
    intros th Hth Hall. f_equal. apply (IH2 th Hth). intros q e0 He. apply (Hall q e0).
    by do 4 right.
Qed.

(** X16. The providers are tried in the order of their priority: the
    rate checks of a request are made on a leading part of the sorted
    list of providers, one check for each, in that order. When the
    request fails without a non-retryable error, every provider has been
    checked. *)
Theorem providers_are_tried_in_priority_order (request : LLMRequest number) (userId : string)
    (svc : RobustLLMService number) (now : Z) :
  let r := generate request userId svc now in
  LLMReport.rateChecks (events r) `prefix_of` (name <$> sortByPriority (providers svc))
  ∧ (∀ errs msg, outcome r = inl (AggregateError errs msg) →
       (∀ q e, Execute q (inl e) ∈ events r → isNonRetryableError e = false) →
       LLMReport.rateChecks (events r) = name <$> sortByPriority (providers svc)).
Proof.
  intros r. unfold r. clear r.
  destruct (run_inv request userId svc now) as [(Hev & _ & msg & Hout)|Hloop].
  { rewrite Hev, Hout. split; [apply prefix_nil|]. intros errs msg' [=]. }
  destruct (loop_rateChecks _ _ _ _ _ _ _ _ _ Hloop) as [H1 H2].
  split; [exact H1|]. intros errs msg Hout. exact (H2 _ Hout).
Qed.

Lemma loop_all_skipped request userId startTime estimatedTokens ps i errors s r :
  loop request userId startTime estimatedTokens ps i errors s r →
  Forall (λ p, canUseProvider p estimatedTokens = false) ps →
  r = (inl (allFailed errors), s, (λ p, RateCheck (name p) false) <$> ps).
Proof.
  intros H. loop_induction H; intros HF.
  - done.
  - apply Forall_cons in HF as [_ HF]. specialize (IH HF). by simplify_eq.
  - apply Forall_cons in HF as [HF _]. congruence.
  - apply Forall_cons in HF as [HF _]. congruence.
  - apply Forall_cons in HF as [HF _]. congruence.
  - apply Forall_cons in HF as [HF _]. congruence.
Qed.

(** X17. When every provider is over its rate limit for the request, or
    no provider is configured, the request of a caller within the
    ceilings fails with an [AggregateError] that carries no error and
    names no provider. Each provider has had its rate checked, in order
    of priority, and nothing else has happened: no cache lookup, no
    provider call, no waiting, no change but the sort. *)
Theorem no_usable_provider (request : LLMRequest number) (userId : string)
    (svc : RobustLLMService number) (now : Z) :
  let estimate := estimateTokens encode (prompt request) in
  daily (userUsageOf svc userId) + estimate <= 50000 →
  hourly (userUsageOf svc userId) + estimate <= 10000 →
  Forall (λ p, canUseProvider p estimate = false) (providers svc) →
  let r := generate request userId svc now in
  outcome r = inl (AggregateError [] "All LLM providers failed. Tried: ")
  ∧ events r = (λ p, RateCheck (name p) false) <$> sortByPriority (providers svc)
  ∧ final r = sortedState svc now.
Proof.
  intros estimate Hd Hh Hall r. unfold r. clear r.
  pose proof (run_loop request userId svc now Hd Hh) as Hloop. fold estimate in Hloop.
  apply loop_all_skipped in Hloop.
  - unfold outcome, events, final. by rewrite Hloop.
  - by rewrite sortByPriority_Permutation.
Qed.

(** X18. What a failed request throws. Either the caller was over a
    ceiling, and nothing has happened; or the loop over the providers
    has thrown an [AggregateError] whose errors are the errors of the
    provider calls made, in the order of the calls, and whose message
    names the providers that failed, in that order. In this case no
    call has settled with a response. *)
Theorem thrown_error_lists_every_failure (request : LLMRequest number) (userId : string)
    (svc : RobustLLMService number) (now : Z) (th : Thrown) :
  let r := generate request userId svc now in
  outcome r = inl th →
  (events r = []
   ∧ (th = ThrownError (Error "User daily quota exceeded")
      ∨ th = ThrownError (Error "User hourly quota exceeded")))
  ∨ (th = AggregateError ((failures (events r)).*2)
            ("All LLM providers failed. Tried: "
               ++ Encoding.join ", " (name_string <$> (failures (events r)).*1))%string
     ∧ ∀ q settled, Execute q settled ∈ events r → ∃ e, settled = inl e).
Proof.
  intros r. unfold r. clear r. intros Hth.
  pose proof (run_cases request userId svc now) as Hrun. cbn zeta in Hrun.
  destruct (daily (userUsageOf svc userId) + estimateTokens encode (prompt request) >? 50000).
  { left. unfold outcome, events in *. rewrite Hrun in *. simpl in *.
    split; [done|]. left. congruence. }
  destruct (hourly (userUsageOf svc userId) + estimateTokens encode (prompt request) >? 10000).
  { left. unfold outcome, events in *. rewrite Hrun in *. simpl in *.
    split; [done|]. right. congruence. }
  right.
  pose proof (forProviders_loop request userId now (estimateTokens encode (prompt request))
                (sortByPriority (providers svc)) 0%nat [] (sortedState svc now)) as Hloop.
  rewrite <- Hrun in Hloop.
  destruct (loop_failures _ _ _ _ _ _ _ _ _ Hloop th Hth) as [-> Hns].
  split; [done|].
  intros q [e|resp] Hin; [by exists e|].
  eapply Forall_forall in Hns; [|exact Hin]. done.
Qed.

Lemma loop_charged_provider request userId startTime estimatedTokens ps i errors s r :
  loop request userId startTime estimatedTokens ps i errors s r →
  providers (service r.1.2) = providers (service s)
  ∨ ∃ k p tokensUsed,
      ps !! k = Some p ∧ canUseProvider p estimatedTokens = true
      ∧ providers (service r.1.2)
        = alter (charge tokensUsed) (i + k)%nat (providers (service s)).
Proof.
  intros H. loop_induction H.
  - by left.
  - destruct IH as [IH|(k & q & tok & Hk & Hq & IH)]; [by left|].
    right. exists (S k), q, tok. by rewrite Nat.add_succ_r.
  - by left.
  - right. exists 0%nat, p, (tokensUsed resp). by rewrite Nat.add_0_r.
  - by left.
  - destruct IH as [IH|(k & q & tok & Hk & Hq & IH)]; [by left|].
    right. exists (S k), q, tok. by rewrite Nat.add_succ_r.
Qed.


(** X20. The hourly timer empties the rate counters of every provider
    and the hourly counter of every caller, and keeps the daily
    counters; the daily timer empties the daily counters and keeps the
    rest. Neither touches the cache. After the hourly timer a request
    whose estimate is within both ceilings, counting the caller's daily
    usage, is not refused for the caller's quota. *)
Theorem resets_reopen_the_limits (request : LLMRequest number) (userId : string)
    (svc : RobustLLMService number) (now estimatedTokens : Z) :
  (∀ p, p ∈ providers (hourlyReset svc) →
     canUseProvider p estimatedTokens
     = (estimatedTokens <=? tpm (rateLimit p)) && (0 <? rpm (rateLimit p)))
  ∧ userUsageOf (hourlyReset svc) userId
    = {| daily := daily (userUsageOf svc userId); hourly := 0 |}
  ∧ userUsageOf (dailyReset svc) userId
    = {| daily := 0; hourly := hourly (userUsageOf svc userId) |}
  ∧ providers (dailyReset svc) = providers svc
  ∧ cache (hourlyReset svc) = cache svc
  ∧ cache (dailyReset svc) = cache svc
  ∧ (estimateTokens encode (prompt request) <= 10000 →
     daily (userUsageOf svc userId) + estimateTokens encode (prompt request) <= 50000 →
     ∀ e, outcome (generate request userId (hourlyReset svc) now) ≠ inl (ThrownError e)).
Proof.
  assert (Hhour : userUsageOf (hourlyReset svc) userId
                  = {| daily := daily (userUsageOf svc userId); hourly := 0 |}).
  { unfold userUsageOf, hourlyReset. simpl. rewrite lookup_fmap.
    by destruct (userQuotas svc !! userId). }
  split_and!; try done.
  - intros p Hp. unfold hourlyReset in Hp. simpl in Hp.
    apply list_elem_of_fmap in Hp as (p0 & -> & _). unfold canUseProvider. simpl. done.
  - unfold userUsageOf, dailyReset. simpl. rewrite lookup_fmap.
    by destruct (userQuotas svc !! userId).
  - intros Hest Hday e Hout.
    assert (Hloop := run_loop request userId (hourlyReset svc) now).
    cbn zeta in Hloop. rewrite Hhour in Hloop. simpl in Hloop.
    specialize (Hloop Hday ltac:(lia)).
    by destruct (loop_failures _ _ _ _ _ _ _ _ _ Hloop _ Hout) as [? _].
Qed.

(** X21. A response that a provider has given is cached under the key
    of the request and that provider, and can be read back from the
    cache for one hour after the request has ended, and no longer. *)
Theorem fresh_response_is_cached_for_an_hour (request : LLMRequest number) (userId : string)
    (svc : RobustLLMService number) (now later : Z) (q : ProviderName)
    (resp : ProviderResponse number) :
  let r := generate request userId svc now in
  Execute q (inr resp) ∈ events r →
  now <= clock (final r)
  ∧ (Cache.get later (createCacheKey numberToJSON request (name_string q))
       (cache (service (final r)))).1
    = if later - clock (final r) <=? 3600 * 1000 then Some resp else None.
Proof.
  intros r. unfold r. clear r. intros Hin.
  destruct (run_inv request userId svc now) as [(Hev & _)|Hloop].
  { rewrite Hev in Hin. by apply elem_of_nil in Hin. }
  split; [exact (loop_clock_mono _ _ _ _ _ _ _ _ _ Hloop)|].
  destruct (loop_success_last _ _ _ _ _ _ _ _ _ Hloop q resp Hin)
    as (t0 & k & p & pt & c0 & _ & Hn & _ & _ & _ & _ & _ & _ & Hc & _).
  unfold final. rewrite Hc. unfold LLM.cacheKeyOf. rewrite Hn.
  unfold Cache.get, Cache.set. simpl. rewrite lookup_insert_eq. unfold Cache.isExpired. simpl.
  destruct (Z.leb_spec (later - clock (generate request userId svc now).1.2) (3600 * 1000));
    destruct (Z.gtb_spec (later - clock (generate request userId svc now).1.2) (3600 * 1000));
    try done; lia.
Qed.

Lemma loop_elapsed request userId startTime estimatedTokens ps i errors s r :
  loop request userId startTime estimatedTokens ps i errors s r →
  LLMReport.waited r.2 <= clock r.1.2 - clock s
  ∧ ∀ resp, r.1.1 = inr resp →
      (processingTime resp = None
       ∧ ∃ q key c, last r.2 = Some (CacheGet q key (Some c)))
      ∨ processingTime resp = Some (clock r.1.2 - startTime).
Proof.
  intros H. loop_induction H; unfold LLMReport.waited in *; simpl in *.
  - split; [lia|done].
  - destruct IH as [IH1 IH2]. split; [done|]. intros resp Hr.
    destruct (IH2 resp Hr) as [(Hn & q & key & c & Hlast)|Hs]; [left|by right].
    split; [done|]. exists q, key, c. by destruct t.
  - split; [lia|]. intros resp [= <-]. left. split; [done|]. by eexists _, _, _.
  - split; [lia|]. intros resp0 [= <-]. by right.
  - split; [lia|done].
  - destruct IH as [IH1 IH2].
    pose proof (backoffDelay_nonneg (Z.of_nat (length (errors ++ [(name p, e)])))) as Hdelay.
    fold delay in Hdelay. split; [lia|]. intros resp Hr.
    destruct (IH2 resp Hr) as [(Hn & q & key & c & Hlast)|Hs]; [left|by right].
    split; [done|]. exists q, key, c. by destruct t.
Qed.

(** X22. The processing time of a response. A response served from the
    cache carries none, and the lookup that found it is the last event
    of the request. A response given by a provider carries the time from
    the start of the request to its end, which covers the time spent
    waiting in back-off. The time a request has waited in back-off
    never exceeds the time the request took. *)
Theorem processing_time_spans_the_request (request : LLMRequest number) (userId : string)
    (svc : RobustLLMService number) (now : Z) :
  let r := generate request userId svc now in
  LLMReport.waited (events r) <= clock (final r) - now
  ∧ ∀ resp, outcome r = inr resp →
      (processingTime resp = None
       ∧ ∃ q key c, last (events r) = Some (CacheGet q key (Some c)))
      ∨ (processingTime resp = Some (clock (final r) - now)
         ∧ LLMReport.waited (events r) <= clock (final r) - now).
Proof.
  intros r. unfold r. clear r.
  destruct (run_inv request userId svc now) as [(Hev & Hfin & msg & Hout)|Hloop].
  { rewrite Hev, Hfin, Hout. simpl. split; [unfold LLMReport.waited; simpl; lia|done]. }
  destruct (loop_elapsed _ _ _ _ _ _ _ _ _ Hloop) as [H1 H2]. simpl in H1.
  split; [exact H1|]. intros resp Hr.
  destruct (H2 resp Hr) as [Hhit|Hs]; [by left|by right].
Qed.

Lemma totalTokensToday_insert (m : gmap string UserUsage) (k : string) (u : UserUsage) :
  map_fold (λ _ v sum, sum + daily v) 0 (<[k := u]> m)
  = map_fold (λ _ v sum, sum + daily v) 0 m
    - daily (default {| daily := 0; hourly := 0 |} (m !! k)) + daily u.
Proof.
  destruct (m !! k) as [u0|] eqn:E; simpl.
  - rewrite <- insert_delete_eq.
    rewrite map_fold_insert_L; [|intros; lia|apply lookup_delete_eq].
    rewrite (map_fold_delete_L _ _ k u0 m); [lia|intros; lia|done].
  - rewrite map_fold_insert_L; [lia|intros; lia|done].
Qed.

(** X23. The statistics follow the charges. A request that a provider
    has answered adds the tokens the provider reported to the day's
    total, and counts the caller as a user if it was none before; any
    other request leaves the total and the number of users as they
    were. The daily timer sets the total to zero and keeps the users.
    The statistics always list one entry for each provider. *)
Theorem usage_stats_follow_the_charges (request : LLMRequest number) (userId : string)
    (svc : RobustLLMService number) (now : Z) :
  let r := generate request userId svc now in
  let before := LLMReport.getUsageStats svc in
  let after := LLMReport.getUsageStats (service (final r)) in
  (∀ q resp, Execute q (inr resp) ∈ events r →
     LLMReport.totalTokensToday after = LLMReport.totalTokensToday before + tokensUsed resp
     ∧ LLMReport.totalUsers after
       = match userQuotas svc !! userId with
         | Some _ => LLMReport.totalUsers before
         | None => S (LLMReport.totalUsers before)
         end)
  ∧ ((∀ q resp, Execute q (inr resp) ∉ events r) →
     LLMReport.totalTokensToday after = LLMReport.totalTokensToday before
     ∧ LLMReport.totalUsers after = LLMReport.totalUsers before)
  ∧ LLMReport.totalTokensToday (LLMReport.getUsageStats (dailyReset svc)) = 0
  ∧ LLMReport.totalUsers (LLMReport.getUsageStats (dailyReset svc)) = LLMReport.totalUsers before
  ∧ length (LLMReport.providers after) = length (providers svc).
Proof.
  cbv zeta.
  assert (Hlen : length (providers (service (final (generate request userId svc now))))
                 = length (providers svc)).
  { destruct (run_inv request userId svc now) as [(_ & Hfin & _)|Hloop]; [by rewrite Hfin|].
    unfold final.
    destruct (loop_charged_provider _ _ _ _ _ _ _ _ _ Hloop) as [Hp|(k & p & tok & _ & _ & Hp)];
      rewrite Hp; simpl; rewrite ?length_alter; by rewrite sortByPriority_Permutation. }
  split_and!.
  - intros q resp Hin.
    destruct (run_inv request userId svc now) as [(Hev & _)|Hloop].
    { rewrite Hev in Hin. by apply elem_of_nil in Hin. }
    destruct (loop_success_last _ _ _ _ _ _ _ _ _ Hloop q resp Hin)
      as (t0 & k & p & pt & c0 & _ & _ & _ & _ & _ & _ & _ & Hu & _).
    unfold LLMReport.getUsageStats, final. simpl. rewrite Hu. simpl.
    rewrite totalTokensToday_insert, map_size_insert. unfold userUsageOf. simpl.
    split; [lia|]. by destruct (userQuotas svc !! userId).
  - intros Hno.
    assert (Hu : userQuotas (service (final (generate request userId svc now))) = userQuotas svc).
    { destruct (run_inv request userId svc now) as [(_ & Hfin & _)|Hloop]; [by rewrite Hfin|].
      assert (Hns : noSuccess (generate request userId svc now).2).
      { apply Forall_forall. intros ev Hin.
        destruct ev as [| |q [e|resp]| | |]; try done. by destruct (Hno _ _ Hin). }
      by destruct (loop_untouched _ _ _ _ _ _ _ _ _ Hloop Hns) as [(_ & Hu & _) _]. }
    unfold LLMReport.getUsageStats. simpl. by rewrite Hu.
  - unfold LLMReport.getUsageStats, dailyReset. simpl.
    induction (userQuotas svc) as [|k u m Hk _ IH] using map_first_key_ind.
    + by rewrite fmap_empty, map_fold_empty.
    + rewrite fmap_insert, totalTokensToday_insert, IH, lookup_fmap, Hk. simpl. lia.
  - unfold LLMReport.getUsageStats, dailyReset. simpl. apply map_size_fmap.
  - unfold LLMReport.getUsageStats. simpl. by rewrite length_fmap.
Qed.

Local Arguments String.append !_ _ / : simpl nomatch.

(** The rendered object starts with the prompt. *)
Lemma keyJSON_head (request : LLMRequest number) (provider : string) :
  ∃ rest, keyJSON numberToJSON request provider
          = (Encoding.objectHead "prompt"
               ++ (Encoding.quoteJSONBody (prompt request) ++ rest))%string.
Proof.
  unfold keyJSON, Encoding.stringifyObject, Encoding.property, optionalNumber.
  destruct (model request), (maxTokens request), (temperature request),
    (responseFormat request); simpl; rewrite !append_assoc; eexists; reflexivity.
Qed.

(** The key reads the prompt up to the 27th byte of its escaped form,
    and nothing after it. *)
Lemma createCacheKey_reads_27_bytes (r1 r2 : LLMRequest number) (p1 p2 : string) :
  (27 ≤ String.length (Encoding.quoteJSONBody (prompt r1)))%nat →
  (27 ≤ String.length (Encoding.quoteJSONBody (prompt r2)))%nat →
  Encoding.slice0 27 (Encoding.quoteJSONBody (prompt r1))
  = Encoding.slice0 27 (Encoding.quoteJSONBody (prompt r2)) →
  createCacheKey numberToJSON r1 p1 = createCacheKey numberToJSON r2 p2.
Proof.
  intros H1 H2 Heq. unfold createCacheKey. cbn zeta. f_equal.
  destruct (keyJSON_head r1 p1) as [rest1 ->], (keyJSON_head r2 p2) as [rest2 ->].
  assert (Hlen : ∀ a b : string,
            String.length (a ++ b)%string = (String.length a + String.length b)%nat).
  { intros a b. induction a as [|x a IH]; simpl; [done|]. by rewrite IH. }
  apply base64_slice.
  - rewrite !Hlen. simpl. lia.
  - rewrite !Hlen. simpl. lia.
  - change 38%nat with (String.length (Encoding.objectHead "prompt") + 27)%nat.
    rewrite !slice0_app_r, !slice0_app_l by done. by rewrite Heq.
Qed.

End BrokerFacts.

Section KeyFacts.
Import Cache Keys.
Context {T : Type}.
Local Open Scope string_scope.
Local Arguments String.append !_ _ / : simpl nomatch.

Lemma append_inv_tail (a b s : string) : a ++ s = b ++ s → a = b.
Proof.
  assert (Hlen : ∀ x y : string, String.length (x ++ y) = (String.length x + String.length y)%nat).
  { intros x y. induction x as [|c x IH]; simpl; [done|]. by rewrite IH. }
  revert b. induction a as [|c a IH]; intros [|d b] H; simpl in H.
  - done.
  - apply (f_equal String.length) in H. simpl in H. rewrite Hlen in H. lia.
  - apply (f_equal String.length) in H. simpl in H. rewrite Hlen in H. lia.
  - injection H as -> H. by rewrite (IH b H).
Qed.

(** Two strings with a common extension: one tail is a tail of the other. *)
Lemma append_eq_cases (a b x y : string) :
  a ++ x = b ++ y → (∃ u, y = u ++ x) ∨ (∃ u, x = u ++ y).
Proof.
  revert b. induction a as [|c a IH]; intros b H; simpl in H.
  - right. by exists b.
  - destruct b as [|d b]; simpl in H.
    + left. exists (String c a). by simpl.
    + injection H as -> H. exact (IH b H).
Qed.

Ltac no_proper_tail H :=
  repeat (match type of H with
          | _ = ?u ++ _ =>
              destruct u; simpl in H; [discriminate H|first [discriminate H|injection H as _ H]]
          end).

(** X6. Every key of the key builders falls in the ttl category of its
    builder: video and channel keys in [videoDetails], search and
    trending keys in [searchResults], transcript and comment keys in
    their own; the keys of the channel search and of the broker, which
    are built in place, get the one hour of the fallback. None of these
    keys is the key under which the ledger persists its counter. *)
Theorem defaultTTL_of_keys (c : CacheManager T) :
  (∀ id t cm, getDefaultTTL c (getVideoDetailsKey id t cm) = videoDetails (config c)
              ∧ getVideoDetailsKey id t cm ≠ "quota:daily_usage")
  ∧ (∀ q ps, getDefaultTTL c (getSearchKey q ps) = searchResults (config c)
             ∧ getSearchKey q ps ≠ "quota:daily_usage")
  ∧ (∀ r cat, getDefaultTTL c (getTrendingKey r cat) = searchResults (config c)
              ∧ getTrendingKey r cat ≠ "quota:daily_usage")
  ∧ (∀ id, getDefaultTTL c (getChannelKey id) = videoDetails (config c)
           ∧ getChannelKey id ≠ "quota:daily_usage")
  ∧ (∀ id, getDefaultTTL c (getTranscriptKey id) = transcripts (config c)
           ∧ getTranscriptKey id ≠ "quota:daily_usage")
  ∧ (∀ id n o, getDefaultTTL c (getCommentsKey id n o) = comments (config c)
               ∧ getCommentsKey id n o ≠ "quota:daily_usage")
  ∧ (∀ s, getDefaultTTL c ("channels:" ++ s) = 3600%Z ∧ "channels:" ++ s ≠ "quota:daily_usage")
  ∧ (∀ s, getDefaultTTL c ("llm:" ++ s) = 3600%Z ∧ "llm:" ++ s ≠ "quota:daily_usage")
  ∧ getDefaultTTL c "quota:daily_usage" = 3600%Z.
Proof.
  split_and!; intros; try (split; [|done]); try done.
  - by destruct id.
  - unfold getSearchKey. by destruct (Encoding.base64 _).
  - by destruct r.
  - by destruct id.
  - by destruct id.
  - by destruct id.
Qed.

(** X7. The key of the video details is injective: two requests that
    differ in the video, in whether the transcript is wanted or in
    whether the comments are wanted never share a cache entry. *)
Theorem getVideoDetailsKey_injective (id1 id2 : string) (t1 t2 cm1 cm2 : bool) :
  getVideoDetailsKey id1 t1 cm1 = getVideoDetailsKey id2 t2 cm2 →
  id1 = id2 ∧ t1 = t2 ∧ cm1 = cm2.
Proof.
  unfold getVideoDetailsKey. intros H. simpl in H. injection H as H.
  assert (Hflags : t1 = t2 ∧ cm1 = cm2).
  { destruct (append_eq_cases _ _ _ _ H) as [[u Hu]|[u Hu]];
      destruct t1, t2, cm1, cm2; try done; simpl in Hu; no_proper_tail Hu. }
  destruct Hflags as [<- <-]. split; [|done]. by apply append_inv_tail in H.
Qed.

End KeyFacts.

Section ClientFacts.
Import Client.
Context {SearchItem RawVideo RawChannel RawThread : Type}.
Context {Video Channel Comment Transcript : Type}.
Variable videoIdOf : SearchItem → option string.
Variable channelIdOf : SearchItem → option string.
Variable mapVideo : RawVideo → Video.
Variable mapChannel : RawChannel → Channel.
Variable channelOfItem : SearchItem → Channel.
Variable commentOf : RawThread → option Comment.
Variable searchVideosList :
  YouTubeSearchParams.t → Z → N * (ApiError + SearchListResponse (SearchItem:=SearchItem)).
Variable searchChannelsList :
  SearchChannelsParams.t → Z → N * (ApiError + SearchListResponse (SearchItem:=SearchItem)).
Variable videosList : list string → Z → N * (ApiError + option (list RawVideo)).
Variable videosChart : GetTrendingVideosParams.t → Z → N * (ApiError + option (list RawVideo)).
Variable channelsList : list string → Z → N * (ApiError + option (list RawChannel)).
Variable commentThreadsList :
  string → Z → string → Z → N * (ApiError + option (list RawThread)).
Variable pageGet : string → Z → N * (ApiError + unit).

Abbreviation effect :=
  (Client.effect (Transcript:=Transcript) videoIdOf channelIdOf mapVideo mapChannel
     channelOfItem commentOf searchVideosList searchChannelsList videosList videosChart
     channelsList commentThreadsList pageGet).
Abbreviation getVideoDetails :=
  (Client.getVideoDetails (Transcript:=Transcript) mapVideo commentOf videosList
     commentThreadsList pageGet).

(** The methods are straight-line code: a run is computed by cases on
    what the guards and the API answer. *)
Ltac simpl_client :=
  cbn -[Z.add Z.mul Z.gtb Z.ltb Z.min String.append pretty Client.includes Z.of_N] in *.

Ltac run_client :=
  unfold Client.effect, Client.searchVideos, Client.getVideoDetails, Client.getTrendingVideos,
    Client.searchChannels, Client.getVideosByIds, Client.getVideoComments,
    Client.getVideoTranscript, Client.attempted, Client.handled, Client.handleError,
    Client.checkQuota, Client.await, Client.spend, Run.try_catch, Run.bind, Run.ret,
    Run.throw, Client.unitsSpent;
  repeat (simpl_client;
          match goal with
          | |- context [match ?x with _ => _ end] =>
              lazymatch x with
              | context [match _ with _ => _ end] => fail
              | _ => destruct x eqn:?
              end
          end);
  simpl_client.


(** X25. A client whose count leaves no room for the first call of a
    method refuses the method before any call is made: it throws a
    [QuotaExceededError], the log is empty, and the count and the clock
    are as before. *)
Theorem exhausted_client_makes_no_call (m : Method) (s : State) :
  dailyQuotaLimit (client s) < quotaUsed (client s) + entryCost m →
  ∃ msg, effect m s = (Some (QuotaExceededError msg), s, []).
Proof.
  destruct m as [params|params|params|params]; intros Hover; run_client;
    try lia; by eexists.
Qed.

(** X26. The details of a video do not fail for want of a transcript or
    of comments. When the list of videos resolves with the video, the
    method resolves with it, whatever becomes of the page and of the
    comments. The client counts one unit for the video and one more
    exactly when the result has comments; a count that leaves no room
    for the second unit gives a result without comments and no error. *)
Theorem video_details_survive_missing_extras (params : GetVideoDetailsParams.t) (s : State)
    (ms : N) (raw : RawVideo) (rest : list RawVideo) :
  quotaUsed (client s) + 1 <= dailyQuotaLimit (client s) →
  videosList [GetVideoDetailsParams.videoId params] (clock s) = (ms, inr (Some (raw :: rest))) →
  ∃ r s' t,
    getVideoDetails params s = (inr r, s', t)
    ∧ details_video r = mapVideo raw
    ∧ (GetVideoDetailsParams.includeTranscript params = false → transcript r = None)
    ∧ (GetVideoDetailsParams.includeComments params = false → comments r = None)
    ∧ quotaUsed (client s')
      = quotaUsed (client s) + 1 + match comments r with Some _ => 1 | None => 0 end
    ∧ (quotaUsed (client s) + 1 = dailyQuotaLimit (client s) → comments r = None).
Proof.
  intros Hroom Hvideo. unfold getVideoDetails, Client.getVideosByIds, Run.bind at 1 2 3.
  unfold Client.handled, Run.try_catch at 1, Run.bind at 1, Client.checkQuota at 1.
  destruct (Z.gtb_spec (quotaUsed (client s) + 1) (dailyQuotaLimit (client s))); [lia|].
  unfold Run.bind at 1, Client.await at 1. rewrite Hvideo.
  run_client; eexists _, _, _; (split; [reflexivity|]); simpl; split_and!; try done; lia.
Qed.

(** X27. Where a [QuotaExceededError] of the client comes from. Either a
    guard of the client has refused a call of 1 or of 100 units for
    which the count leaves no room, and the last call, if any, was not
    rejected; or the last call was rejected by the API with the status
    403 and a message that mentions the quota, and that message is the
    message of the error. *)
Theorem client_quota_error_has_two_sources (m : Method) (s : State) (msg : string) :
  (effect m s).1.1 = Some (QuotaExceededError msg) →
  (∃ cost, (cost = 1 ∨ cost = 100)
     ∧ dailyQuotaLimit (client (effect m s).1.2) < quotaUsed (client (effect m s).1.2) + cost
     ∧ ∀ c e, last (effect m s).2 ≠ Some (Called c (Some e)))
  ∨ (∃ c e, last (effect m s).2 = Some (Called c (Some e))
       ∧ status e = Some 403 ∧ apiMessage e = Some msg ∧ includes "quota" msg = true).
Proof.
  destruct m as [params|params|params|params]; run_client; intros [= <-];
    try solve [ left; exists 1; split_and!; [auto|lia|done]
              | left; exists 100; split_and!; [auto|lia|done] ].
  all: right; eexists _, _; split; [reflexivity|].
  all: repeat match goal with
       | H : LLM.equals ?o _ = true |- _ =>
           destruct o; simpl in H; [apply Z.eqb_eq in H; subst|done]
       | H : _ && _ = true |- _ => apply andb_prop in H as [? ?]
       | H : default false (_ <$> ?o) = true |- _ => destruct o; simpl in H; [|done]
       end; by split_and!.
Qed.


End ClientFacts.

Section Base64Facts.
Import Encoding.
Local Open Scope N_scope.

Lemma below_64 (i : N) : i < 64 → In i (map N.of_nat (List.seq 0 64)).
Proof.
  intros Hi. apply in_map_iff. exists (N.to_nat i). split; [lia|].
  apply in_seq. lia.
Qed.

Lemma b64_char_inj (i j : N) : i < 64 → j < 64 → b64_char i = b64_char j → i = j.
Proof.
  intros Hi Hj Heq.
  assert (Hall : forallb (λ i, forallb (λ j, implb (Ascii.eqb (b64_char i) (b64_char j))
                                               (i =? j))
                                 (map N.of_nat (List.seq 0 64)))
                   (map N.of_nat (List.seq 0 64)) = true) by (vm_compute; reflexivity).
  rewrite forallb_forall in Hall. specialize (Hall i (below_64 i Hi)).
  rewrite forallb_forall in Hall. specialize (Hall j (below_64 j Hj)).
  rewrite Heq, Ascii.eqb_refl in Hall. simpl in Hall. by apply N.eqb_eq.
Qed.

Lemma b64_char_not_pad (i : N) : i < 64 → b64_char i ≠ "="%char.
Proof.
  intros Hi Heq.
  assert (Hall : forallb (λ i, negb (Ascii.eqb (b64_char i) "="))
                   (map N.of_nat (List.seq 0 64)) = true) by (vm_compute; reflexivity).
  rewrite forallb_forall in Hall. specialize (Hall i (below_64 i Hi)).
  rewrite Heq in Hall. discriminate Hall.
Qed.

Lemma byte_bound (a : ascii) : N_of_ascii a < 256.
Proof. apply N_ascii_bounded. Qed.

Lemma N_of_ascii_inj (a b : ascii) : N_of_ascii a = N_of_ascii b → a = b.
Proof. intros H. rewrite <- (ascii_N_embedding a), <- (ascii_N_embedding b). by rewrite H. Qed.

(** The four sextets of three bytes determine the bytes. *)
Lemma sextets_inj (x y z x' y' z' : N) :
  x < 256 → y < 256 → z < 256 → x' < 256 → y' < 256 → z' < 256 →
  x / 4 = x' / 4 →
  (x mod 4) * 16 + y / 16 = (x' mod 4) * 16 + y' / 16 →
  (y mod 16) * 4 + z / 64 = (y' mod 16) * 4 + z' / 64 →
  z mod 64 = z' mod 64 →
  x = x' ∧ y = y' ∧ z = z'.
Proof.
  intros.
  pose proof (N.div_mod x 4). pose proof (N.div_mod x' 4).
  pose proof (N.div_mod y 16). pose proof (N.div_mod y' 16).
  pose proof (N.div_mod z 64). pose proof (N.div_mod z' 64).
  pose proof (N.mod_lt x 4). pose proof (N.mod_lt x' 4).
  pose proof (N.mod_lt y 16). pose proof (N.mod_lt y' 16).
  pose proof (N.mod_lt z 64). pose proof (N.mod_lt z' 64).
  lia.
Qed.

Lemma sextet_bounds (x y : N) :
  x < 256 → y < 256 →
  x / 4 < 64 ∧ (x mod 4) * 16 + y / 16 < 64 ∧ (x mod 16) * 4 + y / 64 < 64 ∧ x mod 64 < 64
  ∧ (x mod 4) * 16 < 64 ∧ (x mod 16) * 4 < 64.
Proof.
  intros.
  assert (x / 4 < 64) by (apply N.Div0.div_lt_upper_bound; lia).
  assert (y / 16 < 16) by (apply N.Div0.div_lt_upper_bound; lia).
  assert (y / 64 < 4) by (apply N.Div0.div_lt_upper_bound; lia).
  assert (x mod 4 < 4) by (apply N.mod_lt; lia).
  assert (x mod 16 < 16) by (apply N.mod_lt; lia).
  assert (x mod 64 < 64) by (apply N.mod_lt; lia).
  lia.
Qed.

Lemma tail1_inj (x x' : N) :
  x < 256 → x' < 256 → x / 4 = x' / 4 → (x mod 4) * 16 = (x' mod 4) * 16 → x = x'.
Proof.
  intros. pose proof (N.div_mod x 4). pose proof (N.div_mod x' 4). lia.
Qed.

Lemma tail2_inj (x y x' y' : N) :
  x < 256 → y < 256 → x' < 256 → y' < 256 →
  x / 4 = x' / 4 →
  (x mod 4) * 16 + y / 16 = (x' mod 4) * 16 + y' / 16 →
  (y mod 16) * 4 = (y' mod 16) * 4 →
  x = x' ∧ y = y'.
Proof.
  intros.
  pose proof (N.div_mod x 4). pose proof (N.div_mod x' 4).
  pose proof (N.div_mod y 16). pose proof (N.div_mod y' 16).
  pose proof (N.mod_lt x 4). pose proof (N.mod_lt x' 4).
  pose proof (N.mod_lt y 16). pose proof (N.mod_lt y' 16).
  assert (y / 16 < 16) by (apply N.Div0.div_lt_upper_bound; lia).
  assert (y' / 16 < 16) by (apply N.Div0.div_lt_upper_bound; lia).
  lia.
Qed.

(** A character of the alphabet against the padding. *)
Ltac padding :=
  match goal with
  | H : b64_char ?i = "="%char |- _ => exfalso; revert H; apply b64_char_not_pad
  | H : "="%char = b64_char ?i |- _ =>
      exfalso; symmetry in H; revert H; apply b64_char_not_pad
  end.

Ltac bounds x y :=
  destruct (sextet_bounds (N_of_ascii x) (N_of_ascii y) (byte_bound x) (byte_bound y))
    as (?&?&?&?&?&?).

Lemma base64_inj_upto (n : nat) : ∀ a b : string,
  (String.length a ≤ n)%nat → base64 a = base64 b → a = b.
Proof.
  induction n as [|n IH]; intros a b Hlen Heq.
  - destruct a; [|simpl in Hlen; lia].
    destruct b as [|x [|y [|z b]]]; cbn [base64] in Heq; [reflexivity|discriminate Heq..].
  - destruct a as [|x [|y [|z a]]], b as [|x' [|y' [|z' b]]]; cbn [base64] in Heq.
    + reflexivity.
    + discriminate Heq.
    + discriminate Heq.
    + discriminate Heq.
    + discriminate Heq.
    + injection Heq as H1 H2. bounds x x. bounds x' x'.
      apply b64_char_inj in H1, H2; [|assumption..].
      f_equal. apply N_of_ascii_inj, tail1_inj; auto using byte_bound.
    + injection Heq as H1 H2 H3. bounds y' y'. padding. assumption.
    + injection Heq as H1 H2 H3 H4. bounds y' z'. bounds z' z'. padding. assumption.
    + discriminate Heq.
    + injection Heq as H1 H2 H3. bounds y y. padding. assumption.
    + injection Heq as H1 H2 H3. bounds x y. bounds x' y'. bounds y y. bounds y' y'.
      apply b64_char_inj in H1, H2, H3; [|assumption..].
      destruct (tail2_inj (N_of_ascii x) (N_of_ascii y) (N_of_ascii x') (N_of_ascii y'))
        as [Ex Ey]; auto using byte_bound.
      apply N_of_ascii_inj in Ex, Ey. by subst.
    + injection Heq as H1 H2 H3 H4. bounds z' z'. padding. assumption.
    + discriminate Heq.
    + injection Heq as H1 H2 H3 H4. bounds y z. bounds z z. padding. assumption.
    + injection Heq as H1 H2 H3 H4. bounds z z. padding. assumption.
    + injection Heq as H1 H2 H3 H4 H5.
      bounds x y. bounds x' y'. bounds y z. bounds y' z'. bounds z z. bounds z' z'.
      apply b64_char_inj in H1, H2, H3, H4; [|assumption..].
      destruct (sextets_inj (N_of_ascii x) (N_of_ascii y) (N_of_ascii z)
                  (N_of_ascii x') (N_of_ascii y') (N_of_ascii z'))
        as (Ex & Ey & Ez); auto using byte_bound.
      apply N_of_ascii_inj in Ex, Ey, Ez. subst.
      do 3 f_equal. apply IH; [simpl in Hlen; lia|assumption].
Qed.

Lemma base64_inj (a b : string) : base64 a = base64 b → a = b.
Proof. apply (base64_inj_upto (String.length a)). lia. Qed.

End Base64Facts.

Section ChannelKeyFacts.
Import Encoding Tools.
Local Open Scope string_scope.
Local Arguments String.append !_ _ / : simpl nomatch.

Lemma afterLiteral_quoted (x rest : string) :
  afterLiteral (quoteJSONBody x ++ String dquote rest) = Some rest.
Proof.
  induction x as [|a x IH]; [reflexivity|].
  cbn [quoteJSONBody]. rewrite append_assoc.
  destruct a as [[] [] [] [] [] [] [] []]; exact IH.
Qed.

Lemma channelParamsJSON_head (params : Client.SearchChannelsParams.t) :
  ∃ rest, channelParamsJSON params
          = objectHead "query"
              ++ (quoteJSONBody (Client.SearchChannelsParams.query params)
                    ++ String dquote (String "," rest)).
Proof.
  unfold channelParamsJSON, stringifyObject, property. simpl.
  rewrite !append_assoc. eexists. reflexivity.
Qed.

Lemma fallbackJSON_head (q : string) :
  stringifyObject [property "query" (Some (quoteJSONString q))]
  = objectHead "query" ++ (quoteJSONBody q ++ String dquote "}").
Proof.
  unfold stringifyObject, property. simpl. rewrite !append_assoc. reflexivity.
Qed.

Lemma append_inv_head (p a b : string) : p ++ a = p ++ b → a = b.
Proof.
  induction p as [|c p IH]; [done|].
  cbn [String.append]. intros H. injection H as H. exact (IH H).
Qed.

Lemma channel_keys_differ (params : Client.SearchChannelsParams.t) (q : string) :
  channelsKey (channelParamsJSON params)
  ≠ channelsKey (stringifyObject [property "query" (Some (quoteJSONString q))]).
Proof.
  unfold channelsKey. intros H.
  apply append_inv_head, base64_inj in H.
  destruct (channelParamsJSON_head params) as [rest Hhead].
  rewrite Hhead, fallbackJSON_head in H.
  apply append_inv_head in H.
  apply (f_equal afterLiteral) in H. rewrite !afterLiteral_quoted in H. discriminate H.
Qed.

End ChannelKeyFacts.

Section ToolFacts.
Import Client Tools.
Context {SearchItem RawVideo RawChannel RawThread : Type}.
Context {Video Channel Comment Transcript : Type}.
Variable videoIdOf : SearchItem → option string.
Variable channelIdOf : SearchItem → option string.
Variable mapVideo : RawVideo → Video.
Variable mapChannel : RawChannel → Channel.
Variable channelOfItem : SearchItem → Channel.
Variable commentOf : RawThread → option Comment.
Variable searchVideosList :
  YouTubeSearchParams.t → Z → N * (ApiError + SearchListResponse (SearchItem:=SearchItem)).
Variable searchChannelsList :
  SearchChannelsParams.t → Z → N * (ApiError + SearchListResponse (SearchItem:=SearchItem)).
Variable videosList : list string → Z → N * (ApiError + option (list RawVideo)).
Variable videosChart : GetTrendingVideosParams.t → Z → N * (ApiError + option (list RawVideo)).
Variable channelsList : list string → Z → N * (ApiError + option (list RawChannel)).
Variable commentThreadsList :
  string → Z → string → Z → N * (ApiError + option (list RawThread)).
Variable pageGet : string → Z → N * (ApiError + unit).
Context {EnhancedDetails EnhancedTrending EnhancedChannels : Type}.
Variable enhanceVideoDetails :
  VideoDetailsResult (Video:=Video) (Comment:=Comment) (Transcript:=Transcript) → EnhancedDetails.
Variable enhanceTrendingData : TrendingVideosResult (Video:=Video) → Z → EnhancedTrending.
Variable enhanceChannelResults : ChannelSearchResult (Channel:=Channel) → EnhancedChannels.

Abbreviation handle :=
  (Tools.handle videoIdOf channelIdOf mapVideo mapChannel channelOfItem commentOf
     searchVideosList searchChannelsList videosList videosChart channelsList
     commentThreadsList pageGet enhanceVideoDetails enhanceTrendingData enhanceChannelResults).
Abbreviation serve :=
  (Tools.serve videoIdOf channelIdOf mapVideo mapChannel channelOfItem commentOf
     searchVideosList searchChannelsList videosList videosChart channelsList
     commentThreadsList pageGet enhanceVideoDetails enhanceTrendingData enhanceChannelResults).
Abbreviation Server :=
  (Tools.Server Video EnhancedDetails EnhancedTrending EnhancedChannels).

Ltac simpl_tool :=
  cbn -[Z.add Z.mul Z.sub Z.gtb Z.ltb Z.leb Z.eqb Z.min Z.div String.append pretty
        Client.includes Z.of_N Z.of_nat Quota.canPerformOperation Quota.optimizeOperation
        Quota.recordUsage Cache.set Cache.isExpired Keys.getSearchKey Keys.getVideoDetailsKey
        Keys.getTrendingKey Tools.channelsKey Tools.searchParamsJSON Tools.channelParamsJSON
        Tools.pagesOf50 Encoding.stringifyObject Tools.firstWord] in *.

Ltac simpl_goal :=
  cbn -[Z.add Z.mul Z.sub Z.gtb Z.ltb Z.leb Z.eqb Z.min Z.div String.append pretty
        Client.includes Z.of_N Z.of_nat Quota.canPerformOperation Quota.optimizeOperation
        Quota.recordUsage Cache.set Cache.get Cache.isExpired Keys.getSearchKey Keys.getVideoDetailsKey
        Keys.getTrendingKey Tools.channelsKey Tools.searchParamsJSON Tools.channelParamsJSON
        Tools.pagesOf50 Encoding.stringifyObject Tools.firstWord].

(** Cases on what the store, the ledger and the API answer, the goal
    alone simplified. *)
Ltac split_goal :=
  repeat (simpl_goal;
          match goal with
          | |- context [match ?x with _ => _ end] =>
              lazymatch x with
              | context [match _ with _ => _ end] => fail
              | _ => destruct x eqn:?
              end
          end);
  simpl_goal.

Ltac unfold_tool :=
  unfold Tools.handle, Tools.worldOf, Tools.thrownBy, Tools.search_execute,
    Tools.details_execute, Tools.trending_execute, Tools.channels_execute,
    Tools.getCachedResultIgnoreExpiry, Tools.getPartialCachedData,
    Tools.getFallbackTrendingData, Tools.getFallbackChannelData, Tools.firstCached,
    Tools.cache_get, Tools.cache_set, Tools.ask, Tools.recordUsage, Tools.call, Tools.Date_now,
    Tools.cachedNow, Tools.keyOf, Tools.costOf, Tools.calculateOperationCost,
    Client.searchVideos, Client.getVideoDetails, Client.getTrendingVideos,
    Client.searchChannels, Client.getVideosByIds, Client.getVideoComments,
    Client.getVideoTranscript, Client.attempted, Client.handled, Client.handleError,
    Client.checkQuota, Client.await, Client.spend, Client.isQuotaExceededError,
    Run.try_catch, Run.bind, Run.ret, Run.throw in *.

(** Cases on what the store, the ledger and the API answer; [known] puts
    in what is known of them. *)
Ltac split_cases_with known :=
  repeat (simpl_tool; try discriminate;
          first
            [ progress known
            | match goal with
              | |- context [match ?x with _ => _ end] =>
                  lazymatch x with
                  | context [match _ with _ => _ end] => fail
                  | _ => destruct x eqn:?
                  end
              end ]);
  simpl_tool.

Ltac split_cases := split_cases_with idtac.

Ltac run_tool := unfold_tool; unfold Cache.get in *; split_cases.

(** A request that finds a live entry is answered from it. *)
Lemma handle_cached (r : Request) (sv : Server) :
  cachedNow r sv = true → handle r sv = (None, sv, []).
Proof.
  destruct sv; destruct r as [params|params|params|params]; intros Hhit; run_tool; done.
Qed.

(** X28. A tool makes no call without need. When the store holds a live
    entry for the request, the request is answered from it: no error, no
    call of the API, and the store, the ledger, the client and the clock
    are as before. When it holds none and the ledger does not admit the
    cost of the request, the request fails with a [QuotaExceededError]
    before any call of the API, and the ledger and the client are as
    before. *)
Theorem tool_without_need_makes_no_call (r : Request) (sv : Server) :
  (cachedNow r sv = true → handle r sv = (None, sv, []))
  ∧ (cachedNow r sv = false →
     Quota.canPerformOperation (ledger sv) (costOf r) = false →
     (∃ msg, (handle r sv).1.1 = Some (QuotaExceededError msg))
     ∧ (handle r sv).2 = []
     ∧ ledger (handle r sv).1.2 = ledger sv
     ∧ client (handle r sv).1.2 = client sv
     ∧ now (handle r sv).1.2 = now sv).
Proof.
  split; [apply handle_cached|].
  destruct sv; destruct r as [params|params|params|params].
  all: intros Hmiss Hdenied; unfold_tool; unfold Cache.get in *;
    split_cases_with ltac:(try rewrite Hdenied); try done.
  all: split_and!; try done; by eexists.
Qed.

Lemma pagesOf50_nonneg (n : nat) : 0 <= pagesOf50 n.
Proof. unfold pagesOf50. apply Z.div_pos; lia. Qed.

Lemma stamp_set {R} (c : Cache.CacheManager R) (key : string) (v : R) (ttl : option Z) (t : Z) :
  stamp key (Cache.set t key v ttl c)
  = Some (t, Cache.or_default ttl (Cache.getDefaultTTL c key)).
Proof. unfold stamp, Cache.set. simpl. by rewrite lookup_insert_eq. Qed.

Local Arguments String.append !_ _ / : simpl nomatch.

Lemma getDefaultTTL_evicted {R} (c : Cache.CacheManager R) (t : Z) (k key : string) :
  Cache.getDefaultTTL (Cache.get t k c).2 key = Cache.getDefaultTTL c key.
Proof.
  unfold Cache.get. destruct (Cache.memoryCache c !! k) as [entry|]; [|done].
  by destruct (Cache.isExpired t entry).
Qed.

Lemma getDefaultTTL_search {R} (c : Cache.CacheManager R) (q ps : string) :
  Cache.getDefaultTTL c (Keys.getSearchKey q ps) = Cache.searchResults (Cache.config c).
Proof. unfold Keys.getSearchKey. by destruct (Encoding.base64 _). Qed.

Lemma getDefaultTTL_video {R} (c : Cache.CacheManager R) (id : string) (t cm : bool) :
  Cache.getDefaultTTL c (Keys.getVideoDetailsKey id t cm) = Cache.videoDetails (Cache.config c).
Proof. by destruct id. Qed.

Lemma getDefaultTTL_channels {R} (c : Cache.CacheManager R) (json : string) :
  Cache.getDefaultTTL c (channelsKey json) = 3600.
Proof. unfold channelsKey. by destruct (Encoding.base64 _). Qed.

Local Arguments String.append : simpl never.

Ltac close_ledger_case :=
  change (operationCost "search") with 100 in *;
  change (operationCost "trending") with 1 in *;
  change (operationCost "channel_search") with 100 in *;
  repeat match goal with
         | H : negb _ = false |- _ => apply negb_false_iff in H
         | H : negb _ = true |- _ => apply negb_true_iff in H
         end;
  unfold Quota.recordUsage, Tools.calculateOperationCost in *;
  cbn [Quota.usage Quota.config];
  rewrite ?stamp_set, ?getDefaultTTL_evicted, ?getDefaultTTL_search, ?getDefaultTTL_video,
    ?getDefaultTTL_channels;
  unfold Cache.or_default; cbn [Z.eqb Pos.eqb];
  split_and!; try done; try lia;
  first
    [ by left
    | right; split_and!; try done; try lia;
      first [ exists 0; split_and!; try done; lia
            | eexists; split_and!; [apply pagesOf50_nonneg|reflexivity|done] ] ].

(** What a request does to the two ledgers and to the store. *)
Lemma handle_ledger (r : Request) (sv : Server) :
  Quota.config (ledger (handle r sv).1.2) = Quota.config (ledger sv)
  ∧ Client.quotaUsed (client (handle r sv).1.2)
    = Client.quotaUsed (client sv) + unitsSpent (handle r sv).2
  ∧ now sv <= now (handle r sv).1.2
  ∧ (Quota.usage (ledger (handle r sv).1.2) = Quota.usage (ledger sv)
     ∨ ((handle r sv).1.1 = None
        ∧ cachedNow r sv = false
        ∧ Quota.canPerformOperation (ledger sv) (costOf r) = true
        ∧ (∃ extra, 0 <= extra
             ∧ Quota.usage (ledger (handle r sv).1.2) = Quota.usage (ledger sv) + costOf r + extra
             ∧ (billsPages r = false → extra = 0))
        ∧ costOf r - 1 <= unitsSpent (handle r sv).2 <= costOf r + 1
        ∧ stampOf r (handle r sv).1.2 = Some (now (handle r sv).1.2, ttlOf r sv))).
Proof.
  destruct sv; destruct r as [params|params|params|params];
    unfold stampOf, ttlOf, billsPages; unfold_tool; split_goal; unfold unitsSpent; simpl_goal;
    close_ledger_case.
Qed.

Lemma stamp_live {R} (c : Cache.CacheManager R) (key : string) (t0 ttl later : Z) :
  stamp key c = Some (t0, ttl) → later - t0 <= ttl * 1000 →
  is_Some (Cache.get later key c).1.
Proof.
  unfold stamp, Cache.get. destruct (Cache.memoryCache c !! key) as [entry|]; [|done].
  simpl. intros [= <- <-] Hlive. unfold Cache.isExpired.
  destruct (Z.gtb_spec (later - Cache.timestamp entry) (Cache.ttl entry * 1000)); [lia|].
  by eexists.
Qed.

Lemma cachedNow_live (r : Request) (sv : Server) (t0 ttl later : Z) :
  stampOf r sv = Some (t0, ttl) → later - t0 <= ttl * 1000 →
  cachedNow r (at_time later sv) = true.
Proof.
  intros Hstamp Hlive.
  destruct r; unfold cachedNow, stampOf in *; simpl; apply bool_decide_eq_true;
    by eapply stamp_live.
Qed.

(** X29. What a request records. The client counts the units of the
    calls that resolved. The ledger records nothing for a request that
    fails. When the ledger has recorded, the request has succeeded and
    its cost had been admitted; what is recorded is the cost, and for a
    channel search with statistics the pages on top; the client has
    counted the same but for one unit more or less; and the result is in
    the store with the ttl of its kind, so that the same request is
    answered from the store, without a call, for as long as the entry
    lives. *)
Theorem tool_records_what_succeeded (r : Request) (sv : Server) :
  Client.quotaUsed (client (handle r sv).1.2)
  = Client.quotaUsed (client sv) + unitsSpent (handle r sv).2
  ∧ (∀ e, (handle r sv).1.1 = Some e →
       Quota.usage (ledger (handle r sv).1.2) = Quota.usage (ledger sv))
  ∧ (Quota.usage (ledger (handle r sv).1.2) ≠ Quota.usage (ledger sv) →
     (handle r sv).1.1 = None
     ∧ cachedNow r sv = false
     ∧ Quota.canPerformOperation (ledger sv) (costOf r) = true
     ∧ Quota.usage (ledger sv) + costOf r <= Quota.usage (ledger (handle r sv).1.2)
     ∧ (billsPages r = false →
        Quota.usage (ledger (handle r sv).1.2) = Quota.usage (ledger sv) + costOf r)
     ∧ costOf r - 1 <= unitsSpent (handle r sv).2 <= costOf r + 1
     ∧ stampOf r (handle r sv).1.2 = Some (now (handle r sv).1.2, ttlOf r sv)
     ∧ ∀ later, later - now (handle r sv).1.2 <= ttlOf r sv * 1000 →
         handle r (at_time later (handle r sv).1.2)
         = (None, at_time later (handle r sv).1.2, [])).
Proof.
  destruct (handle_ledger r sv) as (_ & Hclient & _ & [Hsame|Hrec]).
  { split_and!; [done|done|]. intros Hne. by destruct Hne. }
  destruct Hrec as (Hok & Hmiss & Hadm & (extra & Hextra & Husage & Hpages) & Hunits & Hstamp).
  split_and!; [done| |].
  - intros e He. congruence.
  - intros _. split_and!; try done; try lia.
    + intros Hb. specialize (Hpages Hb). lia.
    + intros later Hlater. apply handle_cached. by eapply cachedNow_live.
Qed.



(** X12. The refusal of the optimizer cannot occur. Once the ledger has
    admitted the cost of a kind of operation, [optimizeOperation] grants
    a request of one or more items of that kind at least one item. So a
    request of a tool that is not answered from the store and whose cost
    is admitted always reaches the client: either the API is called, or
    the count of the client leaves no room for the first call and its
    guard refuses. *)
Theorem optimizer_never_refuses_an_admitted_request :
  (∀ (q : Quota.QuotaManager) (operation : string) (unitCost requestedItems : Z),
     Quota.getOperationCost operation = Quota.Units unitCost →
     Quota.canPerformOperation q unitCost = true →
     1 <= requestedItems →
     1 <= Quota.optimizeOperation q operation requestedItems)
  ∧ (∀ (r : Request) (sv : Server),
       cachedNow r sv = false →
       Quota.canPerformOperation (ledger sv) (costOf r) = true →
       1 <= requested r →
       (handle r sv).2 ≠ []
       ∨ dailyQuotaLimit (client sv) < Client.quotaUsed (client sv) + entryCostOf r).
Proof.
  split; [exact optimizeOperation_admitted|].
  intros r sv Hmiss Hadm Hreq.
  destruct sv; destruct r as [params|params|params|params];
    unfold requested, entryCostOf in *; unfold_tool; unfold Cache.get in *;
    split_cases_with ltac:(
      try rewrite Hadm;
      try match goal with
          | H : (Quota.optimizeOperation ?q ?op ?n =? 0) = true |- _ =>
              exfalso; apply Z.eqb_eq in H;
              pose proof (optimizeOperation_admitted q op _ n eq_refl Hadm Hreq); lia
          end);
    try done; try (by left); right; lia.
Qed.


Lemma keyedByParams_get {R} (t : Z) (key : string) (c : Cache.CacheManager R) :
  keyedByParams c → keyedByParams (Cache.get t key c).2.
Proof.
  intros Hc. unfold Cache.get.
  destruct (Cache.memoryCache c !! key) as [entry|]; [|exact Hc].
  destruct (Cache.isExpired t entry); [|exact Hc].
  intros k [e He]. apply Hc. exists e. simpl in He.
  destruct (decide (k = key)) as [->|Hne].
  - by rewrite lookup_delete_eq in He.
  - by rewrite lookup_delete_ne in He.
Qed.

Lemma keyedByParams_set {R} (t : Z) (params : SearchChannelsParams.t) (v : R) (ttl : option Z)
    (c : Cache.CacheManager R) :
  keyedByParams c →
  keyedByParams (Cache.set t (channelsKey (channelParamsJSON params)) v ttl c).
Proof.
  intros Hc k [e He]. unfold Cache.set in He. simpl in He.
  destruct (decide (k = channelsKey (channelParamsJSON params))) as [->|Hne].
  - by exists params.
  - rewrite lookup_insert_ne in He by done. apply Hc. by exists e.
Qed.

Lemma firstCached_miss {R} (keys : list string) (w : World R) :
  (∀ key, key ∈ keys → Cache.memoryCache (cache w) !! key = None) →
  firstCached keys w = (inr None, w, []).
Proof.
  induction keys as [|key keys IH]; intros Hmiss; [reflexivity|].
  cbn [firstCached]. unfold Run.bind, cache_get, Cache.get.
  rewrite (Hmiss key) by apply list_elem_of_here.
  destruct w; simpl. simpl in IH. rewrite IH; [done|].
  intros k Hk. apply Hmiss. by apply list_elem_of_further.
Qed.

Lemma getFallbackChannelData_miss (query : string) (w : World EnhancedChannels) :
  keyedByParams (cache w) →
  getFallbackChannelData query w = (inr None, w, []).
Proof.
  intros Hw. unfold getFallbackChannelData. apply firstCached_miss.
  intros key Hkey. apply list_elem_of_fmap in Hkey as (q & -> & _).
  destruct (Cache.memoryCache (cache w) !! _) as [e|] eqn:He; [|done].
  destruct (Hw _ (ex_intro _ e He)) as [params Hparams].
  symmetry in Hparams. by apply channel_keys_differ in Hparams.
Qed.

Abbreviation channels_execute :=
  (Tools.channels_execute channelIdOf mapChannel channelOfItem searchChannelsList
     channelsList enhanceChannelResults).

Lemma channels_execute_keyed (params : SearchChannelsParams.t) (w : World EnhancedChannels) :
  keyedByParams (cache w) →
  keyedByParams (cache (channels_execute params w).1.2)
  ∧ (∀ found meta, (channels_execute params w).1.1 = inr (found, meta) → fallback meta = false).
Proof.
  intros Hw.
  pose proof (keyedByParams_get (clock w) (channelsKey (channelParamsJSON params)) _ Hw) as Hget.
  pose proof (λ t v ttl, keyedByParams_set t params v ttl _ Hget) as Hset.
  destruct w as [c q y t]. simpl in Hw, Hget, Hset.
  unfold Tools.channels_execute, Tools.cache_get, Tools.cache_set, Tools.ask, Tools.recordUsage,
    Tools.call, Client.searchChannels, Client.attempted, Client.handled, Client.handleError,
    Client.checkQuota, Client.await, Client.spend, Client.isQuotaExceededError,
    Run.try_catch, Run.bind, Run.ret, Run.throw.
  repeat (cbn -[Z.add Z.mul Z.sub Z.gtb Z.ltb Z.leb Z.eqb Z.min Z.div String.append pretty
                Client.includes Z.of_N Z.of_nat Quota.canPerformOperation
                Quota.optimizeOperation Quota.recordUsage Cache.set Cache.get
                Tools.channelsKey Tools.channelParamsJSON Tools.pagesOf50
                Tools.getFallbackChannelData];
          first
            [ progress (rewrite getFallbackChannelData_miss by exact Hget)
            | match goal with
              | |- context [match ?x with _ => _ end] =>
                  lazymatch x with
                  | context [match _ with _ => _ end] => fail
                  | _ => destruct x eqn:?
                  end
              end ]).
  all: cbn -[Cache.set Cache.get Tools.channelsKey Tools.channelParamsJSON].
  all: split; [first [exact Hw | exact Hget | apply Hset]
              | intros found meta Heq; first [discriminate Heq | by injection Heq as _ <-]].
Qed.

Lemma handle_keyed (r : Request) (sv : Server) :
  keyedByParams (channelSearches sv) → keyedByParams (channelSearches (handle r sv).1.2).
Proof.
  intros Hsv. destruct r as [params|params|params|params]; unfold Tools.handle.
  4: pose proof (channels_execute_keyed params (worldOf (channelSearches sv) sv) Hsv) as [Hw _].
  all: match goal with
       | |- context [match ?run with _ => _ end] => by destruct run as [[res w] t]
       end.
Qed.

Lemma serve_keyed (rs : list Request) :
  ∀ sv : Server, keyedByParams (channelSearches sv) → keyedByParams (channelSearches (serve rs sv)).
Proof.
  induction rs as [|r rs IH]; intros sv Hsv; [exact Hsv|].
  cbn [Tools.serve]. by apply IH, handle_keyed.
Qed.

(** X13. The fallback of the channel search never answers. The key that
    [execute] stores a result under is never one of the keys that
    [getFallbackChannelData] looks up, whatever the parameters and the
    query: the JSON text of the parameters goes on after the query,
    that of the query alone ends there. So, from a store that holds
    channel results only under keys of [execute] (an empty store is
    one), and after any requests to the four tools, the store is still
    such a store, [getFallbackChannelData] returns [null] without a
    change, and no channel search returns a result marked
    [fallback]. *)
Theorem channel_fallback_never_answers (rs : list Request) (sv : Server) :
  keyedByParams (channelSearches sv) →
  let after := serve rs sv in
  let world := worldOf (channelSearches after) after in
  (∀ params query,
     keyOf (Channels params)
     ≠ channelsKey (Encoding.stringifyObject
                      [Encoding.property "query" (Some (Encoding.quoteJSONString query))]))
  ∧ keyedByParams (channelSearches after)
  ∧ (∀ query, getFallbackChannelData query world = (inr None, world, []))
  ∧ (∀ params found meta,
       (channels_execute params world).1.1 = inr (found, meta) → fallback meta = false).
Proof.
  intros Hsv after world.
  assert (Hafter : keyedByParams (channelSearches after)) by by apply serve_keyed.
  split_and!.
  - intros params query. apply channel_keys_differ.
  - exact Hafter.
  - intros query. by apply getFallbackChannelData_miss.
  - intros params. by apply channels_execute_keyed.
Qed.

End ToolFacts.

(** * The theorems at work in the small world *)


Lemma optimizeOperation_postcondition_witness :
  0 < Quota.dailyLimit (Quota.config Example.lateLedger)
  ∧ Quota.getOperationCost "search" = Quota.Units 100
  ∧ Quota.optimizeOperation Example.lateLedger "search" 25 = Z.min 25 5.
Proof.
  assert (H1 : 0 < Quota.dailyLimit (Quota.config Example.lateLedger)) by (simpl; lia).
  assert (H2 : Quota.getOperationCost "search" = Quota.Units 100) by reflexivity.
  split; [exact H1|]. split; [exact H2|].
  destruct (optimizeOperation_postcondition Example.lateLedger "search" 25 100 H1 H2) as [_ H].
  destruct H as [_ H]; [simpl; lia|].
  destruct (H (or_introl eq_refl)) as [H80 _].
  apply H80. simpl. lia.
Defined.

Lemma per_caller_ceiling_witness :
  let r := LLM.run Example.showZ Example.noTokenizer
             (Example.resolves Example.answer) (Example.resolves Example.answer)
             Example.request "alice" Example.busyCaller 1000 in
  (10000 < LLM.hourly (LLM.userUsageOf Example.busyCaller "alice")
           + LLM.estimateTokens Example.noTokenizer (LLM.prompt Example.request)
   ∨ 50000 < LLM.daily (LLM.userUsageOf Example.busyCaller "alice")
             + LLM.estimateTokens Example.noTokenizer (LLM.prompt Example.request))
  ∧ LLM.outcome r = inl (LLM.ThrownError (LLM.Error "User hourly quota exceeded"))
  ∧ LLM.events r = []
  ∧ LLM.final r = {| LLM.service := Example.busyCaller; LLM.clock := 1000 |}.
Proof.
  intros r.
  assert (H : 10000 < LLM.hourly (LLM.userUsageOf Example.busyCaller "alice")
                      + LLM.estimateTokens Example.noTokenizer (LLM.prompt Example.request)
              ∨ 50000 < LLM.daily (LLM.userUsageOf Example.busyCaller "alice")
                        + LLM.estimateTokens Example.noTokenizer (LLM.prompt Example.request)).
  { left. vm_compute. reflexivity. }
  split; [exact H|].
  destruct (per_caller_ceiling Example.showZ Example.noTokenizer
              (Example.resolves Example.answer) (Example.resolves Example.answer)
              Example.request "alice" Example.busyCaller 1000 H) as (_ & Hh & He & Hf).
  split; [|split; [exact He|exact Hf]].
  apply Hh. vm_compute. discriminate.
Defined.

(** The claim of a cache check ahead of all provider logic, refuted: a
    live entry sits under the request's key, the only provider is over
    its request limit, and the request fails on the rate check without
    a look at the cache. *)
Lemma cache_behind_rate_check :
  let key := LLM.createCacheKey Example.showZ Example.request "openai" in
  let r := LLM.run Example.showZ Example.noTokenizer
             (Example.resolves Example.answer) (Example.resolves Example.answer)
             Example.request "alice" Example.limitedService 1000 in
  (Cache.get 1000 key (LLM.cache Example.limitedService)).1 = Some Example.answer
  ∧ LLM.outcome r = inl (LLM.AggregateError [] "All LLM providers failed. Tried: ")
  ∧ LLM.events r = [LLM.RateCheck LLM.openai false]
  ∧ ¬ (∃ resp, LLM.outcome r = inr resp)
  ∧ ¬ (∀ ev, ev ∈ LLM.events r → ∀ p ok, ev ≠ LLM.RateCheck p ok).
Proof.
  intros key r.
  assert (Hout : LLM.outcome r = inl (LLM.AggregateError [] "All LLM providers failed. Tried: "))
    by (vm_compute; reflexivity).
  assert (Hev : LLM.events r = [LLM.RateCheck LLM.openai false]) by (vm_compute; reflexivity).
  split_and!.
  - vm_compute. reflexivity.
  - exact Hout.
  - exact Hev.
  - intros [resp Hresp]. rewrite Hout in Hresp. discriminate.
  - intros Hno. apply (Hno (LLM.RateCheck LLM.openai false)) with (p := LLM.openai) (ok := false).
    + rewrite Hev. apply list_elem_of_here.
    + reflexivity.
Qed.

Lemma cache_hit_ends_request_witness :
  let key := LLM.createCacheKey Example.showZ Example.request "openai" in
  let r := LLM.run Example.showZ Example.noTokenizer
             (Example.rejects Example.overloaded) (Example.resolves Example.answer)
             Example.request "alice" Example.warmService 1000 in
  LLM.CacheGet LLM.openai key (Some Example.answer) ∈ LLM.events r
  ∧ LLM.outcome r = inr {| LLM.response := Example.answer; LLM.provider := "openai";
                           LLM.processingTime := None |}
  ∧ last (LLM.events r) = Some (LLM.CacheGet LLM.openai key (Some Example.answer)).
Proof.
  intros key r.
  assert (Hin : LLM.CacheGet LLM.openai key (Some Example.answer) ∈ LLM.events r).
  { assert (Hev : LLM.events r = [LLM.RateCheck LLM.openai true;
                                  LLM.CacheGet LLM.openai key (Some Example.answer)])
      by (vm_compute; reflexivity).
    rewrite Hev. apply list_elem_of_further, list_elem_of_here. }
  split; [exact Hin|].
  destruct (cache_hit_ends_request Example.showZ Example.noTokenizer
              (Example.rejects Example.overloaded) (Example.resolves Example.answer)
              Example.request "alice" Example.warmService 1000
              LLM.openai key Example.answer Hin) as (_ & _ & Hlast & Hout & _).
  split; [exact Hout|exact Hlast].
Defined.

(** The claim that the fatal error itself is raised, refuted: the first
    provider fails with status 401, the second would have answered, and
    what [generateWithFallback] throws is the [AggregateError]. *)
Lemma fatal_error_is_wrapped :
  let r := LLM.run Example.showZ Example.noTokenizer
             (Example.rejects Example.unauthorized) (Example.resolves Example.answer)
             Example.request "alice" Example.coldService 1000 in
  LLM.Execute LLM.openai (inl Example.unauthorized) ∈ LLM.events r
  ∧ LLM.isNonRetryableError Example.unauthorized = true
  ∧ LLM.outcome r
    = inl (LLM.AggregateError [Example.unauthorized] "All LLM providers failed. Tried: openai")
  ∧ LLM.outcome r ≠ inl (LLM.ThrownError Example.unauthorized).
Proof.
  intros r.
  assert (Hout : LLM.outcome r
            = inl (LLM.AggregateError [Example.unauthorized]
                     "All LLM providers failed. Tried: openai")) by (vm_compute; reflexivity).
  split_and!.
  - assert (Hev : LLM.events r
              = [LLM.RateCheck LLM.openai true;
                 LLM.CacheGet LLM.openai
                   (LLM.createCacheKey Example.showZ Example.request "openai") None;
                 LLM.Execute LLM.openai (inl Example.unauthorized)])
      by (vm_compute; reflexivity).
    rewrite Hev. do 2 apply list_elem_of_further. apply list_elem_of_here.
  - reflexivity.
  - exact Hout.
  - rewrite Hout. discriminate.
Qed.

Lemma fatal_error_short_circuits_witness :
  let r := LLM.run Example.showZ Example.noTokenizer
             (Example.rejects Example.unauthorized) (Example.resolves Example.answer)
             Example.request "alice" Example.coldService 1000 in
  LLM.Execute LLM.openai (inl Example.unauthorized) ∈ LLM.events r
  ∧ LLM.isNonRetryableError Example.unauthorized = true
  ∧ last (LLM.events r) = Some (LLM.Execute LLM.openai (inl Example.unauthorized))
  ∧ (∀ q tokensUsed u, LLM.RecordUsage q tokensUsed u ∉ LLM.events r)
  ∧ LLM.userQuotas (LLM.service (LLM.final r)) = LLM.userQuotas Example.coldService.
Proof.
  intros r.
  assert (Hin : LLM.Execute LLM.openai (inl Example.unauthorized) ∈ LLM.events r).
  { assert (Hev : LLM.events r
              = [LLM.RateCheck LLM.openai true;
                 LLM.CacheGet LLM.openai
                   (LLM.createCacheKey Example.showZ Example.request "openai") None;
                 LLM.Execute LLM.openai (inl Example.unauthorized)])
      by (vm_compute; reflexivity).
    rewrite Hev. do 2 apply list_elem_of_further. apply list_elem_of_here. }
  assert (He : LLM.isNonRetryableError Example.unauthorized = true) by reflexivity.
  split; [exact Hin|]. split; [exact He|].
  destruct (fatal_error_short_circuits Example.showZ Example.noTokenizer
              (Example.rejects Example.unauthorized) (Example.resolves Example.answer)
              Example.request "alice" Example.coldService 1000
              LLM.openai Example.unauthorized Hin He) as (Hlast & Hno & _ & _ & Hu & _).
  split; [exact Hlast|]. split; [exact Hno|exact Hu].
Defined.

(** The claim that the cache is changed only after a provider call has
    succeeded, refuted: the entry under the request's key has expired,
    both providers fail with status 503, and the request, which throws
    without a call that succeeded, has deleted the entry. *)
Lemma failed_request_evicts_expired_entry :
  let key := LLM.createCacheKey Example.showZ Example.request "openai" in
  let r := LLM.run Example.showZ Example.noTokenizer
             (Example.rejects Example.overloaded) (Example.rejects Example.overloaded)
             Example.request "alice" Example.warmService 3601001 in
  (∀ q resp, LLM.Execute q (inr resp) ∉ LLM.events r)
  ∧ LLM.outcome r
    = inl (LLM.AggregateError [Example.overloaded; Example.overloaded]
             "All LLM providers failed. Tried: openai, anthropic")
  ∧ is_Some (Cache.memoryCache (LLM.cache Example.warmService) !! key)
  ∧ Cache.memoryCache (LLM.cache (LLM.service (LLM.final r))) !! key = None
  ∧ LLM.cache (LLM.service (LLM.final r)) ≠ LLM.cache Example.warmService.
Proof.
  intros key r.
  assert (Hbefore : is_Some (Cache.memoryCache (LLM.cache Example.warmService) !! key))
    by (vm_compute; eauto).
  assert (Hafter : Cache.memoryCache (LLM.cache (LLM.service (LLM.final r))) !! key = None)
    by (vm_compute; reflexivity).
  split_and!.
  - assert (Hns : Forall (λ ev, LLM.isSuccess ev = false) (LLM.events r))
      by (vm_compute; repeat constructor).
    intros q resp Hin. eapply Forall_forall in Hns; [|exact Hin]. done.
  - vm_compute. reflexivity.
  - exact Hbefore.
  - exact Hafter.
  - intros Heq. rewrite Heq in Hafter. destruct Hbefore as [entry Hentry]. congruence.
Qed.

(** A transient failure of the first provider, then the second answers:
    one backoff of a second, one charge, on the second provider. *)
Example fallback_run :
  let r := LLM.run Example.showZ Example.noTokenizer
             (Example.rejects Example.overloaded) (Example.resolves Example.answer)
             Example.request "alice" Example.coldService 1000 in
  let key := LLM.createCacheKey Example.showZ Example.request "anthropic" in
  LLM.events r
  = [ LLM.RateCheck LLM.openai true;
      LLM.CacheGet LLM.openai (LLM.createCacheKey Example.showZ Example.request "openai") None;
      LLM.Execute LLM.openai (inl Example.overloaded);
      LLM.Backoff 1000;
      LLM.RateCheck LLM.anthropic true;
      LLM.CacheGet LLM.anthropic key None;
      LLM.Execute LLM.anthropic (inr Example.answer);
      LLM.RecordUsage LLM.anthropic 120 "alice";
      LLM.CacheSet key Example.answer 3600 ]
  ∧ LLM.outcome r = inr {| LLM.response := Example.answer; LLM.provider := "anthropic";
                           LLM.processingTime := Some 2150 |}
  ∧ LLM.providers (LLM.service (LLM.final r))
    = [ Example.openaiProvider; Example.provider LLM.anthropic 2 2000 150000 1 120 ].
Proof. vm_compute. repeat split. Qed.

(** C10. The cache key is not injective. [createCacheKey] is a function
    of the request and the provider name, and there are two requests
    that differ in prompt, model, maxTokens, temperature and
    responseFormat and have one key, for every provider name and every
    rendering of numbers: the first 50 characters of the base64 text
    end inside the prompt. So the second request, made a minute after
    the first by another caller, is answered from the cache with the
    answer to the first, and no provider is called. *)
Theorem cache_key_not_injective :
  ∃ r1 r2 : LLM.LLMRequest Z,
    LLM.prompt r1 ≠ LLM.prompt r2
    ∧ LLM.model r1 ≠ LLM.model r2
    ∧ LLM.maxTokens r1 ≠ LLM.maxTokens r2
    ∧ LLM.temperature r1 ≠ LLM.temperature r2
    ∧ LLM.responseFormat r1 ≠ LLM.responseFormat r2
    (* one key for both, whatever the provider and the rendering of numbers *)
    ∧ (∀ (numberToJSON : Z → string) (p1 p2 : string),
         LLM.createCacheKey numberToJSON r1 p1 = LLM.createCacheKey numberToJSON r2 p2)
    (* and the second request is answered with the answer to the first *)
    ∧ (let first := LLM.run Example.showZ Example.noTokenizer Example.echoes Example.echoes
                      r1 "alice" Example.coldService 0 in
       let second := LLM.run Example.showZ Example.noTokenizer Example.echoes Example.echoes
                       r2 "bob" (LLM.service (LLM.final first)) 60000 in
       LLM.outcome first
       = inr {| LLM.response := {| LLM.content := LLM.prompt r1; LLM.tokensUsed := 120;
                                   LLM.cost := 0 |};
                LLM.provider := "openai"; LLM.processingTime := Some 900 |}
       ∧ LLM.outcome second
         = inr {| LLM.response := {| LLM.content := LLM.prompt r1; LLM.tokensUsed := 120;
                                     LLM.cost := 0 |};
                  LLM.provider := "openai"; LLM.processingTime := None |}
       ∧ ∀ q settled, LLM.Execute q settled ∉ LLM.events second).
Proof.
  exists Example.request, Example.otherRequest.
  split_and!; try discriminate.
  - intros numberToJSON p1 p2.
    apply createCacheKey_reads_27_bytes; [vm_compute; lia|vm_compute; lia|reflexivity].
  - assert (Hev : ∃ k c, LLM.events
              (LLM.run Example.showZ Example.noTokenizer Example.echoes Example.echoes
                 Example.otherRequest "bob"
                 (LLM.service (LLM.final
                    (LLM.run Example.showZ Example.noTokenizer Example.echoes Example.echoes
                       Example.request "alice" Example.coldService 0))) 60000)
              = [LLM.RateCheck LLM.openai true; LLM.CacheGet LLM.openai k c]).
    { eexists _, _. vm_compute. reflexivity. }
    destruct Hev as (k & c & Hev).
    cbv zeta. split_and!.
    + vm_compute. reflexivity.
    + vm_compute. reflexivity.
    + intros q settled Hin. rewrite Hev in Hin.
      apply elem_of_cons in Hin as [Hin|Hin]; [discriminate|].
      apply elem_of_cons in Hin as [Hin|Hin]; [discriminate|].
      by apply elem_of_nil in Hin.
Qed.

(** * The further theorems at work *)

Lemma set_without_ttl_uses_category_default_witness :
  (@None Z = None ∨ @None Z = Some 0)
  ∧ (Cache.get 3600000 "video:abc:basic:no-comments"
       (Cache.set 0 "video:abc:basic:no-comments" 7 None (@Example.emptyCache Z))).1 = Some 7
  ∧ (Cache.get 3600001 "video:abc:basic:no-comments"
       (Cache.set 0 "video:abc:basic:no-comments" 7 None (@Example.emptyCache Z))).1 = None.
Proof.
  assert (H : @None Z = None ∨ @None Z = Some 0) by (left; reflexivity).
  split; [exact H|].
  split.
  - destruct (set_without_ttl_uses_category_default (@Example.emptyCache Z)
                "video:abc:basic:no-comments" 7 None 0 3600000 H) as [_ Hget].
    rewrite Hget. reflexivity.
  - destruct (set_without_ttl_uses_category_default (@Example.emptyCache Z)
                "video:abc:basic:no-comments" 7 None 0 3600001 H) as [_ Hget].
    rewrite Hget. reflexivity.
Defined.

Lemma getVideoDetailsKey_injective_witness :
  Keys.getVideoDetailsKey "abc" true false = "video:abc:transcript:no-comments"
  ∧ ∀ id t cm,
      Keys.getVideoDetailsKey id t cm = Keys.getVideoDetailsKey "abc" true false →
      id = "abc"%string ∧ t = true ∧ cm = false.
Proof.
  split; [reflexivity|].
  intros id t cm H. exact (getVideoDetailsKey_injective id "abc" t true cm false H).
Defined.

Lemma optimizeOperation_bounds_witness :
  0 <= 25
  ∧ 0 <= Quota.optimizeOperation Example.lateLedger "video_details" 25 <= 25
  ∧ Quota.optimizeOperation Example.lateLedger "video_details" 25 * 1
    <= Quota.getAvailableQuota Example.lateLedger.
Proof.
  assert (H : 0 <= 25) by lia.
  split; [exact H|].
  destruct (optimizeOperation_bounds Example.lateLedger "video_details" 25 H) as (Hb & Hc & _).
  split; [exact Hb|].
  apply Hc; [reflexivity|left; reflexivity].
Defined.

Lemma recommendations_start_above_half_witness :
  0 < Quota.dailyLimit (Quota.config Example.lateLedger)
  ∧ QuotaReport.getRecommendations Example.lateLedger ≠ []
  ∧ (length (QuotaReport.getRecommendations Example.lateLedger) ≤ 4)%nat.
Proof.
  assert (H : 0 < Quota.dailyLimit (Quota.config Example.lateLedger)) by (simpl; lia).
  split; [exact H|].
  destruct (recommendations_start_above_half Example.lateLedger H) as (Hempty & Hlen & _).
  split; [|exact Hlen].
  intros Hnil. apply Hempty in Hnil. simpl in Hnil. lia.
Defined.

Lemma no_usable_provider_witness :
  let r := LLM.run Example.showZ Example.noTokenizer
             (Example.resolves Example.answer) (Example.resolves Example.answer)
             Example.request "alice" Example.limitedService 1000 in
  Forall (λ p, LLM.canUseProvider p
                 (LLM.estimateTokens Example.noTokenizer (LLM.prompt Example.request)) = false)
    (LLM.providers Example.limitedService)
  ∧ LLM.outcome r = inl (LLM.AggregateError [] "All LLM providers failed. Tried: ")
  ∧ LLM.events r = [LLM.RateCheck LLM.openai false].
Proof.
  intros r.
  assert (Hd : LLM.daily (LLM.userUsageOf Example.limitedService "alice")
               + LLM.estimateTokens Example.noTokenizer (LLM.prompt Example.request) <= 50000)
    by (vm_compute; discriminate).
  assert (Hh : LLM.hourly (LLM.userUsageOf Example.limitedService "alice")
               + LLM.estimateTokens Example.noTokenizer (LLM.prompt Example.request) <= 10000)
    by (vm_compute; discriminate).
  assert (Hall : Forall (λ p, LLM.canUseProvider p
                                (LLM.estimateTokens Example.noTokenizer
                                   (LLM.prompt Example.request)) = false)
                   (LLM.providers Example.limitedService)).
  { repeat constructor. }
  split; [exact Hall|].
  destruct (no_usable_provider Example.showZ Example.noTokenizer
              (Example.resolves Example.answer) (Example.resolves Example.answer)
              Example.request "alice" Example.limitedService 1000 Hd Hh Hall) as (Hout & Hev & _).
  split; [exact Hout|exact Hev].
Defined.

Lemma thrown_error_lists_every_failure_witness :
  let r := LLM.run Example.showZ Example.noTokenizer
             (Example.rejects Example.overloaded) (Example.rejects Example.overloaded)
             Example.request "alice" Example.coldService 1000 in
  LLM.outcome r
  = inl (LLM.AggregateError [Example.overloaded; Example.overloaded]
           "All LLM providers failed. Tried: openai, anthropic")
  ∧ ∀ q settled, LLM.Execute q settled ∈ LLM.events r → ∃ e, settled = inl e.
Proof.
  intros r.
  assert (Hout : LLM.outcome r
                 = inl (LLM.AggregateError [Example.overloaded; Example.overloaded]
                          "All LLM providers failed. Tried: openai, anthropic"))
    by (vm_compute; reflexivity).
  split; [exact Hout|].
  destruct (thrown_error_lists_every_failure Example.showZ Example.noTokenizer
              (Example.rejects Example.overloaded) (Example.rejects Example.overloaded)
              Example.request "alice" Example.coldService 1000 _ Hout) as [[Hev _]|[_ Hall]].
  - exfalso. revert Hev. vm_compute. discriminate.
  - exact Hall.
Defined.

Lemma fresh_response_is_cached_for_an_hour_witness :
  let r := LLM.run Example.showZ Example.noTokenizer
             (Example.resolves Example.answer) (Example.resolves Example.answer)
             Example.request "alice" Example.coldService 1000 in
  LLM.Execute LLM.openai (inr Example.answer) ∈ LLM.events r
  ∧ (Cache.get 3601900 (LLM.createCacheKey Example.showZ Example.request "openai")
       (LLM.cache (LLM.service (LLM.final r)))).1 = Some Example.answer
  ∧ (Cache.get 3601901 (LLM.createCacheKey Example.showZ Example.request "openai")
       (LLM.cache (LLM.service (LLM.final r)))).1 = None.
Proof.
  intros r.
  assert (Hin : LLM.Execute LLM.openai (inr Example.answer) ∈ LLM.events r).
  { assert (Hev : ∃ t1 t2, LLM.events r
                           = t1 ++ LLM.Execute LLM.openai (inr Example.answer) :: t2).
    { exists [LLM.RateCheck LLM.openai true;
              LLM.CacheGet LLM.openai
                (LLM.createCacheKey Example.showZ Example.request "openai") None].
      eexists. vm_compute. reflexivity. }
    destruct Hev as (t1 & t2 & ->). apply elem_of_app. right. apply list_elem_of_here. }
  assert (Hclock : LLM.clock (LLM.final r) = 1900) by (vm_compute; reflexivity).
  split; [exact Hin|].
  split.
  - destruct (fresh_response_is_cached_for_an_hour Example.showZ Example.noTokenizer
                (Example.resolves Example.answer) (Example.resolves Example.answer)
                Example.request "alice" Example.coldService 1000 3601900 LLM.openai
                Example.answer Hin) as [_ Hget].
    fold r in Hget. rewrite Hclock in Hget. exact Hget.
  - destruct (fresh_response_is_cached_for_an_hour Example.showZ Example.noTokenizer
                (Example.resolves Example.answer) (Example.resolves Example.answer)
                Example.request "alice" Example.coldService 1000 3601901 LLM.openai
                Example.answer Hin) as [_ Hget].
    fold r in Hget. rewrite Hclock in Hget. exact Hget.
Defined.

Lemma exhausted_client_makes_no_call_witness :
  Client.dailyQuotaLimit (Client.client Demo.spent)
  < Client.quotaUsed (Client.client Demo.spent)
    + Client.entryCost (Client.SearchVideos Demo.searchParams)
  ∧ ∃ msg,
      Client.effect (Transcript:=string) Demo.idOf Demo.idOf Demo.titled Demo.titled
        Demo.titled Demo.commentOf Demo.searchVideosList Demo.searchChannelsList
        Demo.videosList Demo.videosChart Demo.channelsList Demo.commentThreadsList
        Demo.pageGet (Client.SearchVideos Demo.searchParams) Demo.spent
      = (Some (Client.QuotaExceededError msg), Demo.spent, []).
Proof.
  assert (H : Client.dailyQuotaLimit (Client.client Demo.spent)
              < Client.quotaUsed (Client.client Demo.spent)
                + Client.entryCost (Client.SearchVideos Demo.searchParams))
    by (simpl; lia).
  split; [exact H|].
  exact (exhausted_client_makes_no_call (Transcript:=string) Demo.idOf Demo.idOf Demo.titled
           Demo.titled Demo.titled Demo.commentOf Demo.searchVideosList
           Demo.searchChannelsList Demo.videosList Demo.videosChart Demo.channelsList
           Demo.commentThreadsList Demo.pageGet (Client.SearchVideos Demo.searchParams)
           Demo.spent H).
Defined.

Lemma video_details_survive_missing_extras_witness :
  Client.quotaUsed (Client.client Demo.lastUnit) + 1
  <= Client.dailyQuotaLimit (Client.client Demo.lastUnit)
  ∧ ∃ r s' t,
      Client.getVideoDetails (Transcript:=string) Demo.titled Demo.commentOf Demo.videosList
        Demo.commentThreadsList Demo.pageGet Demo.detailsParams Demo.lastUnit = (inr r, s', t)
      ∧ Client.details_video r = "a video"%string
      ∧ Client.comments r = None
      ∧ Client.quotaUsed (Client.client s') = 8000.
Proof.
  assert (H1 : Client.quotaUsed (Client.client Demo.lastUnit) + 1
               <= Client.dailyQuotaLimit (Client.client Demo.lastUnit)) by (simpl; lia).
  assert (H2 : Demo.videosList
                 [Client.GetVideoDetailsParams.videoId Demo.detailsParams]
                 (Client.clock Demo.lastUnit)
               = (80%N, inr (Some ["a video"%string]))) by reflexivity.
  split; [exact H1|].
  destruct (video_details_survive_missing_extras (Transcript:=string) Demo.titled
              Demo.commentOf Demo.videosList Demo.commentThreadsList Demo.pageGet
              Demo.detailsParams Demo.lastUnit 80%N "a video"%string [] H1 H2)
    as (r & s' & t & Hrun & Hvideo & _ & _ & Hcount & Hnone).
  exists r, s', t.
  assert (Hc : Client.comments r = None) by (apply Hnone; reflexivity).
  split; [exact Hrun|]. split; [exact Hvideo|]. split; [exact Hc|].
  rewrite Hcount, Hc. reflexivity.
Defined.

Lemma client_quota_error_has_two_sources_witness :
  let r := Client.effect (Transcript:=string) Demo.idOf Demo.idOf Demo.titled Demo.titled
             Demo.titled Demo.commentOf Demo.searchVideosList Demo.searchChannelsList
             Demo.videosList Demo.videosChart Demo.channelsList Demo.commentThreadsList
             Demo.pageGet (Client.SearchVideos Demo.searchParams) Demo.spent in
  r.1.1 = Some (Client.QuotaExceededError
                  "Operation would exceed daily quota limit. Used: 8000, Cost: 100, Limit: 8000")
  ∧ ((∃ cost, (cost = 1 ∨ cost = 100)
        ∧ Client.dailyQuotaLimit (Client.client r.1.2)
          < Client.quotaUsed (Client.client r.1.2) + cost
        ∧ ∀ c e, last r.2 ≠ Some (Client.Called c (Some e)))
     ∨ (∃ c e, last r.2 = Some (Client.Called c (Some e))
          ∧ Client.status e = Some 403
          ∧ Client.apiMessage e
            = Some "Operation would exceed daily quota limit. Used: 8000, Cost: 100, Limit: 8000"%string
          ∧ Client.includes "quota"
              "Operation would exceed daily quota limit. Used: 8000, Cost: 100, Limit: 8000"
            = true)).
Proof.
  intros r.
  assert (H : r.1.1 = Some (Client.QuotaExceededError
                "Operation would exceed daily quota limit. Used: 8000, Cost: 100, Limit: 8000"))
    by (vm_compute; reflexivity).
  split; [exact H|].
  exact (client_quota_error_has_two_sources (Transcript:=string) Demo.idOf Demo.idOf
           Demo.titled Demo.titled Demo.titled Demo.commentOf Demo.searchVideosList
           Demo.searchChannelsList Demo.videosList Demo.videosChart Demo.channelsList
           Demo.commentThreadsList Demo.pageGet (Client.SearchVideos Demo.searchParams)
           Demo.spent _ H).
Defined.


Lemma channel_fallback_never_answers_witness :
  let after :=
    Tools.serve Demo.idOf Demo.idOf Demo.titled Demo.titled Demo.titled Demo.commentOf
      Demo.searchVideosList Demo.searchChannelsList Demo.videosList Demo.videosChart
      Demo.channelsList Demo.commentThreadsList Demo.pageGet Demo.enhanceVideoDetails
      Demo.enhanceTrendingData Demo.enhanceChannelResults
      [Tools.Channels Demo.channelParams; Tools.Channels Demo.channelParams] Demo.server in
  Tools.keyedByParams (Tools.channelSearches Demo.server)
  ∧ Tools.keyedByParams (Tools.channelSearches after)
  ∧ Tools.getFallbackChannelData "a channel"
      (Tools.worldOf (Tools.channelSearches after) after)
    = (inr None, Tools.worldOf (Tools.channelSearches after) after, []).
Proof.
  intros after.
  assert (H : Tools.keyedByParams (Tools.channelSearches Demo.server)).
  { intros key [entry Hentry]. simpl in Hentry. by rewrite lookup_empty in Hentry. }
  split; [exact H|].
  destruct (channel_fallback_never_answers (Transcript:=string)
              Demo.idOf Demo.idOf Demo.titled Demo.titled Demo.titled Demo.commentOf
              Demo.searchVideosList Demo.searchChannelsList Demo.videosList Demo.videosChart
              Demo.channelsList Demo.commentThreadsList Demo.pageGet Demo.enhanceVideoDetails
              Demo.enhanceTrendingData Demo.enhanceChannelResults
              [Tools.Channels Demo.channelParams; Tools.Channels Demo.channelParams]
              Demo.server H) as (_ & Hkeyed & Hfallback & _).
  split; [exact Hkeyed|exact (Hfallback "a channel"%string)].
Defined.
